(** * A model of the blog API (routes/blogs.js and routes/users.js)

    The route handlers are embedded as pure functions from a database state
    and a request to a new database state and an HTTP response.  The
    database is the pair of the [Blog] and [User] collections, each a finite
    map from document id to document.  Responses carry a status code and a
    JSON body.

    Boundaries of the model:
    - requests reach the handlers after the [auth] middleware, so a private
      route receives the id of the authenticated user;
    - document ids are well-formed ObjectIds;
    - the regular-expression engine is a collaborator, see [RegexEngine], and
      so is the measure of a text's length, see [TextMeasure];
    - handlers run one after the other (no interleaving of requests), and
      the store does not fail;
    - the fields of a request body have the types the handlers expect;
    - the version key, the ids of embedded comments and the timestamps of a
      user are left out of the JSON rendering of a document;
    - of a validation error only the field and the message are rendered;
    - a new blog gets an id that no stored blog has, which may be the id of
      a deleted one. *)

From Stdlib Require Import ZArith String Ascii.
From stdpp Require Import base option list sorting gmap fin_maps.

Local Open Scope string_scope.
Local Set Warnings "-register-all".

(** ** JSON values *)

Definition ObjectId := positive.

Inductive Value :=
| VNull
| VBool (b : bool)
| VNum (n : Z)
| VStr (s : string)
| VId (o : ObjectId)
| VArr (vs : list Value)
| VObj (fs : list (string * Value)).

(** A JSON object is its list of key/value pairs. *)
Definition Doc := list (string * Value).

Fixpoint field (k : string) (d : Doc) : option Value :=
  match d with
  | [] => None
  | (k', v) :: d' => if String.eqb k k' then Some v else field k d'
  end.

(** [v.k] for a JSON value [v]. *)
Definition json_field (k : string) (v : Value) : option Value :=
  match v with
  | VObj d => field k d
  | _ => None
  end.

Fixpoint set_field (k : string) (v : Value) (d : Doc) : Doc :=
  match d with
  | [] => [(k, v)]
  | (k', v') :: d' =>
      if String.eqb k k' then (k, v) :: d' else (k', v') :: set_field k v d'
  end.

Fixpoint mem_string (k : string) (ks : list string) : bool :=
  match ks with
  | [] => false
  | k' :: ks' => String.eqb k k' || mem_string k ks'
  end.

(** [select('-a -b')]: drop the named paths. *)
Definition select_exclude (names : list string) (d : Doc) : Doc :=
  List.filter (fun kv => negb (mem_string (fst kv) names)) d.

(** [select('a b')]: keep the named paths, and [_id], which a projection
    keeps unless it is excluded by name. *)
Definition select_include (names : list string) (d : Doc) : Doc :=
  List.filter (fun kv => mem_string (fst kv) ("_id" :: names)) d.

(** ** Documents *)

Record Comment := mkComment {
  user : ObjectId;
  comment_content : string;
  comment_createdAt : Z
}.

(** Modelled from the spec: the Blog schema (models/Blog) is not among the
    sources; the fields are those of the spec's data model. *)
Record Blog := mkBlog {
  title : string;
  content : string;
  tags : list string;
  featuredImage : string;
  published : bool;
  author : ObjectId;
  views : Z;
  likes : list ObjectId;
  comments : list Comment;
  createdAt : Z;
  updatedAt : Z
}.

(** Modelled from the spec: the User schema (models/User) is not among the
    sources; the fields are those of the spec's data model, without the
    profile timestamps. *)
Record User := mkUser {
  username : string;
  email : string;
  password : string;
  bio : string;
  avatar : string
}.

Record Db := mkDb {
  Blogs : gmap ObjectId Blog;
  Users : gmap ObjectId User
}.

Definition comment_json (c : Comment) : Value :=
  VObj [("user", VId (user c));
        ("content", VStr (comment_content c));
        ("createdAt", VNum (comment_createdAt c))].

Definition blog_doc (id : ObjectId) (b : Blog) : Doc :=
  [("_id", VId id);
   ("title", VStr (title b));
   ("content", VStr (content b));
   ("tags", VArr (VStr <$> tags b));
   ("featuredImage", VStr (featuredImage b));
   ("published", VBool (published b));
   ("author", VId (author b));
   ("views", VNum (views b));
   ("likes", VArr (VId <$> likes b));
   ("comments", VArr (comment_json <$> comments b));
   ("createdAt", VNum (createdAt b));
   ("updatedAt", VNum (updatedAt b))].

Definition user_doc (id : ObjectId) (u : User) : Doc :=
  [("_id", VId id);
   ("username", VStr (username u));
   ("email", VStr (email u));
   ("password", VStr (password u));
   ("bio", VStr (bio u));
   ("avatar", VStr (avatar u))].

(** [populate(path, 'a b')] on a reference: the referenced user restricted to
    the named fields, or null when the user is gone. *)
Definition populate_ref (db : Db) (names : list string) (v : Value) : Value :=
  match v with
  | VId u =>
      match Users db !! u with
      | Some usr => VObj (select_include names (user_doc u usr))
      | None => VNull
      end
  | _ => v
  end.

Definition populate (db : Db) (path : string) (names : list string) (d : Doc) : Doc :=
  match field path d with
  | Some v => set_field path (populate_ref db names v) d
  | None => d
  end.

(** [populate('comments.user', 'a b')]. *)
Definition populate_comments_user (db : Db) (names : list string) (d : Doc) : Doc :=
  match field "comments" d with
  | Some (VArr cs) =>
      set_field "comments"
        (VArr ((fun c => match c with
                         | VObj fs => VObj (populate db "user" names fs)
                         | _ => c
                         end) <$> cs)) d
  | _ => d
  end.

(** ** Responses *)

Record Response := mkRes { status : Z; json : Value }.

Definition message (s : string) : Value := VObj [("message", VStr s)].

Definition server_error : Response := mkRes 500 (message "Server error").

(** ** JavaScript coercions used by the handlers *)

(** [parseInt(x) || d]: the default replaces NaN (here [None]) and 0. *)
Definition num_or (x : option Z) (d : Z) : Z :=
  match x with
  | Some n => if (n =? 0)%Z then d else n
  | None => d
  end.

(** [x || ''] for a string or undefined. *)
Definition str_or_empty (x : option string) : string :=
  match x with
  | Some s => s
  | None => ""
  end.

(** Truthiness of a string. *)
Definition truthy (s : string) : bool := negb (String.eqb s "").

(** [Math.ceil(a / b)] for integers [a] and [b <> 0] (exact as long as both
    are below 2^53, where the floating-point quotient cannot round across an
    integer). *)
Definition ceil_div (a b : Z) : Z := (- ((- a) / b))%Z.

(** ** The regular-expression engine

    [regex_valid p] tells whether [new RegExp(p, 'i')] constructs a regular
    expression (it throws a SyntaxError otherwise); [regex_test p s] is the
    case-insensitive search of pattern [p] in the subject [s]. *)
Class RegexEngine := {
  regex_valid : string -> bool;
  regex_test : string -> string -> bool
}.

(** ** Store queries *)

(** A branch of [$or] in the public listing's filter. *)
Inductive Cond :=
| TitleRegex (p : string)      (* { title: { $regex: p, $options: 'i' } } *)
| ContentRegex (p : string)    (* { content: { $regex: p, $options: 'i' } } *)
| TagsInRegex (p : string).    (* { tags: { $in: [/p/i] } } *)

(** The filter objects the handlers build: each key is optional, and the
    keys that are present are conjoined. *)
Record Query := mkQuery {
  q_published : option bool;
  q_or : option (list Cond);
  q_tags : option string;        (* { $in: [/p/i] } *)
  q_author : option ObjectId
}.

Section Store.
Context {engine : RegexEngine}.

Definition tags_in (p : string) (b : Blog) : bool :=
  existsb (regex_test p) (tags b).

Definition cond_matches (c : Cond) (b : Blog) : bool :=
  match c with
  | TitleRegex p => regex_test p (title b)
  | ContentRegex p => regex_test p (content b)
  | TagsInRegex p => tags_in p b
  end.

Definition matches (q : Query) (b : Blog) : bool :=
  match q_published q with Some p => Bool.eqb (published b) p | None => true end
  && match q_or q with Some cs => existsb (fun c => cond_matches c b) cs | None => true end
  && match q_tags q with Some p => tags_in p b | None => true end
  && match q_author q with Some a => Pos.eqb (author b) a | None => true end.

(** [Blog.find(query)], in the collection's own order. *)
Definition find (db : Db) (q : Query) : list (ObjectId * Blog) :=
  List.filter (fun ib => matches q (snd ib)) (map_to_list (Blogs db)).

(** [Blog.countDocuments(query)]. *)
Definition countDocuments (db : Db) (q : Query) : Z :=
  Z.of_nat (length (find db q)).
End Store.

(** [.sort({ createdAt: -1 })]: newest first.  The store leaves the order of
    documents created at the same time open; here it is the one the merge
    sort gives. *)
Definition newer_first (x y : ObjectId * Blog) : Prop :=
  (createdAt (snd y) <= createdAt (snd x))%Z.

Global Instance newer_first_dec x y : Decision (newer_first x y).
Proof. unfold newer_first. apply _. Defined.

Definition sort_createdAt_desc (l : list (ObjectId * Blog)) : list (ObjectId * Blog) :=
  merge_sort newer_first l.

(** [.skip(n)]: the store refuses a negative skip. *)
Definition cursor_skip {A} (n : Z) (l : list A) : option (list A) :=
  if (n <? 0)%Z then None else Some (drop (Z.to_nat n) l).

(** [.limit(n)]: 0 means no limit, and a negative limit is taken by its
    absolute value. *)
Definition cursor_limit {A} (n : Z) (l : list A) : list A :=
  if (n =? 0)%Z then l else take (Z.to_nat (Z.abs n)) l.

Definition pagination (page limit total : Z) : Value :=
  VObj [("currentPage", VNum page);
        ("totalPages", VNum (ceil_div total limit));
        ("totalBlogs", VNum total);
        ("hasNext", VBool (page <? ceil_div total limit)%Z);
        ("hasPrev", VBool (page >? 1)%Z)].

(** ** Requests *)

(** The query string of a list request.  [query_page] and [query_limit] hold
    what [parseInt] makes of the parameter: [None] is NaN (the parameter is
    absent or does not start with a number). *)
Record ReqQuery := mkReqQuery {
  query_page : option Z;
  query_limit : option Z;
  query_search : option string;
  query_tag : option string;
  query_author : option ObjectId;
  query_published : option string
}.

(** The [tags] of a request body: an array of strings, or some other JSON
    value. *)
Inductive TagsInput :=
| TagsArray (ts : list string)
| TagsOther.

(** The body of a create or update request; [None] is an absent field
    ([undefined]). *)
Record ReqBody := mkReqBody {
  body_title : option string;
  body_content : option string;
  body_tags : option TagsInput;
  body_featuredImage : option string;
  body_published : option bool
}.

(** ** The length of a text

    A [string] holds the bytes of a text (UTF-8).  The length checks do not
    count bytes: [isLength] of the validation library counts characters,
    and [maxlength] of a schema compares the [length] of the JavaScript
    string, its UTF-16 code units.  How they count is the libraries'
    business; what is used of the counts is that a text has no more
    characters than code units, and no more code units than bytes. *)
Class TextMeasure := {
  characters : string -> nat;
  code_units : string -> nat;
  characters_code_units : forall s, (characters s <= code_units s)%nat;
  code_units_bytes : forall s, (code_units s <= String.length s)%nat
}.

(** ** Validation chains (express-validator)

    A validation error is rendered by its field and message; the other
    members of the library's error object, among them the echo of the
    offending request value, are left out. *)

Section Validation.
Context {measure : TextMeasure}.

Definition verror (path msg : string) : Value :=
  VObj [("msg", VStr msg); ("path", VStr path)].

Definition validate (ok : bool) (path msg : string) : list Value :=
  if ok then [] else [verror path msg].

(** [body(path).optional()]: the chain is skipped for an absent field. *)
Definition optional {A} (x : option A) (chain : A -> list Value) : list Value :=
  match x with
  | Some v => chain v
  | None => []
  end.

Definition notEmpty (s : string) : bool := negb (String.eqb s "").

Definition isLength_max (n : nat) (s : string) : bool := Nat.leb (characters s) n.

Definition isArray (t : TagsInput) : bool :=
  match t with
  | TagsArray _ => true
  | TagsOther => false
  end.

Definition tags_chain (body : ReqBody) : list Value :=
  optional (body_tags body) (fun t => validate (isArray t) "tags" "Tags must be an array").

(** The chains of [POST /]; an absent field is validated as the empty
    string. *)
Definition create_validation (body : ReqBody) : list Value :=
  validate (notEmpty (str_or_empty (body_title body))) "title" "Title is required"
  ++ validate (isLength_max 200 (str_or_empty (body_title body))) "title"
       "Title must be less than 200 characters"
  ++ validate (notEmpty (str_or_empty (body_content body))) "content" "Content is required"
  ++ tags_chain body.

(** The chains of [PUT /:id]. *)
Definition update_validation (body : ReqBody) : list Value :=
  optional (body_title body)
    (fun t => validate (isLength_max 200 t) "title" "Title must be less than 200 characters")
  ++ optional (body_content body)
       (fun c => validate (notEmpty c) "content" "Content cannot be empty")
  ++ tags_chain body.

Definition validation_failed (errors : list Value) : Response :=
  mkRes 400 (VObj [("message", VStr "Validation failed"); ("errors", VArr errors)]).

Definition isEmpty (errors : list Value) : bool :=
  match errors with
  | [] => true
  | _ => false
  end.

(** [maxlength] of a schema path. *)
Definition maxlength (n : nat) (s : string) : bool := Nat.leb (code_units s) n.

(** Modelled from the spec: the validators of the Blog schema (models/Blog
    is not among the sources): the title is required and has 1 to 200
    characters, the content is required and not empty, the content of a
    comment is required and has 1 to 1000 characters. *)
Definition schema_title (t : string) : bool := notEmpty t && maxlength 200 t.

Definition schema_content (c : string) : bool := notEmpty c.

Definition schema_comment (c : string) : bool := notEmpty c && maxlength 1000 c.

End Validation.

(** ** Document updates *)

Definition set_views (v : Z) (b : Blog) : Blog :=
  mkBlog (title b) (content b) (tags b) (featuredImage b) (published b) (author b)
    v (likes b) (comments b) (createdAt b) (updatedAt b).

Definition set_likes (l : list ObjectId) (b : Blog) : Blog :=
  mkBlog (title b) (content b) (tags b) (featuredImage b) (published b) (author b)
    (views b) l (comments b) (createdAt b) (updatedAt b).

Definition set_comments (cs : list Comment) (b : Blog) : Blog :=
  mkBlog (title b) (content b) (tags b) (featuredImage b) (published b) (author b)
    (views b) (likes b) cs (createdAt b) (updatedAt b).

Definition set_updatedAt (t : Z) (b : Blog) : Blog :=
  mkBlog (title b) (content b) (tags b) (featuredImage b) (published b) (author b)
    (views b) (likes b) (comments b) (createdAt b) t.

(** [blog.save()] of a modified document whose modified paths pass their
    validators: the document replaces the stored one, and its modification
    time is refreshed.  The handlers check the validators before they call
    it ([save_validates]); what [save] does with a document that fails them,
    or that is not modified, is written out there. *)
Definition save (db : Db) (now : Z) (id : ObjectId) (b : Blog) : Db :=
  mkDb (<[id := set_updatedAt now b]> (Blogs db)) (Users db).

(** [Blog.findByIdAndDelete(id)]. *)
Definition findByIdAndDelete (db : Db) (id : ObjectId) : Db :=
  mkDb (delete id (Blogs db)) (Users db).

(** The tags of a validated body. *)
Definition tags_of (t : TagsInput) : list string :=
  match t with
  | TagsArray ts => ts
  | TagsOther => []
  end.

(** Modelled from the spec: the defaults of the Blog schema (models/Blog is
    not among the sources): no views, no likes and no comments; both
    timestamps are the time of creation. *)
Definition new_Blog (now : Z) (title content : string) (tags : list string)
    (featuredImage : string) (published : bool) (author : ObjectId) : Blog :=
  mkBlog title content tags featuredImage published author 0 [] [] now now.

(** The assignments of [PUT /:id]: a field is written when the body has it. *)
Definition apply_update (body : ReqBody) (blog : Blog) : Blog :=
  mkBlog
    (match body_title body with Some t => t | None => title blog end)
    (match body_content body with Some c => c | None => content blog end)
    (match body_tags body with Some t => tags_of t | None => tags blog end)
    (match body_featuredImage body with Some f => f | None => featuredImage blog end)
    (match body_published body with Some p => p | None => published blog end)
    (author blog) (views blog) (likes blog) (comments blog)
    (createdAt blog) (updatedAt blog).

Definition isEmpty_paths (paths : list string) : bool :=
  match paths with
  | [] => true
  | _ => false
  end.

(** The paths among those [PUT /:id] assigns that hold another value than
    the stored one. *)
Definition modified_paths (blog updated : Blog) : list string :=
  (if String.eqb (title updated) (title blog) then [] else ["title"])
  ++ (if String.eqb (content updated) (content blog) then [] else ["content"])
  ++ (if bool_decide (tags updated = tags blog) then [] else ["tags"])
  ++ (if String.eqb (featuredImage updated) (featuredImage blog) then []
      else ["featuredImage"])
  ++ (if Bool.eqb (published updated) (published blog) then [] else ["published"]).

(** ** routes/blogs.js *)

Section Handlers.
Context {engine : RegexEngine} {measure : TextMeasure}.

(** The validators [blog.save()] runs on the modified paths of a stored
    document; when one fails, [save] throws. *)
Definition save_validates (paths : list string) (updated : Blog) : bool :=
  (negb (mem_string "title" paths) || schema_title (title updated))
  && (negb (mem_string "content" paths) || schema_content (content updated)).

(** The filter of [GET /]; [None] when a [new RegExp] throws. *)
Definition public_query (search tag : string) (author : option ObjectId) : option Query :=
  let query := mkQuery (Some true) None None None in
  query ← (if truthy search then
             if regex_valid search then
               Some (mkQuery (q_published query)
                       (Some [TitleRegex search; ContentRegex search; TagsInRegex search])
                       (q_tags query) (q_author query))
             else None
           else Some query);
  query ← (if truthy tag then
             if regex_valid tag then
               Some (mkQuery (q_published query) (q_or query) (Some tag) (q_author query))
             else None
           else Some query);
  Some (match author with
        | Some a => mkQuery (q_published query) (q_or query) (q_tags query) (Some a)
        | None => query
        end).

(** The page of a listing: sorted, skipped and limited. *)
Definition page_window (db : Db) (query : Query) (skip limit : Z)
    : option (list (ObjectId * Blog)) :=
  cursor_limit limit <$> cursor_skip skip (sort_createdAt_desc (find db query)).

(** A document of the public listing: the author is populated and the
    content is left out. *)
Definition public_item (db : Db) (ib : ObjectId * Blog) : Value :=
  VObj (select_exclude ["content"]
          (populate db "author" ["username"; "avatar"] (blog_doc (fst ib) (snd ib)))).

(** GET / *)
Definition get_blogs (db : Db) (q : ReqQuery) : Response :=
  let page := num_or (query_page q) 1 in
  let limit := num_or (query_limit q) 10 in
  let skip := ((page - 1) * limit)%Z in
  let search := str_or_empty (query_search q) in
  let tag := str_or_empty (query_tag q) in
  let author := query_author q in
  match public_query search tag author with
  | None => server_error
  | Some query =>
      match page_window db query skip limit with
      | None => server_error
      | Some found =>
          let blogs := public_item db <$> found in
          let total := countDocuments db query in
          mkRes 200 (VObj [("blogs", VArr blogs);
                           ("pagination", pagination page limit total)])
      end
  end.

Definition blog_not_found : Response := mkRes 404 (message "Blog not found").

(** GET /:id *)
Definition get_blog (db : Db) (now : Z) (id : ObjectId) : Db * Response :=
  match Blogs db !! id with
  | None => (db, blog_not_found)
  | Some blog =>
      let blog := set_views (views blog + 1)%Z blog in
      let db := save db now id blog in
      (db, mkRes 200
             (VObj (populate_comments_user db ["username"; "avatar"]
                      (populate db "author" ["username"; "avatar"; "bio"]
                         (blog_doc id (set_updatedAt now blog))))))
  end.

(** POST /.  The new document gets an id that no stored blog has: the
    model does not remember the ids of deleted blogs, so an id can be given
    again after its blog was deleted, which the store never does. *)
Definition post_blog (db : Db) (now : Z) (req_user : ObjectId) (body : ReqBody)
    : Db * Response :=
  let errors := create_validation body in
  if negb (isEmpty errors) then (db, validation_failed errors)
  else
    let blog :=
      new_Blog now
        (str_or_empty (body_title body))
        (str_or_empty (body_content body))
        (match body_tags body with Some t => tags_of t | None => [] end)
        (str_or_empty (body_featuredImage body))
        (match body_published body with Some p => p | None => false end)
        req_user in
    if negb (save_validates ["title"; "content"] blog) then (db, server_error)
    else
    let id := fresh (dom (Blogs db)) in
    let db := mkDb (<[id := blog]> (Blogs db)) (Users db) in
    (db, mkRes 201
           (VObj [("message", VStr "Blog created successfully");
                  ("blog", VObj (populate db "author" ["username"; "avatar"]
                                   (blog_doc id blog)))])).

(** PUT /:id *)
Definition put_blog (db : Db) (now : Z) (req_user : ObjectId) (id : ObjectId)
    (body : ReqBody) : Db * Response :=
  let errors := update_validation body in
  if negb (isEmpty errors) then (db, validation_failed errors)
  else
    match Blogs db !! id with
    | None => (db, blog_not_found)
    | Some blog =>
        if negb (Pos.eqb (author blog) req_user) then
          (db, mkRes 403 (message "Not authorized to update this blog"))
        else
          let updated := apply_update body blog in
          let paths := modified_paths blog updated in
          if isEmpty_paths paths then
            (* nothing is modified: [save] writes nothing *)
            (db, mkRes 200
                   (VObj [("message", VStr "Blog updated successfully");
                          ("blog", VObj (populate db "author" ["username"; "avatar"]
                                           (blog_doc id blog)))]))
          else if negb (save_validates paths updated) then (db, server_error)
          else
            let db := save db now id updated in
            (db, mkRes 200
                   (VObj [("message", VStr "Blog updated successfully");
                          ("blog", VObj (populate db "author" ["username"; "avatar"]
                                           (blog_doc id (set_updatedAt now updated))))]))
    end.

(** DELETE /:id *)
Definition delete_blog (db : Db) (req_user : ObjectId) (id : ObjectId) : Db * Response :=
  match Blogs db !! id with
  | None => (db, blog_not_found)
  | Some blog =>
      if negb (Pos.eqb (author blog) req_user) then
        (db, mkRes 403 (message "Not authorized to delete this blog"))
      else
        (findByIdAndDelete db id, mkRes 200 (message "Blog deleted successfully"))
  end.

(** The new [likes] of POST /:id/like. *)
Definition toggle_like (req_user : ObjectId) (likes : list ObjectId) : list ObjectId :=
  if bool_decide (req_user ∈ likes) then filter (fun like => like ≠ req_user) likes
  else likes ++ [req_user].

(** POST /:id/like *)
Definition post_like (db : Db) (now : Z) (req_user : ObjectId) (id : ObjectId)
    : Db * Response :=
  match Blogs db !! id with
  | None => (db, blog_not_found)
  | Some blog =>
      let isLiked := bool_decide (req_user ∈ likes blog) in
      let blog := set_likes (toggle_like req_user (likes blog)) blog in
      (save db now id blog,
       mkRes 200
         (VObj [("message", VStr (if isLiked then "Blog unliked" else "Blog liked"));
                ("likes", VNum (Z.of_nat (length (likes blog))));
                ("isLiked", VBool (negb isLiked))]))
  end.

(** The chain of [POST /:id/comments]. *)
Definition comment_validation (content : option string) : list Value :=
  validate (notEmpty (str_or_empty content)) "content" "Comment content is required"
  ++ validate (isLength_max 1000 (str_or_empty content)) "content"
       "Comment must be less than 1000 characters".

(** POST /:id/comments *)
Definition post_comment (db : Db) (now : Z) (req_user : ObjectId) (id : ObjectId)
    (content : option string) : Db * Response :=
  let errors := comment_validation content in
  if negb (isEmpty errors) then (db, validation_failed errors)
  else
    match Blogs db !! id with
    | None => (db, blog_not_found)
    | Some blog =>
        let comment := mkComment req_user (str_or_empty content) now in
        if negb (schema_comment (comment_content comment)) then (db, server_error)
        else
        let db := save db now id (set_comments (comments blog ++ [comment]) blog) in
        let newComment :=
          match comment_json comment with
          | VObj fs => VObj (populate db "user" ["username"; "avatar"] fs)
          | v => v
          end in
        (db, mkRes 201
               (VObj [("message", VStr "Comment added successfully");
                      ("comment", newComment)]))
    end.

(** ** routes/users.js *)

(** A document of a profile's blog list. *)
Definition profile_item (ib : ObjectId * Blog) : Value :=
  VObj (select_include ["title"; "excerpt"; "createdAt"; "views"; "likes"]
          (blog_doc (fst ib) (snd ib))).

(** GET /profile/:id *)
Definition get_profile (db : Db) (id : ObjectId) : Response :=
  match Users db !! id with
  | None => mkRes 404 (message "User not found")
  | Some u =>
      let user := select_exclude ["password"] (user_doc id u) in
      let query := mkQuery (Some true) None None (Some id) in
      let blogs := profile_item <$> cursor_limit 10 (sort_createdAt_desc (find db query)) in
      mkRes 200 (VObj [("user", VObj user); ("blogs", VArr blogs)])
  end.

(** The filter of [GET /my-blogs]. *)
Definition my_blogs_query (req_user : ObjectId) (published : option string) : Query :=
  let query := mkQuery None None None (Some req_user) in
  match published with
  | Some p => mkQuery (Some (String.eqb p "true")) (q_or query) (q_tags query) (q_author query)
  | None => query
  end.

(** A document of the requester's own listing: the author is populated. *)
Definition my_item (db : Db) (ib : ObjectId * Blog) : Value :=
  VObj (populate db "author" ["username"; "avatar"] (blog_doc (fst ib) (snd ib))).

(** GET /my-blogs *)
Definition get_my_blogs (db : Db) (req_user : ObjectId) (q : ReqQuery) : Response :=
  let page := num_or (query_page q) 1 in
  let limit := num_or (query_limit q) 10 in
  let skip := ((page - 1) * limit)%Z in
  let published := query_published q in
  let query := my_blogs_query req_user published in
  match page_window db query skip limit with
  | None => server_error
  | Some found =>
      let blogs := my_item db <$> found in
      let total := countDocuments db query in
      mkRes 200 (VObj [("blogs", VArr blogs);
                       ("pagination", pagination page limit total)])
  end.

(** ** The server: requests and reachable databases *)

Inductive Request :=
| GET_blogs (q : ReqQuery)
| GET_blog (id : ObjectId)
| POST_blog (req_user : ObjectId) (body : ReqBody)
| PUT_blog (req_user : ObjectId) (id : ObjectId) (body : ReqBody)
| DELETE_blog (req_user : ObjectId) (id : ObjectId)
| POST_like (req_user : ObjectId) (id : ObjectId)
| POST_comment (req_user : ObjectId) (id : ObjectId) (content : option string)
| GET_profile (id : ObjectId)
| GET_my_blogs (req_user : ObjectId) (q : ReqQuery).

(** One request, served at time [now]. *)
Definition handle (db : Db) (now : Z) (r : Request) : Db * Response :=
  match r with
  | GET_blogs q => (db, get_blogs db q)
  | GET_blog id => get_blog db now id
  | POST_blog u body => post_blog db now u body
  | PUT_blog u id body => put_blog db now u id body
  | DELETE_blog u id => delete_blog db u id
  | POST_like u id => post_like db now u id
  | POST_comment u id c => post_comment db now u id c
  | GET_profile id => (db, get_profile db id)
  | GET_my_blogs u q => (db, get_my_blogs db u q)
  end.

(** The databases the server can be in: it starts with no blog, and every
    request is served from the database the previous one left.  The routes
    that register users and edit profiles write the user collection only;
    they are the step that replaces it. *)
Inductive reachable : Db -> Prop :=
| reachable_init (users : gmap ObjectId User) : reachable (mkDb ∅ users)
| reachable_step db now r : reachable db -> reachable (fst (handle db now r))
| reachable_users db users : reachable db -> reachable (mkDb (Blogs db) users).

End Handlers.

(** ** A concrete engine for literal patterns

    For a pattern without metacharacters the search of a regular expression
    is a substring search, here without regard to the case of ASCII
    letters.  This engine rejects every other pattern. *)

Definition lower (c : ascii) : ascii :=
  let n := nat_of_ascii c in
  if Nat.leb 65 n && Nat.leb n 90 then ascii_of_nat (n + 32) else c.

Fixpoint prefix_ci (p s : string) : bool :=
  match p, s with
  | EmptyString, _ => true
  | String a p', String b s' => Ascii.eqb (lower a) (lower b) && prefix_ci p' s'
  | String _ _, EmptyString => false
  end.

Fixpoint contains_ci (p s : string) : bool :=
  prefix_ci p s ||
  match s with
  | EmptyString => false
  | String _ s' => contains_ci p s'
  end.

Definition is_meta (c : ascii) : bool :=
  existsb (Ascii.eqb c) (list_ascii_of_string "\^$.|?*+()[]{}").

Definition literal (p : string) : bool :=
  negb (existsb is_meta (list_ascii_of_string p)).

Definition literal_engine : RegexEngine :=
  {| regex_valid := literal; regex_test := contains_ci |}.

(** ** routes/users.js: statistics and profile update *)

Section Stats.
Context {engine : RegexEngine} {measure : TextMeasure}.

(** [Blog.aggregate([{ $match: query }, { $group: { _id: null, total: { $sum: f } } }])]:
    one group that holds the sum when some document matches, and no group
    otherwise. *)
Definition aggregate_sum (db : Db) (query : Query) (f : Blog -> Z) : list Z :=
  match find db query with
  | [] => []
  | found => [foldr (fun ib acc => (f (snd ib) + acc)%Z) 0%Z found]
  end.

(** GET /stats *)
Definition get_stats (db : Db) (req_user : ObjectId) : Response :=
  let totalBlogs := countDocuments db (mkQuery None None None (Some req_user)) in
  let publishedBlogs := countDocuments db (mkQuery (Some true) None None (Some req_user)) in
  let draftBlogs := (totalBlogs - publishedBlogs)%Z in
  let totalViews := aggregate_sum db (mkQuery None None None (Some req_user)) views in
  let totalLikes :=
    aggregate_sum db (mkQuery None None None (Some req_user))
      (fun b => Z.of_nat (length (likes b))) in
  mkRes 200
    (VObj [("totalBlogs", VNum totalBlogs);
           ("publishedBlogs", VNum publishedBlogs);
           ("draftBlogs", VNum draftBlogs);
           ("totalViews", VNum (num_or (head totalViews) 0));
           ("totalLikes", VNum (num_or (head totalLikes) 0))]).

(** A sequence of requests, each served at its own time from the database
    the previous one left. *)
Fixpoint run (db : Db) (trace : list (Z * Request)) : Db :=
  match trace with
  | [] => db
  | (now, r) :: trace' => run (fst (handle db now r)) trace'
  end.

End Stats.

(** The URL syntax check of the validation library is a collaborator. *)
Class UrlValidator := { isURL : string -> bool }.

(** The body of a profile update. *)
Record ProfileBody := mkProfileBody {
  body_username : option string;
  body_bio : option string;
  body_avatar : option string
}.

Definition isLength_min_max {measure : TextMeasure} (lo hi : nat) (s : string) : bool :=
  Nat.leb lo (characters s) && Nat.leb (characters s) hi.

Definition word_char (c : ascii) : bool :=
  let n := nat_of_ascii c in
  (Nat.leb 97 n && Nat.leb n 122) || (Nat.leb 65 n && Nat.leb n 90)
  || (Nat.leb 48 n && Nat.leb n 57) || Nat.eqb n 95.

(** [matches(/^[a-zA-Z0-9_]+$/)]. *)
Definition username_pattern (s : string) : bool :=
  match s with
  | EmptyString => false
  | _ => forallb word_char (list_ascii_of_string s)
  end.

Section ProfileUpdate.
Context {urls : UrlValidator} {measure : TextMeasure}.

(** The chains of [PUT /profile]. *)
Definition profile_validation (body : ProfileBody) : list Value :=
  optional (body_username body)
    (fun name =>
       (validate (isLength_min_max 3 20 name) "username"
          "Username must be between 3 and 20 characters"
        ++ validate (username_pattern name) "username"
             "Username can only contain letters, numbers, and underscores")%list)
  ++ optional (body_bio body)
       (fun b => validate (isLength_max 500 b) "bio" "Bio must be less than 500 characters")
  ++ optional (body_avatar body)
       (fun a => validate (isURL a) "avatar" "Avatar must be a valid URL").

(** Modelled from the spec: the validator of the User schema that a profile
    update can fail (models/User is not among the sources): a bio has at
    most 500 characters.  [user.save()] runs it when the bio is modified,
    and throws when it fails. *)
Definition user_save_validates (stored user : User) : bool :=
  String.eqb (bio user) (bio stored) || maxlength 500 (bio user).

(** [User.findOne({ username })]. *)
Definition findOne_username (db : Db) (name : string) : option (ObjectId * User) :=
  List.find (fun iu => String.eqb (username (snd iu)) name) (map_to_list (Users db)).

(** PUT /profile *)
Definition put_profile (db : Db) (req_user : ObjectId) (body : ProfileBody)
    : Db * Response :=
  let errors := profile_validation body in
  if negb (isEmpty errors) then (db, validation_failed errors)
  else
    match Users db !! req_user with
    | None => (db, mkRes 404 (message "User not found"))
    | Some user =>
        let taken :=
          match body_username body with
          | Some name =>
              if truthy name && negb (String.eqb name (username user)) then
                match findOne_username db name with
                | Some _ => true
                | None => false
                end
              else false
          | None => false
          end in
        if taken then (db, mkRes 400 (message "Username already taken"))
        else
          let stored := user in
          let user :=
            mkUser
              (match body_username body with Some name => name | None => username user end)
              (email user) (password user)
              (match body_bio body with Some b => b | None => bio user end)
              (match body_avatar body with Some a => a | None => avatar user end) in
          if negb (user_save_validates stored user) then (db, server_error)
          else
          (mkDb (Blogs db) (<[req_user := user]> (Users db)),
           mkRes 200
             (VObj [("message", VStr "Profile updated successfully");
                    ("user", VObj [("id", VId req_user);
                                   ("username", VStr (username user));
                                   ("email", VStr (email user));
                                   ("bio", VStr (bio user));
                                   ("avatar", VStr (avatar user))])]))
    end.

End ProfileUpdate.

(** A URL check for running the handler: the text starts with http:// or
    https://. *)
Definition http_urls : UrlValidator :=
  {| isURL := fun s => String.prefix "http://" s || String.prefix "https://" s |}.

(** ** A concrete measure of text

    The counts of a text in UTF-8.  Every byte but the continuation bytes
    (10xxxxxx) starts a code point.  The validation library counts the code
    points but the variation selectors U+FE0E and U+FE0F (EF B8 8E, EF B8
    8F); a code point of four bytes (lead byte 11110xxx) takes two code
    units, every other one. *)

Definition continuation (c : ascii) : bool :=
  let n := nat_of_ascii c in Nat.leb 128 n && Nat.leb n 191.

Definition starts_continuation (s : string) : bool :=
  match s with
  | String c _ => continuation c
  | EmptyString => false
  end.

Definition variation_selector (c : ascii) (s : string) : bool :=
  match s with
  | String c1 (String c2 _) =>
      Nat.eqb (nat_of_ascii c) 239 && Nat.eqb (nat_of_ascii c1) 184
      && (Nat.eqb (nat_of_ascii c2) 142 || Nat.eqb (nat_of_ascii c2) 143)
  | _ => false
  end.

Definition four_bytes (c : ascii) (s : string) : bool :=
  Nat.leb 240 (nat_of_ascii c) && starts_continuation s.

Fixpoint utf8_characters (s : string) : nat :=
  match s with
  | EmptyString => 0
  | String c s' =>
      (if continuation c || variation_selector c s' then 0 else 1) + utf8_characters s'
  end.

Fixpoint utf8_code_units (s : string) : nat :=
  match s with
  | EmptyString => 0
  | String c s' =>
      (if continuation c then 0 else if four_bytes c s' then 2 else 1)
      + utf8_code_units s'
  end.

Global Instance utf8_measure : TextMeasure.
Proof.
  refine {| characters := utf8_characters; code_units := utf8_code_units |}.
  - induction s as [|c s IH]; cbn [utf8_characters utf8_code_units]; [lia|].
    destruct (continuation c), (variation_selector c s), (four_bytes c s); cbn; lia.
  - intros s.
    enough (H : (utf8_code_units s
                 + (if starts_continuation s then 1 else 0) <= String.length s)%nat)
      by (destruct (starts_continuation s); lia).
    induction s as [|c s IH];
      cbn [utf8_code_units String.length starts_continuation]; [lia|].
    unfold four_bytes.
    destruct (continuation c), (Nat.leb 240 (nat_of_ascii c)),
      (starts_continuation s); cbn in *; lia.
Defined.

(** ** A small database for running the handlers *)

Definition alice : ObjectId := 1%positive.
Definition bob : ObjectId := 2%positive.

Definition sample_users : gmap ObjectId User :=
  {[ alice := mkUser "alice" "alice@example.com" "secret-a" "" "";
     bob := mkUser "bob" "bob@example.com" "secret-b" "" "" ]}.

Definition db_empty : Db := mkDb ∅ sample_users.

Definition hello_body : ReqBody :=
  mkReqBody (Some "Hello") (Some "World") None None None.

(** alice creates a draft, then publishes it, then bob likes it. *)
Definition db_draft : Db := fst (post_blog db_empty 100 alice hello_body).

Definition db_published : Db :=
  fst (put_blog db_draft 200 alice 1%positive (mkReqBody None None None None (Some true))).

Definition db_liked : Db := fst (post_like db_published 300 bob 1%positive).

Definition hello_draft : Blog :=
  mkBlog "Hello" "World" [] "" false alice 0 [] [] 100 100.

Definition hello_published : Blog :=
  mkBlog "Hello" "World" [] "" true alice 0 [] [] 100 200.

Definition hello_liked : Blog :=
  mkBlog "Hello" "World" [] "" true alice 0 [bob] [] 100 300.

Definition empty_content_body : ReqBody :=
  mkReqBody None (Some "") None None None.

Definition no_query : ReqQuery := mkReqQuery None None None None None None.

(** bob then publishes a second post; alice keeps a later draft. *)
Definition db_two : Db :=
  fst (post_blog db_liked 500 bob
         (mkReqBody (Some "Second") (Some "More news") (Some (TagsArray ["news"]))
            None (Some true))).

Definition db_three : Db :=
  fst (post_blog db_two 600 alice
         (mkReqBody (Some "Notes") (Some "Unfinished") None None None)).

Definition second_post : Blog :=
  mkBlog "Second" "More news" ["news"] "" true bob 0 [] [] 500 500.

Definition page2_limit1 : ReqQuery := mkReqQuery (Some 2%Z) (Some 1%Z) None None None None.

(** A visitor reads alice's draft, bob comments on it and tries to delete
    it, alice retitles it, and it is read again. *)
Definition sample_trace : list (Z * Request) :=
  [(700%Z, GET_blog 1%positive);
   (710%Z, POST_comment bob 1%positive (Some "Nice"));
   (720%Z, DELETE_blog bob 1%positive);
   (730%Z, PUT_blog alice 1%positive (mkReqBody (Some "Hi") None None None None));
   (740%Z, GET_blog 1%positive)].

(** bob renames himself and sets an avatar. *)
Definition rename_body : ProfileBody :=
  mkProfileBody (Some "bobby_2") None (Some "https://example.com/bob.png").

(** A text of [n] letters e with acute accent (U+00E9, the bytes C3 A9):
    [n] characters in [2 * n] bytes. *)
Fixpoint accented (n : nat) : string :=
  match n with
  | O => EmptyString
  | S n => String (ascii_of_nat 195) (String (ascii_of_nat 169) (accented n))
  end.

Definition accented_body : ReqBody :=
  mkReqBody (Some (accented 101)) (Some "World") None None None.

(** ** Vocabulary of the statements *)

(** [c] is the ceiling of [a / b], for a positive [b]. *)
Definition is_ceil (a b c : Z) : Prop := ((c - 1) * b < a ∧ a ≤ c * b)%Z.

(** The blogs of a 200 response of a list endpoint. *)
Definition blogs_of (r : Response) : option (list Value) :=
  match json_field "blogs" (json r) with
  | Some (VArr ds) => Some ds
  | _ => None
  end.

(** Blog [id] is among the documents of a list response. *)
Definition listed (r : Response) (id : ObjectId) : Prop :=
  ∃ ds d, blogs_of r = Some ds ∧ d ∈ ds ∧ json_field "_id" d = Some (VId id).

(** The search text matches the title, or the content, or one of the tags. *)
Definition search_matches {engine : RegexEngine} (s : string) (b : Blog) : Prop :=
  regex_test s (title b) = true
  ∨ regex_test s (content b) = true
  ∨ ∃ t, t ∈ tags b ∧ regex_test s t = true.

(** The [published] parameter of the requester's own listing, read as the
    spec has it: absent, every blog is wanted; 'true' wants the published
    ones; anything else wants the drafts. *)
Definition wanted_published (p : option string) (b : Blog) : Prop :=
  match p with
  | None => True
  | Some s => if decide (s = "true") then published b = true else published b = false
  end.

(** Every list of likes in the database is free of duplicates. *)
Definition likes_NoDup (db : Db) : Prop :=
  ∀ id b, Blogs db !! id = Some b → NoDup (likes b).

(** What a request adds to the view counter of blog [id]. *)
Definition views_hit (id : ObjectId) (r : Request) : Z :=
  match r with
  | GET_blog id' => if Pos.eqb id' id then 1%Z else 0%Z
  | _ => 0%Z
  end.

(** The request is a delete of blog [id] sent by user [a]. *)
Definition deletes (a id : ObjectId) (r : Request) : Prop :=
  match r with
  | DELETE_blog u id' => id' = id ∧ u = a
  | _ => False
  end.

(** No two users have the same username. *)
Definition usernames_unique (db : Db) : Prop :=
  ∀ i j u v, Users db !! i = Some u → Users db !! j = Some v →
             username u = username v → i = j.

(** The ids of the blogs in a list of stored documents. *)
Definition ids_of (l : list (ObjectId * Blog)) : list ObjectId := fst <$> l.

(** How many times a sequence of requests retrieves blog [id]. *)
Definition retrievals (id : ObjectId) (trace : list (Z * Request)) : Z :=
  foldr (fun nr acc => (views_hit id (snd nr) + acc)%Z) 0%Z trace.

(** The same list request for another page. *)
Definition with_page (p : Z) (q : ReqQuery) : ReqQuery :=
  mkReqQuery (Some p) (query_limit q) (query_search q) (query_tag q)
    (query_author q) (query_published q).

(** The creation time a listed document shows. *)
Definition created_of (d : Value) : Z :=
  match json_field "createdAt" d with
  | Some (VNum t) => t
  | _ => 0%Z
  end.

(** No two stored blogs were created at the same time. *)
Definition created_apart (db : Db) : Prop :=
  ∀ i j bi bj, Blogs db !! i = Some bi → Blogs db !! j = Some bj →
    createdAt bi = createdAt bj → i = j.

(** The page report of a list response. *)
Definition report_field (k : string) (r : Response) : option Value :=
  match json_field "pagination" (json r) with
  | Some p => json_field k p
  | None => None
  end.

(** The key [k] occurs somewhere in a JSON value. *)
Fixpoint has_key (k : string) (v : Value) : bool :=
  match v with
  | VArr vs => existsb (has_key k) vs
  | VObj fs =>
      existsb (fun kv => match kv with (k', v') => String.eqb k' k || has_key k v' end) fs
  | _ => false
  end.

(** The sum of [g] over a list. *)
Fixpoint sumZ {A} (g : A → Z) (l : list A) : Z :=
  match l with
  | [] => 0%Z
  | x :: l' => (g x + sumZ g l')%Z
  end.

(** The sum of [g] over the stored blogs. *)
Definition total_of (g : Blog → Z) (db : Db) : Z :=
  sumZ (fun ib => g (snd ib)) (map_to_list (Blogs db)).

(** [g] for the blogs of user [u], nothing for the others. *)
Definition own (u : ObjectId) (g : Blog → Z) (b : Blog) : Z :=
  if Pos.eqb (author b) u then g b else 0%Z.

(** The number a stats response shows under the key [k]. *)
Definition stat (k : string) (r : Response) : Z :=
  match json_field k (json r) with
  | Some (VNum n) => n
  | _ => 0%Z
  end.

(** * Properties *)

(** Case analysis on the key [k] of a projected document: either it is the
    key [s], which is among the allowed ones, or the lookup goes on. *)
Ltac key_case k s :=
  destruct (String.eqb_spec k s) as [->|_];
  [intros _; repeat first [apply list_elem_of_here | apply list_elem_of_further]|].

(** ** Single-post retrieval counts views *)

(** C3: retrieving an existing blog answers 200 with the view counter one
    higher than before, and the stored counter is that new value; a second
    retrieval adds one more.  Retrieving an id that has no blog answers 404
    and leaves the database as it was. *)
Theorem get_blog_counts_views (db : Db) (now1 now2 : Z) (id : ObjectId) :
  (∀ b, Blogs db !! id = Some b →
     let r1 := get_blog db now1 id in
     let r2 := get_blog (fst r1) now2 id in
     status (snd r1) = 200%Z
     ∧ json_field "views" (json (snd r1)) = Some (VNum (views b + 1))
     ∧ views <$> Blogs (fst r1) !! id = Some (views b + 1)%Z
     ∧ (∀ id', id' ≠ id → Blogs (fst r1) !! id' = Blogs db !! id')
     ∧ status (snd r2) = 200%Z
     ∧ json_field "views" (json (snd r2)) = Some (VNum (views b + 1 + 1))
     ∧ views <$> Blogs (fst r2) !! id = Some (views b + 1 + 1)%Z)
  ∧ (Blogs db !! id = None →
     get_blog db now1 id = (db, blog_not_found) ∧ status blog_not_found = 404%Z).
Proof.
  split.
  - intros b Hb. cbv zeta.
    assert (H1 : get_blog db now1 id
                 = (save db now1 id (set_views (views b + 1) b),
                    snd (get_blog db now1 id))).
    { unfold get_blog. rewrite Hb. reflexivity. }
    assert (Hl : Blogs (fst (get_blog db now1 id)) !! id
                 = Some (set_updatedAt now1 (set_views (views b + 1) b))).
    { rewrite H1. cbn. apply lookup_insert_eq. }
    repeat split.
    + unfold get_blog. rewrite Hb. reflexivity.
    + unfold get_blog. rewrite Hb. reflexivity.
    + rewrite Hl. reflexivity.
    + intros id' Hne. rewrite H1. cbn. by apply lookup_insert_ne.
    + unfold get_blog at 1. rewrite Hl. reflexivity.
    + unfold get_blog at 1. rewrite Hl. reflexivity.
    + unfold get_blog at 1. rewrite Hl. cbn. rewrite lookup_insert_eq. reflexivity.
  - intros Hb. unfold get_blog. rewrite Hb. done.
Qed.

Lemma get_blog_counts_views_witness :
  views <$> Blogs (fst (get_blog (fst (get_blog db_published 300 1%positive)) 400 1%positive))
    !! 1%positive = Some 2%Z
  ∧ get_blog db_empty 300 1%positive = (db_empty, blog_not_found).
Proof.
  destruct (get_blog_counts_views db_published 300 400 1%positive) as [Hsome _].
  destruct (get_blog_counts_views db_empty 300 400 1%positive) as [_ Hnone].
  split.
  - apply (Hsome hello_published). vm_compute. reflexivity.
  - apply Hnone. vm_compute. reflexivity.
Defined.

(** ** Lengths *)

Section Lengths.
Context {measure : TextMeasure}.

Lemma characters_bytes s : (characters s ≤ String.length s)%nat.
Proof. pose proof (characters_code_units s). pose proof (code_units_bytes s). lia. Qed.

Lemma isLength_max_true n s : isLength_max n s = true ↔ (characters s ≤ n)%nat.
Proof. unfold isLength_max. apply Nat.leb_le. Qed.



Lemma notEmpty_true s : notEmpty s = true ↔ s ≠ "".
Proof.
  unfold notEmpty. destruct (String.eqb_spec s ""); cbn; split; intros; congruence.
Qed.

(** An empty text has no characters. *)
Lemma characters_empty : characters "" = 0%nat.
Proof. pose proof (characters_bytes ""). cbn in *. lia. Qed.

End Lengths.

(** ** Update and delete: existence, then ownership *)

Section Access.
Context {measure : TextMeasure}.

Lemma put_blog_invalid db now u id body :
  update_validation body ≠ [] →
  put_blog db now u id body = (db, validation_failed (update_validation body)).
Proof.
  intros Hne. unfold put_blog. destruct (update_validation body); done.
Qed.

Lemma put_blog_valid db now u id body :
  update_validation body = [] →
  put_blog db now u id body =
    match Blogs db !! id with
    | None => (db, blog_not_found)
    | Some blog =>
        if Pos.eqb (author blog) u then put_blog db now u id body
        else (db, mkRes 403 (message "Not authorized to update this blog"))
    end.
Proof.
  intros Hv. destruct (Blogs db !! id) as [blog|] eqn:Hb.
  - destruct (Pos.eqb (author blog) u) eqn:Ha; [done|].
    unfold put_blog. by rewrite Hv, Hb, Ha.
  - unfold put_blog. by rewrite Hv, Hb.
Qed.

Lemma modified_paths_nil body b :
  modified_paths b (apply_update body b) = [] → apply_update body b = b.
Proof.
  unfold modified_paths.
  destruct (String.eqb_spec (title (apply_update body b)) (title b)) as [Ht|]; [|done].
  destruct (String.eqb_spec (content (apply_update body b)) (content b)) as [Hc|]; [|done].
  destruct (bool_decide_reflect (tags (apply_update body b) = tags b)) as [Hts|]; [|done].
  destruct (String.eqb_spec (featuredImage (apply_update body b)) (featuredImage b))
    as [Hf|]; [|done].
  destruct (Bool.eqb_spec (published (apply_update body b)) (published b)) as [Hp|]; [|done].
  intros _. destruct b as [t c ts f p a v l cs ca ua].
  unfold apply_update in *. cbn in *. congruence.
Qed.

(** What [PUT /:id] does for the author of a stored blog, when the body
    passes the chains: nothing is modified, or [save] throws, or the
    updated blog is stored. *)
Lemma put_blog_author db now u id body b :
  update_validation body = [] → Blogs db !! id = Some b → author b = u →
  (apply_update body b = b
   ∧ fst (put_blog db now u id body) = db
   ∧ status (snd (put_blog db now u id body)) = 200%Z)
  ∨ (put_blog db now u id body = (db, server_error))
  ∨ (fst (put_blog db now u id body) = save db now id (apply_update body b)
     ∧ status (snd (put_blog db now u id body)) = 200%Z).
Proof.
  intros Hv Hb Ha. apply Pos.eqb_eq in Ha.
  unfold put_blog. rewrite Hv, Hb, Ha. cbn [isEmpty negb].
  destruct (modified_paths b (apply_update body b)) as [|path paths] eqn:Hm.
  - left. split; [by apply modified_paths_nil|done].
  - cbn [isEmpty_paths]. right.
    destruct (save_validates (path :: paths) (apply_update body b)); [by right|by left].
Qed.

(** [PUT /:id] leaves the database as it was, or saves the updated blog
    of its author. *)
Lemma put_blog_db db now u id body :
  fst (put_blog db now u id body) = db
  ∨ ∃ b, Blogs db !! id = Some b ∧ author b = u ∧ update_validation body = []
       ∧ fst (put_blog db now u id body) = save db now id (apply_update body b)
       ∧ status (snd (put_blog db now u id body)) = 200%Z.
Proof.
  destruct (update_validation body) as [|e es] eqn:Hv;
    [|left; by rewrite put_blog_invalid by (rewrite Hv; done)].
  rewrite put_blog_valid by done.
  destruct (Blogs db !! id) as [b|] eqn:Hb; [|by left].
  destruct (Pos.eqb_spec (author b) u) as [Ha|]; [|by left].
  destruct (put_blog_author db now u id body b Hv Hb Ha)
    as [(_ & Hdb & _)|[Herr|[Hdb Hst]]].
  - by left.
  - left. by rewrite Herr.
  - right. by exists b.
Qed.

(** [POST /] leaves the database as it was, or stores the new blog under
    an id that was free. *)
Lemma post_blog_db db now u body :
  fst (post_blog db now u body) = db
  ∨ ∃ b, b = new_Blog now (str_or_empty (body_title body))
               (str_or_empty (body_content body))
               (match body_tags body with Some t => tags_of t | None => [] end)
               (str_or_empty (body_featuredImage body))
               (match body_published body with Some p => p | None => false end) u
       ∧ create_validation body = []
       ∧ fst (post_blog db now u body)
         = mkDb (<[fresh (dom (Blogs db)) := b]> (Blogs db)) (Users db)
       ∧ status (snd (post_blog db now u body)) = 201%Z.
Proof.
  unfold post_blog. destruct (create_validation body) as [|e es]; [|by left].
  cbn [isEmpty negb]. destruct (save_validates _ _); [|by left].
  right. eexists. by split.
Qed.

(** [POST /:id/comments] leaves the database as it was, or saves the blog
    with the new comment at the end. *)
Lemma post_comment_db db now u id c :
  fst (post_comment db now u id c) = db
  ∨ ∃ b, Blogs db !! id = Some b ∧ comment_validation c = []
       ∧ fst (post_comment db now u id c)
         = save db now id
             (set_comments (comments b ++ [mkComment u (str_or_empty c) now]) b)
       ∧ status (snd (post_comment db now u id c)) = 201%Z.
Proof.
  unfold post_comment. destruct (comment_validation c) as [|e es]; [|by left].
  cbn [isEmpty negb]. destruct (Blogs db !! id) as [b|]; [|by left].
  destruct (schema_comment _); [|by left].
  right. by exists b.
Qed.

(** A 200 answer of [PUT /:id]: the requester is the author of the stored
    blog, and the blog stored afterwards is the updated one, with its
    modification time kept or refreshed. *)
Lemma put_blog_ok db now u id body :
  status (snd (put_blog db now u id body)) = 200%Z →
  ∃ b b', Blogs db !! id = Some b ∧ author b = u ∧ update_validation body = []
       ∧ Blogs (fst (put_blog db now u id body)) !! id = Some b'
       ∧ (b' = apply_update body b ∨ b' = set_updatedAt now (apply_update body b))
       ∧ (∀ id', id' ≠ id →
            Blogs (fst (put_blog db now u id body)) !! id' = Blogs db !! id')
       ∧ Users (fst (put_blog db now u id body)) = Users db.
Proof.
  intros Hok.
  destruct (update_validation body) as [|e es] eqn:Hv;
    [|by rewrite put_blog_invalid in Hok by (rewrite Hv; done)].
  rewrite put_blog_valid in Hok by done.
  destruct (Blogs db !! id) as [b|] eqn:Hb; [|done].
  destruct (Pos.eqb_spec (author b) u) as [Ha|]; [|done].
  exists b.
  destruct (put_blog_author db now u id body b Hv Hb Ha)
    as [(Hsame & Hdb & _)|[Herr|[Hdb _]]].
  - exists b. rewrite Hdb. split; [done|]. split; [done|]. split; [done|].
    split; [done|]. split; [by left|]. by split.
  - rewrite Herr in Hok. done.
  - exists (set_updatedAt now (apply_update body b)). rewrite Hdb.
    split; [done|]. split; [done|]. split; [done|].
    split; [cbn; apply lookup_insert_eq|]. split; [by right|]. split; [|done].
    intros id' Hne. cbn. by apply lookup_insert_ne.
Qed.

(** C1 (amended): a delete, and an update whose body passes validation,
    answer 404 when the id has no blog, whoever asks; 403 when the blog is
    another user's, leaving the database as it was; and change the database
    only for the blog's author: the author's delete removes the blog, and
    the author's update is answered 200, with the updated blog stored, or
    500, with the database as it was.  An update whose body fails
    validation is answered 400 before the blog is looked up. *)
Theorem update_delete_access (db : Db) (now : Z) (u id : ObjectId) (body : ReqBody) :
  (update_validation body ≠ [] →
     fst (put_blog db now u id body) = db
     ∧ status (snd (put_blog db now u id body)) = 400%Z)
  ∧ (Blogs db !! id = None →
     delete_blog db u id = (db, blog_not_found)
     ∧ (update_validation body = [] → put_blog db now u id body = (db, blog_not_found))
     ∧ status blog_not_found = 404%Z)
  ∧ (∀ b, Blogs db !! id = Some b → author b ≠ u →
     fst (delete_blog db u id) = db
     ∧ status (snd (delete_blog db u id)) = 403%Z
     ∧ (update_validation body = [] →
        fst (put_blog db now u id body) = db
        ∧ status (snd (put_blog db now u id body)) = 403%Z))
  ∧ (∀ b, Blogs db !! id = Some b → author b = u →
     fst (delete_blog db u id) = findByIdAndDelete db id
     ∧ Blogs (fst (delete_blog db u id)) !! id = None
     ∧ status (snd (delete_blog db u id)) = 200%Z
     ∧ (update_validation body = [] →
        (status (snd (put_blog db now u id body)) = 200%Z
         ∨ status (snd (put_blog db now u id body)) = 500%Z)
        ∧ (status (snd (put_blog db now u id body)) = 200%Z →
           ∃ b', Blogs (fst (put_blog db now u id body)) !! id = Some b'
             ∧ (b' = apply_update body b
                ∨ b' = set_updatedAt now (apply_update body b)))
        ∧ (status (snd (put_blog db now u id body)) = 500%Z →
           fst (put_blog db now u id body) = db)))
  ∧ (fst (delete_blog db u id) ≠ db ∨ fst (put_blog db now u id body) ≠ db →
     ∃ b, Blogs db !! id = Some b ∧ author b = u).
Proof.
  split; [|split; [|split; [|split]]].
  - intros Hne. by rewrite put_blog_invalid.
  - intros Hb. split; [|split; [|done]].
    + unfold delete_blog. by rewrite Hb.
    + intros Hv. rewrite put_blog_valid by done. by rewrite Hb.
  - intros b Hb Hne. apply Pos.eqb_neq in Hne.
    unfold delete_blog. rewrite Hb, Hne. cbn. split; [done|split; [done|]].
    intros Hv. rewrite put_blog_valid by done. by rewrite Hb, Hne.
  - intros b Hb Heq. pose proof Heq as Heqb. apply Pos.eqb_eq in Heqb.
    unfold delete_blog. rewrite Hb, Heqb. cbn. split; [done|split; [|split; [done|]]].
    + apply lookup_delete_eq.
    + intros Hv.
      destruct (put_blog_author db now u id body b Hv Hb Heq)
        as [(Hsame & Hdb & Hst)|[Herr|[Hdb Hst]]].
      * rewrite Hst, Hdb. split; [by left|]. split; [|done].
        intros _. exists b. split; [done|]. left. by rewrite Hsame.
      * rewrite Herr. cbn. split; [by right|]. by split.
      * rewrite Hst, Hdb. split; [by left|]. split; [|done].
        intros _. eexists. split; [cbn; apply lookup_insert_eq|]. by right.
  - intros Hch. destruct (Blogs db !! id) as [b|] eqn:Hb.
    + exists b. split; [done|]. destruct (Pos.eqb (author b) u) eqn:Heq.
      * by apply Pos.eqb_eq.
      * exfalso. destruct Hch as [Hch|Hch]; apply Hch.
        -- unfold delete_blog. by rewrite Hb, Heq.
        -- unfold put_blog. destruct (isEmpty (update_validation body)); [|done].
           cbn. by rewrite Hb, Heq.
    + exfalso. destruct Hch as [Hch|Hch]; apply Hch.
      * unfold delete_blog. by rewrite Hb.
      * unfold put_blog. destruct (isEmpty (update_validation body)); [|done].
        cbn. by rewrite Hb.
Qed.

End Access.

(** C1, as the claim has it for an update of an id that has no blog: the
    answer would be 404.  A body that fails validation is answered 400
    first. *)
Lemma put_blog_missing_not_404 :
  ¬ (Blogs db_empty !! 1%positive = None →
     status (snd (put_blog db_empty 100 bob 1%positive empty_content_body)) = 404%Z).
Proof.
  intros Hclaim. specialize (Hclaim eq_refl). vm_compute in Hclaim. discriminate.
Qed.

Lemma update_delete_access_witness :
  status (snd (put_blog db_published 400 bob 1%positive hello_body)) = 403%Z
  ∧ put_blog db_published 400 bob 7%positive hello_body = (db_published, blog_not_found)
  ∧ Blogs (fst (delete_blog db_published alice 1%positive)) !! 1%positive = None
  ∧ status (snd (put_blog db_published 400 bob 7%positive empty_content_body)) = 400%Z.
Proof.
  destruct (update_delete_access db_published 400 bob 1%positive hello_body)
    as (_ & _ & Hforbidden & _).
  destruct (update_delete_access db_published 400 bob 7%positive hello_body)
    as (_ & Hmissing & _).
  destruct (update_delete_access db_published 400 alice 1%positive hello_body)
    as (_ & _ & _ & Howner & _).
  destruct (update_delete_access db_published 400 bob 7%positive empty_content_body)
    as (Hinvalid & _).
  split; [|split; [|split]].
  - apply (Hforbidden hello_published); [vm_compute; reflexivity| |reflexivity].
    vm_compute. discriminate.
  - apply Hmissing; [vm_compute; reflexivity|reflexivity].
  - apply (Howner hello_published); vm_compute; reflexivity.
  - apply Hinvalid. vm_compute. discriminate.
Defined.

(** The author empties the title: [save] throws on the schema's validator,
    the answer is 500 and the blog is as it was. *)
Example put_blog_empty_title :
  put_blog db_published 400 alice 1%positive (mkReqBody (Some "") None None None None)
  = (db_published, server_error).
Proof. vm_compute. reflexivity. Qed.

(** The author sends the stored values: nothing is modified, the answer is
    200 and the modification time stays. *)
Example put_blog_same_values :
  fst (put_blog db_published 400 alice 1%positive hello_body) = db_published
  ∧ status (snd (put_blog db_published 400 alice 1%positive hello_body)) = 200%Z
  ∧ Blogs db_published !! 1%positive = Some hello_published
  ∧ updatedAt hello_published = 200%Z.
Proof. vm_compute. by repeat split. Qed.

(** ** The like toggle *)

Lemma toggle_like_elem u (l : list ObjectId) :
  u ∈ toggle_like u l ↔ u ∉ l.
Proof.
  unfold toggle_like. destruct (bool_decide_reflect (u ∈ l)) as [Hin|Hin].
  - rewrite list_elem_of_filter. tauto.
  - rewrite elem_of_app, list_elem_of_singleton. tauto.
Qed.

Lemma toggle_like_NoDup u (l : list ObjectId) :
  NoDup l → NoDup (toggle_like u l).
Proof.
  intros Hl. unfold toggle_like. destruct (bool_decide_reflect (u ∈ l)) as [Hin|Hin].
  - by apply NoDup_filter.
  - apply NoDup_app. split; [done|]. split; [|apply NoDup_singleton].
    intros x Hx Hx'. apply list_elem_of_singleton in Hx'. by subst.
Qed.

Lemma filter_ne_all u (l : list ObjectId) :
  u ∉ l → filter (fun like => like ≠ u) l = l.
Proof.
  induction l as [|x l IH]; [done|].
  rewrite not_elem_of_cons. intros [Hne Hnin].
  rewrite filter_cons_True by done. by rewrite IH.
Qed.

Lemma filter_ne_snoc u (l : list ObjectId) :
  NoDup l → u ∈ l → (filter (fun like => like ≠ u) l ++ [u])%list ≡ₚ l.
Proof.
  induction l as [|x l IH]; intros Hnd Hin.
  - by apply elem_of_nil in Hin.
  - apply NoDup_cons in Hnd as [Hx Hnd].
    destruct (decide (x = u)) as [->|Hne].
    + rewrite filter_cons_False by naive_solver.
      rewrite filter_ne_all by done. symmetry. apply Permutation_cons_append.
    + rewrite filter_cons_True by done. cbn. f_equiv. apply IH; [done|].
      apply elem_of_cons in Hin as [->|]; done.
Qed.

Lemma toggle_like_twice u (l : list ObjectId) :
  NoDup l → toggle_like u (toggle_like u l) ≡ₚ l.
Proof.
  intros Hnd. destruct (decide (u ∈ l)) as [Hin|Hin].
  - assert (toggle_like u l = filter (fun like => like ≠ u) l) as ->.
    { unfold toggle_like. by rewrite bool_decide_eq_true_2. }
    unfold toggle_like. rewrite bool_decide_eq_false_2.
    + by apply filter_ne_snoc.
    + rewrite list_elem_of_filter. tauto.
  - assert (toggle_like u l = (l ++ [u])%list) as ->.
    { unfold toggle_like. by rewrite bool_decide_eq_false_2. }
    unfold toggle_like. rewrite bool_decide_eq_true_2.
    + rewrite filter_app, filter_ne_all by done.
      rewrite filter_cons_False by tauto. by rewrite filter_nil, app_nil_r.
    + rewrite elem_of_app, list_elem_of_singleton. tauto.
Qed.

Lemma likes_NoDup_insert db id b users :
  likes_NoDup db → NoDup (likes b) → likes_NoDup (mkDb (<[id := b]> (Blogs db)) users).
Proof.
  intros Hdb Hb id' b'. cbn. rewrite lookup_insert.
  case_decide; [naive_solver|]. apply Hdb.
Qed.

Lemma likes_NoDup_delete db id users :
  likes_NoDup db → likes_NoDup (mkDb (delete id (Blogs db)) users).
Proof.
  intros Hdb id' b'. cbn. rewrite lookup_delete.
  case_decide; [done|]. apply Hdb.
Qed.

Section Reachable.
Context {engine : RegexEngine} {measure : TextMeasure}.

Lemma likes_NoDup_handle db now r :
  likes_NoDup db → likes_NoDup (fst (handle db now r)).
Proof.
  intros Hdb. destruct r as [q|id|u body|u id body|u id|u id|u id c|id|u q]; cbn; try done.
  - unfold get_blog. destruct (Blogs db !! id) as [b|] eqn:Hb; [|done].
    cbn [fst]; unfold save; apply likes_NoDup_insert; [exact Hdb|]. exact (Hdb id b Hb).
  - destruct (post_blog_db db now u body) as [->|(b & -> & _ & -> & _)]; [done|].
    apply likes_NoDup_insert; [exact Hdb|]. apply NoDup_nil_2.
  - destruct (put_blog_db db now u id body) as [->|(b & Hb & _ & _ & -> & _)]; [done|].
    unfold save; apply likes_NoDup_insert; [exact Hdb|]. exact (Hdb id b Hb).
  - unfold delete_blog. destruct (Blogs db !! id) as [b|] eqn:Hb; [|done].
    destruct (Pos.eqb (author b) u); [|done]. cbn [fst]; unfold findByIdAndDelete; apply likes_NoDup_delete; exact Hdb.
  - unfold post_like. destruct (Blogs db !! id) as [b|] eqn:Hb; [|done].
    cbn [fst]; unfold save; apply likes_NoDup_insert; [exact Hdb|]. cbn. apply toggle_like_NoDup. exact (Hdb id b Hb).
  - destruct (post_comment_db db now u id c) as [->|(b & Hb & _ & -> & _)]; [done|].
    unfold save; apply likes_NoDup_insert; [exact Hdb|]. exact (Hdb id b Hb).
Qed.

Lemma reachable_likes_NoDup db : reachable db → likes_NoDup db.
Proof.
  induction 1 as [users|db now r _ IH|db users _ IH].
  - intros id b. cbn. by rewrite lookup_empty.
  - by apply likes_NoDup_handle.
  - exact IH.
Qed.

(** C2: in every database the server can reach, a blog's likes hold each
    user at most once.  One toggle by user [u] removes [u] from the likes if
    present and appends [u] otherwise; the response reports whether [u] is
    in the new likes and how many likes there are.  A second toggle by [u]
    restores the likes to the same members and the same size. *)
Theorem like_toggle (db : Db) (now1 now2 : Z) (u id : ObjectId) (b : Blog) :
  reachable db → Blogs db !! id = Some b →
  let r1 := post_like db now1 u id in
  let r2 := post_like (fst r1) now2 u id in
  NoDup (likes b)
  ∧ (∃ b1, Blogs (fst r1) !! id = Some b1
       ∧ (u ∈ likes b → likes b1 = filter (fun like => like ≠ u) (likes b))
       ∧ (u ∉ likes b → likes b1 = (likes b ++ [u])%list)
       ∧ (u ∈ likes b1 ↔ u ∉ likes b)
       ∧ (∀ x, x ≠ u → x ∈ likes b1 ↔ x ∈ likes b)
       ∧ NoDup (likes b1)
       ∧ status (snd r1) = 200%Z
       ∧ json_field "isLiked" (json (snd r1)) = Some (VBool (bool_decide (u ∈ likes b1)))
       ∧ json_field "likes" (json (snd r1)) = Some (VNum (Z.of_nat (length (likes b1)))))
  ∧ (∃ b2, Blogs (fst r2) !! id = Some b2
       ∧ likes b2 ≡ₚ likes b
       ∧ length (likes b2) = length (likes b)
       ∧ (∀ x, x ∈ likes b2 ↔ x ∈ likes b)).
Proof.
  intros Hreach Hb r1 r2.
  pose proof (reachable_likes_NoDup db Hreach id b Hb) as Hnd.
  pose proof (toggle_like_elem u (likes b)) as Hel.
  pose proof (toggle_like_twice u (likes b) Hnd) as Hperm.
  assert (Hr1 : r1 = (save db now1 id (set_likes (toggle_like u (likes b)) b), snd r1)).
  { unfold r1, post_like. rewrite Hb. reflexivity. }
  assert (Hb1 : Blogs (fst r1) !! id
                = Some (set_updatedAt now1 (set_likes (toggle_like u (likes b)) b))).
  { rewrite Hr1. cbn. apply lookup_insert_eq. }
  split; [done|]. split.
  - eexists. split; [exact Hb1|]. cbn [likes set_updatedAt set_likes].
    split; [|split; [|split; [|split; [|split; [|split; [|split]]]]]].
    + intros Hin. unfold toggle_like. by rewrite bool_decide_eq_true_2.
    + intros Hin. unfold toggle_like. by rewrite bool_decide_eq_false_2.
    + exact Hel.
    + intros x Hx. unfold toggle_like.
      destruct (bool_decide_reflect (u ∈ likes b)) as [Hin|Hin].
      * rewrite list_elem_of_filter. tauto.
      * rewrite elem_of_app, list_elem_of_singleton. tauto.
    + by apply toggle_like_NoDup.
    + unfold r1, post_like. rewrite Hb. reflexivity.
    + unfold r1, post_like. rewrite Hb. cbn. do 3 f_equal.
      destruct (bool_decide_reflect (u ∈ likes b)) as [Hin|Hin]; cbn; symmetry.
      * apply bool_decide_eq_false_2. tauto.
      * apply bool_decide_eq_true_2. tauto.
    + unfold r1, post_like. rewrite Hb. reflexivity.
  - eexists. split; [|split; [|split]].
    + unfold r2, post_like. rewrite Hb1. cbn. apply lookup_insert_eq.
    + cbn. exact Hperm.
    + cbn. by rewrite Hperm.
    + intros x. cbn. by rewrite Hperm.
Qed.

End Reachable.

Lemma db_published_reachable : reachable (engine := literal_engine) db_published.
Proof.
  apply (reachable_step (engine := literal_engine) _ 200
           (PUT_blog alice 1%positive (mkReqBody None None None None (Some true)))).
  apply (reachable_step (engine := literal_engine) _ 100 (POST_blog alice hello_body)).
  apply reachable_init.
Qed.

Lemma like_toggle_witness :
  ∃ b1 b2,
    Blogs (fst (post_like db_published 300 bob 1%positive)) !! 1%positive = Some b1
    ∧ likes b1 = [bob]
    ∧ Blogs (fst (post_like (fst (post_like db_published 300 bob 1%positive))
                    400 bob 1%positive)) !! 1%positive = Some b2
    ∧ length (likes b2) = 0.
Proof.
  destruct (like_toggle (engine := literal_engine) db_published 300 400 bob 1%positive
              hello_published db_published_reachable)
    as (_ & (b1 & Hb1 & _ & Hpush & _) & (b2 & Hb2 & _ & Hlen & _)).
  { vm_compute. reflexivity. }
  exists b1, b2. split; [exact Hb1|]. split.
  - apply Hpush. vm_compute. intros Hin. inversion Hin.
  - split; [exact Hb2|exact Hlen].
Defined.

(** ** Listings: filter, sort, page window *)

Global Instance newer_first_total : Total newer_first.
Proof. intros x y. unfold newer_first. lia. Qed.

Global Instance newer_first_trans : Transitive newer_first.
Proof. intros x y z. unfold newer_first. lia. Qed.

Lemma ceil_div_is_ceil (a b : Z) : (0 < b)%Z → is_ceil a b (ceil_div a b).
Proof.
  intros Hb. unfold is_ceil, ceil_div.
  pose proof (Z.div_mod (- a) b ltac:(lia)) as Hdm.
  pose proof (Z.mod_pos_bound (- a) b Hb) as Hm.
  nia.
Qed.

Lemma is_ceil_unique (a b c c' : Z) :
  (0 < b)%Z → is_ceil a b c → is_ceil a b c' → c = c'.
Proof. unfold is_ceil. intros Hb [H1 H2] [H3 H4]. nia. Qed.

Lemma elem_of_sort_createdAt_desc l x : x ∈ sort_createdAt_desc l ↔ x ∈ l.
Proof. unfold sort_createdAt_desc. by rewrite merge_sort_Permutation. Qed.

Lemma sort_createdAt_desc_sorted l : StronglySorted newer_first (sort_createdAt_desc l).
Proof. apply StronglySorted_merge_sort; apply _. Qed.

Lemma cursor_limit_subseteq {A} n (l : list A) : cursor_limit n l ⊆ l.
Proof. unfold cursor_limit. destruct (n =? 0)%Z; [done|apply subseteq_take]. Qed.

Lemma cursor_limit_pos {A} n (l : list A) :
  (1 ≤ n)%Z → cursor_limit n l = take (Z.to_nat n) l.
Proof.
  intros Hn. unfold cursor_limit. destruct (Z.eqb_spec n 0); [lia|].
  by rewrite Z.abs_eq by lia.
Qed.

Lemma cursor_skip_subseteq {A} n (l l' : list A) : cursor_skip n l = Some l' → l' ⊆ l.
Proof.
  unfold cursor_skip. destruct (n <? 0)%Z; [done|].
  intros [= <-]. apply subseteq_drop.
Qed.

Section Listings.
Context {engine : RegexEngine} {measure : TextMeasure}.

Lemma elem_of_find db q id b :
  (id, b) ∈ find db q ↔ Blogs db !! id = Some b ∧ matches q b = true.
Proof.
  unfold find.
  rewrite list_elem_of_In, filter_In, <- list_elem_of_In, elem_of_map_to_list.
  cbn. tauto.
Qed.

Lemma page_window_pos db q skip limit :
  (0 ≤ skip)%Z → (1 ≤ limit)%Z →
  page_window db q skip limit
  = Some (take (Z.to_nat limit) (drop (Z.to_nat skip) (sort_createdAt_desc (find db q)))).
Proof.
  intros Hs Hl. unfold page_window, cursor_skip.
  destruct (Z.ltb_spec skip 0); [lia|]. cbn. by rewrite cursor_limit_pos.
Qed.

Lemma page_window_elem db q skip limit w id b :
  page_window db q skip limit = Some w → (id, b) ∈ w →
  Blogs db !! id = Some b ∧ matches q b = true.
Proof.
  unfold page_window. intros Hw Hin.
  destruct (cursor_skip skip _) as [l|] eqn:Hskip; [|done].
  injection Hw as <-. apply elem_of_find, elem_of_sort_createdAt_desc.
  eapply cursor_skip_subseteq; [exact Hskip|].
  eapply cursor_limit_subseteq. exact Hin.
Qed.

Lemma pagination_report page limit total :
  (1 ≤ limit)%Z →
  ∃ totalPages,
    is_ceil total limit totalPages
    ∧ pagination page limit total
      = VObj [("currentPage", VNum page); ("totalPages", VNum totalPages);
              ("totalBlogs", VNum total);
              ("hasNext", VBool (bool_decide (page < totalPages)%Z));
              ("hasPrev", VBool (bool_decide (1 < page)%Z))].
Proof.
  intros Hl. exists (ceil_div total limit). split.
  - apply ceil_div_is_ceil. lia.
  - unfold pagination. do 6 f_equal.
    + do 2 f_equal. destruct (Z.ltb_spec page (ceil_div total limit)).
      * by rewrite bool_decide_eq_true_2.
      * rewrite bool_decide_eq_false_2; [done|lia].
    + do 3 f_equal. rewrite Z.gtb_ltb. destruct (Z.ltb_spec 1 page).
      * by rewrite bool_decide_eq_true_2.
      * rewrite bool_decide_eq_false_2; [done|lia].
Qed.

(** The filter of [GET /] is built when the search text and the tag, if
    given, are regular expressions. *)
Lemma public_query_builds search tag a :
  (truthy search = true → regex_valid search = true) →
  (truthy tag = true → regex_valid tag = true) →
  ∃ query, public_query search tag a = Some query.
Proof.
  intros Hs Ht. unfold public_query.
  destruct (truthy search); [rewrite Hs by done|];
    (destruct (truthy tag); [rewrite Ht by done|]); cbn; eauto.
Qed.

(** C4: for a list request whose page and limit are positive, both list
    endpoints answer with the documents found after skipping
    (page - 1) * limit of the sorted matches, at most limit of them, and
    report totalPages = ceil(total / limit), hasNext = (page < totalPages)
    and hasPrev = (page > 1), where total counts all the documents that
    match the same filter.  (The public listing builds its filter when the
    search text and the tag, if given, are regular expressions.) *)
Theorem list_pagination (db : Db) (u : ObjectId) (q : ReqQuery) :
  let page := num_or (query_page q) 1 in
  let limit := num_or (query_limit q) 10 in
  let search := str_or_empty (query_search q) in
  let tag := str_or_empty (query_tag q) in
  (1 ≤ page)%Z → (1 ≤ limit)%Z →
  let skip := ((page - 1) * limit)%Z in
  let window query :=
    take (Z.to_nat limit) (drop (Z.to_nat skip) (sort_createdAt_desc (find db query))) in
  let total query := Z.of_nat (length (find db query)) in
  let report query r :=
    ∃ totalPages,
      is_ceil (total query) limit totalPages
      ∧ json_field "pagination" (json r)
        = Some (VObj [("currentPage", VNum page); ("totalPages", VNum totalPages);
                      ("totalBlogs", VNum (total query));
                      ("hasNext", VBool (bool_decide (page < totalPages)%Z));
                      ("hasPrev", VBool (bool_decide (1 < page)%Z))]) in
  ((truthy search = true → regex_valid search = true) →
   (truthy tag = true → regex_valid tag = true) →
   ∃ query,
     public_query search tag (query_author q) = Some query
     ∧ status (get_blogs db q) = 200%Z
     ∧ blogs_of (get_blogs db q) = Some (public_item db <$> window query)
     ∧ (length (window query) ≤ Z.to_nat limit)%nat
     ∧ report query (get_blogs db q))
  ∧ (let query := my_blogs_query u (query_published q) in
     status (get_my_blogs db u q) = 200%Z
     ∧ blogs_of (get_my_blogs db u q) = Some (my_item db <$> window query)
     ∧ (length (window query) ≤ Z.to_nat limit)%nat
     ∧ report query (get_my_blogs db u q)).
Proof.
  intros page limit search tag Hp Hl skip window total report.
  assert (Hskip : (0 ≤ skip)%Z) by (unfold skip; nia).
  assert (Hlen : ∀ query, (length (window query) ≤ Z.to_nat limit)%nat).
  { intros query. unfold window. rewrite length_take. lia. }
  split.
  - intros Hs Ht.
    destruct (public_query_builds search tag (query_author q) Hs Ht) as [query Hq].
    exists query. split; [exact Hq|].
    unfold get_blogs. fold page limit skip search tag. rewrite Hq.
    rewrite page_window_pos by done. fold (window query).
    split; [done|]. split; [done|]. split; [apply Hlen|].
    unfold report, countDocuments. fold (total query).
    destruct (pagination_report page limit (total query) Hl) as (tp & Hc & ->).
    by exists tp.
  - cbv zeta. unfold get_my_blogs. fold page limit skip.
    rewrite page_window_pos by done.
    fold (window (my_blogs_query u (query_published q))).
    split; [done|]. split; [done|]. split; [apply Hlen|].
    unfold report, countDocuments. fold (total (my_blogs_query u (query_published q))).
    destruct (pagination_report page limit
                (total (my_blogs_query u (query_published q))) Hl) as (tp & Hc & ->).
    by exists tp.
Qed.

End Listings.

Lemma list_pagination_witness :
  blogs_of (get_blogs (engine := literal_engine) db_three page2_limit1)
  = Some [public_item db_three (1%positive, hello_liked)]
  ∧ blogs_of (get_my_blogs (engine := literal_engine) db_three alice page2_limit1)
    = Some [my_item db_three (1%positive, hello_liked)].
Proof.
  destruct (list_pagination (engine := literal_engine) db_three alice page2_limit1)
    as [Hpublic Hmine]; [cbn; lia|cbn; lia|].
  split.
  - destruct Hpublic as (query & Hq & _ & Hblogs & _); [discriminate|discriminate|].
    vm_compute in Hq. injection Hq as <-. rewrite Hblogs. vm_compute. reflexivity.
  - destruct Hmine as (_ & -> & _). vm_compute. reflexivity.
Defined.

(** ** The public listing shows published blogs only *)

Section PublicListing.
Context {engine : RegexEngine} {measure : TextMeasure}.

Lemma post_blog_store db now u body id :
  Blogs db !! id = None → is_Some (Blogs (fst (post_blog db now u body)) !! id) →
  ∃ b, Blogs (fst (post_blog db now u body)) !! id = Some b
       ∧ published b = default false (body_published body)
       ∧ author b = u.
Proof.
  intros Hnone.
  destruct (post_blog_db db now u body) as [->|(b & -> & _ & -> & _)];
    [rewrite Hnone; by intros [? ?]|].
  cbn. rewrite lookup_insert. case_decide as Hid.
  - intros _. eexists. split; [done|]. by destruct (body_published body).
  - rewrite Hnone. by intros [? ?].
Qed.

Lemma public_query_spec search tag a :
  public_query search tag a =
    if (truthy search && negb (regex_valid search))
       || (truthy tag && negb (regex_valid tag)) then None
    else Some (mkQuery (Some true)
                 (if truthy search
                  then Some [TitleRegex search; ContentRegex search; TagsInRegex search]
                  else None)
                 (if truthy tag then Some tag else None)
                 a).
Proof.
  unfold public_query.
  destruct (truthy search), (regex_valid search), (truthy tag), (regex_valid tag), a;
    reflexivity.
Qed.

Lemma public_query_published search tag a query :
  public_query search tag a = Some query → q_published query = Some true.
Proof.
  rewrite public_query_spec. destruct (_ || _); [done|]. by intros [= <-].
Qed.

Lemma matches_published q b p :
  matches q b = true → q_published q = Some p → published b = p.
Proof.
  unfold matches. intros Hm Hp. rewrite Hp in Hm.
  rewrite !andb_true_iff in Hm. destruct Hm as [[[Hm _] _] _].
  by apply Bool.eqb_prop.
Qed.

Lemma get_blogs_blogs db q ds :
  blogs_of (get_blogs db q) = Some ds →
  ∃ query w,
    public_query (str_or_empty (query_search q)) (str_or_empty (query_tag q))
      (query_author q) = Some query
    ∧ page_window db query
        ((num_or (query_page q) 1 - 1) * num_or (query_limit q) 10)
        (num_or (query_limit q) 10) = Some w
    ∧ ds = public_item db <$> w.
Proof.
  unfold get_blogs. destruct (public_query _ _ _) as [query|]; [|done].
  destruct (page_window _ _ _ _) as [w|] eqn:Hw; [|done].
  cbn. intros [= <-]. by exists query, w.
Qed.

(** What the public listing shows comes from a stored, published blog. *)
Lemma get_blogs_item db q ds d :
  blogs_of (get_blogs db q) = Some ds → d ∈ ds →
  ∃ id b, d = public_item db (id, b) ∧ Blogs db !! id = Some b ∧ published b = true.
Proof.
  intros Hds Hd. apply get_blogs_blogs in Hds as (query & w & Hq & Hw & ->).
  apply list_elem_of_fmap in Hd as ([id b] & -> & Hin).
  destruct (page_window_elem _ _ _ _ _ _ _ Hw Hin) as [Hb Hm].
  exists id, b. split; [done|]. split; [done|].
  eapply matches_published; [exact Hm|]. by eapply public_query_published.
Qed.

Lemma unpublished_not_listed db q id b :
  Blogs db !! id = Some b → published b = false → ¬ listed (get_blogs db q) id.
Proof.
  intros Hb Hp (ds & d & Hds & Hd & Hid).
  destruct (get_blogs_item _ _ _ _ Hds Hd) as (id' & b' & -> & Hb' & Hp').
  injection Hid as ->. congruence.
Qed.

(** C5: every document of the public listing is a stored blog whose
    published flag is true, whatever the search, tag, author, page and limit
    parameters are; a blog whose flag is false is not listed, in particular
    not after it was created without the flag or with the flag false, and
    not after an update that set the flag to false. *)
Theorem public_listing_published (db : Db) (q : ReqQuery) :
  (∀ ds d, blogs_of (get_blogs db q) = Some ds → d ∈ ds →
     json_field "published" d = Some (VBool true)
     ∧ ∃ id b, json_field "_id" d = Some (VId id)
               ∧ Blogs db !! id = Some b ∧ published b = true)
  ∧ (∀ id b, Blogs db !! id = Some b → published b = false →
     ¬ listed (get_blogs db q) id)
  ∧ (∀ now u body id,
     body_published body ≠ Some true →
     Blogs db !! id = None →
     is_Some (Blogs (fst (post_blog db now u body)) !! id) →
     ¬ listed (get_blogs (fst (post_blog db now u body)) q) id)
  ∧ (∀ now u id body,
     body_published body = Some false →
     status (snd (put_blog db now u id body)) = 200%Z →
     ¬ listed (get_blogs (fst (put_blog db now u id body)) q) id).
Proof.
  split; [|split; [|split]].
  - intros ds d Hds Hd.
    destruct (get_blogs_item _ _ _ _ Hds Hd) as (id & b & -> & Hb & Hp).
    split.
    + cbn. by rewrite Hp.
    + by exists id, b.
  - intros id b. apply unpublished_not_listed.
  - intros now u body id Hpub Hnone Hsome.
    destruct (post_blog_store _ _ _ _ _ Hnone Hsome) as (b & Hb & Hp & _).
    apply (unpublished_not_listed _ _ _ b); [done|].
    rewrite Hp. by destruct (body_published body) as [[]|].
  - intros now u id body Hpub Hok.
    destruct (put_blog_ok _ _ _ _ _ Hok) as (b & b' & _ & _ & _ & Hb' & Hcase & _).
    apply (unpublished_not_listed _ _ _ b'); [exact Hb'|].
    destruct Hcase as [->| ->]; cbn; by rewrite Hpub.
Qed.

End PublicListing.

Lemma public_listing_published_witness :
  json_field "published" (public_item db_three (2%positive, second_post)) = Some (VBool true)
  ∧ ¬ listed (get_blogs (engine := literal_engine) db_three no_query) 3%positive.
Proof.
  destruct (public_listing_published (engine := literal_engine) db_three no_query)
    as (Hall & Hnot & _).
  split.
  - apply (Hall [public_item db_three (2%positive, second_post);
                 public_item db_three (1%positive, hello_liked)]).
    + vm_compute. reflexivity.
    + constructor.
  - apply (Hnot 3%positive (mkBlog "Notes" "Unfinished" [] "" false alice 0 [] [] 600 600)).
    + vm_compute. reflexivity.
    + reflexivity.
Defined.

(** ** The search filter *)

Section SearchFilter.
Context {engine : RegexEngine} {measure : TextMeasure}.

Lemma tags_in_true p b :
  tags_in p b = true ↔ ∃ t, t ∈ tags b ∧ regex_test p t = true.
Proof.
  unfold tags_in. rewrite existsb_exists.
  split; intros (t & Ht & Hm); exists t; by rewrite ?list_elem_of_In in *.
Qed.

Lemma search_clause_true s b :
  existsb (fun c => cond_matches c b) [TitleRegex s; ContentRegex s; TagsInRegex s] = true
  ↔ search_matches s b.
Proof.
  unfold search_matches. cbn. rewrite orb_false_r, !orb_true_iff, tags_in_true. tauto.
Qed.

(** C6 (amended): for a public listing with a non-empty search text, a
    published blog matches the filter exactly when the search text matches
    its title, or its content, or one of its tags, and the blog also
    satisfies the tag and author parameters when those are given.  With
    neither of them the match is the disjunction of the three conditions
    alone. *)
Theorem public_search_filter (search tag : string) (a : option ObjectId)
    (query : Query) (b : Blog) :
  truthy search = true →
  public_query search tag a = Some query →
  published b = true →
  (matches query b = true ↔
     search_matches search b
     ∧ (truthy tag = true → ∃ t, t ∈ tags b ∧ regex_test tag t = true)
     ∧ (∀ a', a = Some a' → author b = a'))
  ∧ (truthy tag = false → a = None →
     (matches query b = true ↔ search_matches search b))
  ∧ (∀ db id, (id, b) ∈ find db query ↔
       Blogs db !! id = Some b ∧ matches query b = true).
Proof.
  intros Hs Hq Hp. rewrite public_query_spec, Hs in Hq.
  destruct (_ || _); [done|]. injection Hq as <-.
  assert (Hm : matches
                 (mkQuery (Some true)
                    (Some [TitleRegex search; ContentRegex search; TagsInRegex search])
                    (if truthy tag then Some tag else None) a) b = true ↔
               search_matches search b
               ∧ (truthy tag = true → ∃ t, t ∈ tags b ∧ regex_test tag t = true)
               ∧ (∀ a', a = Some a' → author b = a')).
  { unfold matches. cbn [q_published q_or q_tags q_author]. rewrite Hp.
    rewrite !andb_true_iff, search_clause_true.
    destruct (truthy tag); destruct a as [a0|]; rewrite ?tags_in_true, ?Pos.eqb_eq.
    - split.
      + intros [[[_ ?] ?] ?]. split; [done|]. split; [done|]. by intros ? [= <-].
      + intros (? & Ht & Ha). split; [split; [split|]|]; auto.
    - split.
      + intros [[[_ ?] ?] _]. split; [done|]. split; [done|]. by intros ? [=].
      + intros (? & Ht & _). split; [split; [split|]|]; auto.
    - split.
      + intros [[[_ ?] _] ?]. split; [done|]. split; [done|]. by intros ? [= <-].
      + intros (? & _ & Ha). split; [split; [split|]|]; auto.
    - split.
      + intros [[[_ ?] _] _]. split; [done|]. split; [done|]. by intros ? [=].
      + intros (? & _ & _). split; [split; [split|]|]; auto. }
  split; [exact Hm|]. split.
  - intros Ht ->. rewrite Ht in *. rewrite Hm. split; [tauto|].
    intros Hsm. split; [done|]. split; [done|]. by intros ? [=].
  - intros db id. apply elem_of_find.
Qed.

End SearchFilter.

(** C6, as the claim has it: a published blog would match the filter of a
    request with a search text as soon as the search text matches its
    title.  With a tag parameter that the blog does not carry, it does
    not. *)
Lemma search_match_alone_not_sufficient :
  ∃ query,
    public_query (engine := literal_engine) "hello" "zzz" None = Some query
    ∧ published hello_published = true
    ∧ ¬ (matches (engine := literal_engine) query hello_published = true
         ↔ search_matches (engine := literal_engine) "hello" hello_published).
Proof.
  eexists. split; [vm_compute; reflexivity|]. split; [reflexivity|].
  intros [_ Hclaim].
  assert (Hm : search_matches (engine := literal_engine) "hello" hello_published)
    by (left; vm_compute; reflexivity).
  specialize (Hclaim Hm). vm_compute in Hclaim. discriminate.
Qed.

Lemma public_search_filter_witness :
  matches (engine := literal_engine)
    (mkQuery (Some true) (Some [TitleRegex "NEWS"; ContentRegex "NEWS"; TagsInRegex "NEWS"])
       None None) second_post = true
  ↔ search_matches (engine := literal_engine) "NEWS" second_post.
Proof.
  destruct (public_search_filter (engine := literal_engine) "NEWS" "" None
              (mkQuery (Some true)
                 (Some [TitleRegex "NEWS"; ContentRegex "NEWS"; TagsInRegex "NEWS"])
                 None None) second_post) as (_ & Hiff & _).
  - vm_compute. reflexivity.
  - vm_compute. reflexivity.
  - reflexivity.
  - apply Hiff; reflexivity.
Defined.

(** ** Updates write the fields of the body and nothing else *)

Lemma fresh_id_free (db : Db) : Blogs db !! fresh (dom (Blogs db)) = None.
Proof. apply not_elem_of_dom, is_fresh. Qed.

Section Frame.
Context {engine : RegexEngine} {measure : TextMeasure}.

(** No request changes the author or the creation time of a stored blog. *)
Lemma handle_keeps_author db now r id b b' :
  Blogs db !! id = Some b → Blogs (fst (handle db now r)) !! id = Some b' →
  author b' = author b ∧ createdAt b' = createdAt b.
Proof.
  intros Hb.
  assert (Hsame : Blogs db !! id = Some b' → author b' = author b ∧ createdAt b' = createdAt b)
    by (rewrite Hb; by intros [= <-]).
  assert (Hins : ∀ id0 b0 bnew users,
            Blogs db !! id0 = Some b0 →
            author bnew = author b0 → createdAt bnew = createdAt b0 →
            Blogs (mkDb (<[id0 := bnew]> (Blogs db)) users) !! id = Some b' →
            author b' = author b ∧ createdAt b' = createdAt b).
  { intros id0 b0 bnew users Hb0 Ha Hc. cbn. rewrite lookup_insert.
    case_decide as Hid; [|exact Hsame].
    subst id0. rewrite Hb in Hb0. injection Hb0 as <-. intros [= <-]. by rewrite Ha, Hc. }
  destruct r as [q|id0|u body|u id0 body|u id0|u id0|u id0 c|id0|u q]; cbn; try exact Hsame.
  - unfold get_blog. destruct (Blogs db !! id0) as [b0|] eqn:Hb0; [|exact Hsame].
    cbn [fst]. unfold save. by apply (Hins id0 b0).
  - destruct (post_blog_db db now u body) as [->|(b0 & _ & _ & -> & _)]; [exact Hsame|].
    cbn. rewrite lookup_insert. case_decide as Hid; [|exact Hsame].
    subst id. by rewrite fresh_id_free in Hb.
  - destruct (put_blog_db db now u id0 body) as [->|(b0 & Hb0 & _ & _ & -> & _)];
      [exact Hsame|].
    unfold save. by apply (Hins id0 b0).
  - unfold delete_blog. destruct (Blogs db !! id0) as [b0|] eqn:Hb0; [|exact Hsame].
    destruct (Pos.eqb (author b0) u); [|exact Hsame].
    cbn. rewrite lookup_delete. case_decide; [done|exact Hsame].
  - unfold post_like. destruct (Blogs db !! id0) as [b0|] eqn:Hb0; [|exact Hsame].
    cbn [fst]. unfold save. by apply (Hins id0 b0).
  - destruct (post_comment_db db now u id0 c) as [->|(b0 & Hb0 & _ & -> & _)];
      [exact Hsame|].
    unfold save. by apply (Hins id0 b0).
Qed.

(** C7: after a successful update the stored blog has, for each of title,
    content, tags, featuredImage and published, the value of the body when
    the body has the field (an empty string or an empty array included) and
    its previous value otherwise; author, views, likes, comments and
    creation time are as before, and so is every other blog.  No request at
    all changes the author of a stored blog. *)
Theorem update_writes_present_fields :
  (∀ db now u id body b,
     Blogs db !! id = Some b →
     status (snd (put_blog db now u id body)) = 200%Z →
     ∃ b', Blogs (fst (put_blog db now u id body)) !! id = Some b'
       ∧ title b' = default (title b) (body_title body)
       ∧ content b' = default (content b) (body_content body)
       ∧ (∀ ts, body_tags body = Some (TagsArray ts) → tags b' = ts)
       ∧ (body_tags body = None → tags b' = tags b)
       ∧ body_tags body ≠ Some TagsOther
       ∧ featuredImage b' = default (featuredImage b) (body_featuredImage body)
       ∧ published b' = default (published b) (body_published body)
       ∧ author b' = author b ∧ views b' = views b ∧ likes b' = likes b
       ∧ comments b' = comments b ∧ createdAt b' = createdAt b
       ∧ (∀ id', id' ≠ id →
            Blogs (fst (put_blog db now u id body)) !! id' = Blogs db !! id'))
  ∧ (∀ db now r id b b',
     Blogs db !! id = Some b → Blogs (fst (handle db now r)) !! id = Some b' →
     author b' = author b).
Proof.
  split.
  - intros db now u id body b Hb Hok.
    destruct (put_blog_ok _ _ _ _ _ Hok)
      as (b0 & b' & Hb0 & _ & Hv & Hb' & Hcase & Hother & _).
    rewrite Hb in Hb0. injection Hb0 as <-.
    exists b'. split; [exact Hb'|].
    assert (Htags : body_tags body ≠ Some TagsOther).
    { intros Ht. unfold update_validation, tags_chain in Hv. rewrite Ht in Hv.
      apply app_eq_nil in Hv as [_ Hv]. apply app_eq_nil in Hv as [_ Hv]. done. }
    destruct Hcase as [->| ->]; cbn;
      (split; [by destruct (body_title body)|];
       split; [by destruct (body_content body)|];
       split; [by intros ts ->|];
       split; [by intros ->|];
       split; [exact Htags|];
       split; [by destruct (body_featuredImage body)|];
       split; [by destruct (body_published body)|];
       do 5 (split; [done|]);
       exact Hother).
  - intros db now r id b b' Hb Hb'.
    by destruct (handle_keeps_author _ _ _ _ _ _ Hb Hb').
Qed.

End Frame.

Lemma update_writes_present_fields_witness :
  ∃ b', Blogs (fst (put_blog db_two 700 bob 2%positive
                      (mkReqBody None None (Some (TagsArray [])) (Some "") None)))
          !! 2%positive = Some b'
        ∧ title b' = "Second" ∧ tags b' = [] ∧ featuredImage b' = "" ∧ author b' = bob.
Proof.
  destruct (update_writes_present_fields (engine := literal_engine)) as [Hput _].
  destruct (Hput db_two 700%Z bob 2%positive
              (mkReqBody None None (Some (TagsArray [])) (Some "") None) second_post)
    as (b' & Hb' & Ht & _ & Htags & _ & _ & Hf & _ & Ha & _).
  - vm_compute. reflexivity.
  - vm_compute. reflexivity.
  - exists b'. split; [exact Hb'|]. split; [exact Ht|]. split; [by apply Htags|].
    split; [exact Hf|exact Ha].
Defined.

(** ** Creation *)

Section Creation.
Context {measure : TextMeasure}.




End Creation.


(** ** The requester's own listing *)

Section MyBlogs.
Context {engine : RegexEngine} {measure : TextMeasure}.

Lemma my_blogs_matches u p b :
  matches (my_blogs_query u p) b = true ↔ author b = u ∧ wanted_published p b.
Proof.
  unfold my_blogs_query, matches, wanted_published. destruct p as [s|]; cbn.
  - rewrite andb_true_r, andb_true_iff, Pos.eqb_eq.
    destruct (String.eqb_spec s "true") as [Hs|Hs]; case_decide; try done;
      destruct (published b); cbn; intuition congruence.
  - rewrite Pos.eqb_eq. tauto.
Qed.

Lemma get_my_blogs_blogs db u q ds :
  blogs_of (get_my_blogs db u q) = Some ds →
  ∃ w, page_window db (my_blogs_query u (query_published q))
         ((num_or (query_page q) 1 - 1) * num_or (query_limit q) 10)
         (num_or (query_limit q) 10) = Some w
       ∧ ds = my_item db <$> w.
Proof.
  unfold get_my_blogs. destruct (page_window _ _ _ _) as [w|] eqn:Hw; [|done].
  cbn. intros [= <-]. by exists w.
Qed.

(** C8: every document of the requester's own listing is a stored blog whose
    author is the requester and whose published flag is the one asked for:
    any when the parameter is absent, true when it is the string 'true',
    false otherwise.  The pages are taken from the sorted list of exactly
    those blogs, so that a first page that is large enough shows them
    all. *)
Theorem my_blogs_filter (db : Db) (u : ObjectId) (q : ReqQuery) :
  let query := my_blogs_query u (query_published q) in
  let wanted b := author b = u ∧ wanted_published (query_published q) b in
  (∀ ds d, blogs_of (get_my_blogs db u q) = Some ds → d ∈ ds →
     ∃ id b, d = my_item db (id, b) ∧ json_field "_id" d = Some (VId id)
             ∧ Blogs db !! id = Some b ∧ wanted b)
  ∧ (∀ id b, (id, b) ∈ sort_createdAt_desc (find db query) ↔
       Blogs db !! id = Some b ∧ wanted b)
  ∧ (query_published q = None → ∀ b, wanted b ↔ author b = u)
  ∧ (num_or (query_page q) 1 = 1%Z →
     (1 ≤ num_or (query_limit q) 10)%Z →
     (length (find db query) ≤ Z.to_nat (num_or (query_limit q) 10))%nat →
     ∀ id b, Blogs db !! id = Some b → wanted b → listed (get_my_blogs db u q) id).
Proof.
  intros query wanted.
  assert (Hall : ∀ id b, (id, b) ∈ sort_createdAt_desc (find db query) ↔
                   Blogs db !! id = Some b ∧ wanted b).
  { intros id b. rewrite elem_of_sort_createdAt_desc, elem_of_find.
    unfold query. by rewrite my_blogs_matches. }
  split; [|split; [exact Hall|split]].
  - intros ds d Hds Hd. apply get_my_blogs_blogs in Hds as (w & Hw & ->).
    apply list_elem_of_fmap in Hd as ([id b] & -> & Hin).
    destruct (page_window_elem _ _ _ _ _ _ _ Hw Hin) as [Hb Hm].
    exists id, b. split; [done|]. split; [done|]. split; [done|].
    by apply my_blogs_matches.
  - intros Hnone b. unfold wanted. rewrite Hnone. cbn. tauto.
  - intros Hpage Hlimit Hlen id b Hb Hwanted.
    exists (my_item db <$> sort_createdAt_desc (find db query)), (my_item db (id, b)).
    split; [|split; [|done]].
    + unfold get_my_blogs. rewrite Hpage. fold query.
      rewrite page_window_pos by lia. cbn [Z.sub Z.mul Z.to_nat Z.pos_sub].
      change (Z.to_nat ((1 - 1) * num_or (query_limit q) 10)) with 0%nat.
      rewrite drop_0, take_ge; [done|].
      unfold sort_createdAt_desc. by rewrite merge_sort_Permutation.
    + apply list_elem_of_fmap_2. by apply Hall.
Qed.

End MyBlogs.

Lemma my_blogs_filter_witness :
  listed (get_my_blogs (engine := literal_engine) db_three alice no_query) 3%positive
  ∧ ∃ id b, Blogs db_three !! id = Some b ∧ author b = alice ∧ published b = true.
Proof.
  destruct (my_blogs_filter (engine := literal_engine) db_three alice no_query)
    as (_ & _ & _ & Hfirst).
  destruct (my_blogs_filter (engine := literal_engine) db_three alice
              (mkReqQuery None None None None None (Some "true")))
    as (Honly & _).
  split.
  - apply (Hfirst eq_refl ltac:(cbn; lia) ltac:(vm_compute; lia) 3%positive
             (mkBlog "Notes" "Unfinished" [] "" false alice 0 [] [] 600 600)).
    + vm_compute. reflexivity.
    + split; [reflexivity|exact I].
  - destruct (Honly [my_item db_three (1%positive, hello_liked)]
                (my_item db_three (1%positive, hello_liked)))
      as (id & b & _ & _ & Hb & Ha & Hp).
    + vm_compute. reflexivity.
    + constructor.
    + exists id, b. split; [exact Hb|]. split; [exact Ha|exact Hp].
Defined.

(** ** The public profile *)

Lemma StronglySorted_take {A} (R : relation A) n (l : list A) :
  StronglySorted R l → StronglySorted R (take n l).
Proof.
  intros Hl. rewrite <- (take_drop n l) in Hl. by apply StronglySorted_app_1_l in Hl.
Qed.

Lemma profile_item_fields id b :
  let d := profile_item (id, b) in
  json_field "_id" d = Some (VId id)
  ∧ json_field "title" d = Some (VStr (title b))
  ∧ json_field "createdAt" d = Some (VNum (createdAt b))
  ∧ json_field "views" d = Some (VNum (views b))
  ∧ json_field "likes" d = Some (VArr (VId <$> likes b))
  ∧ json_field "content" d = None
  ∧ (∀ k, is_Some (json_field k d) →
       k ∈ ["_id"; "title"; "excerpt"; "createdAt"; "views"; "likes"]).
Proof.
  cbv zeta. do 6 (split; [reflexivity|]).
  intros k. cbn.
  key_case k "_id". key_case k "title". key_case k "views". key_case k "likes".
  key_case k "createdAt". by intros [? ?].
Qed.

Section Profile.
Context {engine : RegexEngine} {measure : TextMeasure}.

(** C10: for an existing user the profile answers 200 with the user's
    record: its id, username, email, bio and avatar, and no password (the
    timestamps of the record are not modelled).  With it come summaries of
    blogs: they are the blogs of that user with published = true, newest
    first, cut after the first 10.  The summary of a blog holds the blog's
    id, title, creation time, views and likes, no field outside (_id,
    title, excerpt, createdAt, views, likes), and so no content; each of
    these blogs is listed.  A blog with published = false is in no
    profile. *)
Theorem profile_shows_published_summaries (db : Db) (id : ObjectId) (u : User) :
  Users db !! id = Some u →
  ∃ all w ud,
    status (get_profile db id) = 200%Z
    ∧ json_field "user" (json (get_profile db id)) = Some ud
    ∧ json_field "_id" ud = Some (VId id)
    ∧ json_field "username" ud = Some (VStr (username u))
    ∧ json_field "email" ud = Some (VStr (email u))
    ∧ json_field "bio" ud = Some (VStr (bio u))
    ∧ json_field "avatar" ud = Some (VStr (avatar u))
    ∧ json_field "password" ud = None
    ∧ blogs_of (get_profile db id) = Some (profile_item <$> w)
    ∧ (∀ bid b, (bid, b) ∈ all ↔
         Blogs db !! bid = Some b ∧ author b = id ∧ published b = true)
    ∧ StronglySorted newer_first all
    ∧ w = take 10 all
    ∧ (length w ≤ 10)%nat
    ∧ StronglySorted newer_first w
    ∧ (∀ bid b, (bid, b) ∈ w →
         Blogs db !! bid = Some b ∧ author b = id ∧ published b = true
         ∧ listed (get_profile db id) bid
         ∧ json_field "_id" (profile_item (bid, b)) = Some (VId bid)
         ∧ json_field "title" (profile_item (bid, b)) = Some (VStr (title b))
         ∧ json_field "createdAt" (profile_item (bid, b)) = Some (VNum (createdAt b))
         ∧ json_field "views" (profile_item (bid, b)) = Some (VNum (views b))
         ∧ json_field "likes" (profile_item (bid, b)) = Some (VArr (VId <$> likes b)))
    ∧ (∀ d, d ∈ profile_item <$> w →
         json_field "content" d = None
         ∧ ∀ k, is_Some (json_field k d) →
                k ∈ ["_id"; "title"; "excerpt"; "createdAt"; "views"; "likes"])
    ∧ (∀ bid b, Blogs db !! bid = Some b → published b = false →
         ¬ listed (get_profile db id) bid).
Proof.
  intros Hu.
  set (query := mkQuery (Some true) None None (Some id)).
  set (all := sort_createdAt_desc (find db query)).
  assert (Hall : ∀ bid b, (bid, b) ∈ all ↔
                   Blogs db !! bid = Some b ∧ author b = id ∧ published b = true).
  { intros bid b. unfold all. rewrite elem_of_sort_createdAt_desc, elem_of_find.
    unfold matches. cbn. rewrite andb_true_r, andb_true_iff, Pos.eqb_eq.
    destruct (published b); cbn; intuition congruence. }
  assert (Hw : ∀ bid b, (bid, b) ∈ take 10 all →
                 Blogs db !! bid = Some b ∧ author b = id ∧ published b = true).
  { intros bid b Hin. apply Hall. by eapply subseteq_take. }
  assert (Hres : blogs_of (get_profile db id) = Some (profile_item <$> take 10 all)).
  { unfold get_profile. rewrite Hu. reflexivity. }
  exists all, (take 10 all), (VObj (select_exclude ["password"] (user_doc id u))).
  split; [unfold get_profile; by rewrite Hu|].
  split; [unfold get_profile; by rewrite Hu|].
  do 6 (split; [reflexivity|]).
  split; [exact Hres|]. split; [exact Hall|].
  split; [apply sort_createdAt_desc_sorted|]. split; [done|].
  split; [rewrite length_take; lia|].
  split; [apply StronglySorted_take, sort_createdAt_desc_sorted|].
  split; [|split].
  - intros bid b Hin. destruct (Hw bid b Hin) as (Hb & Ha & Hp).
    destruct (profile_item_fields bid b) as (Hid & Ht & Hc & Hv & Hl & _).
    do 3 (split; [done|]). split; [|done].
    exists (profile_item <$> take 10 all), (profile_item (bid, b)).
    split; [exact Hres|]. split; [|exact Hid].
    apply list_elem_of_fmap. by exists (bid, b).
  - intros d Hd. apply list_elem_of_fmap in Hd as ([bid b] & -> & _).
    destruct (profile_item_fields bid b) as (_ & _ & _ & _ & _ & Hc & Hk). done.
  - intros bid b Hb Hp (ds & d & Hds & Hd & Hid).
    rewrite Hres in Hds. injection Hds as <-.
    apply list_elem_of_fmap in Hd as ([bid' b'] & -> & Hin).
    injection Hid as ->. apply Hw in Hin as (Hb' & _ & Hp'). congruence.
Qed.

End Profile.

Lemma profile_shows_published_summaries_witness :
  blogs_of (get_profile (engine := literal_engine) db_three alice)
  = Some [profile_item (1%positive, hello_liked)]
  ∧ ¬ listed (get_profile (engine := literal_engine) db_three alice) 3%positive.
Proof.
  destruct (profile_shows_published_summaries (engine := literal_engine) db_three alice
              (mkUser "alice" "alice@example.com" "secret-a" "" ""))
    as (all & w & ud & _ & _ & _ & _ & _ & _ & _ & _ & Hblogs & _ & _ & Hw & _ & _
        & _ & _ & Hdraft).
  { vm_compute. reflexivity. }
  split.
  - vm_compute. reflexivity.
  - apply (Hdraft 3%positive (mkBlog "Notes" "Unfinished" [] "" false alice 0 [] [] 600 600)).
    + vm_compute. reflexivity.
    + reflexivity.
Defined.

(** * Further properties of the handlers *)

(** ** Comments *)

Section Comments.
Context {measure : TextMeasure}.


Lemma comment_validation_empty c :
  comment_validation c = [] ↔
  str_or_empty c ≠ "" ∧ (characters (str_or_empty c) ≤ 1000)%nat.
Proof.
  unfold comment_validation, isLength_max, validate.
  destruct (notEmpty (str_or_empty c)) eqn:Hn;
    destruct (Nat.leb_spec (characters (str_or_empty c)) 1000) as [Hl|Hl]; cbn.
  - apply notEmpty_true in Hn. tauto.
  - split; [done|]. lia.
  - split; [done|]. intros [Hne _]. apply notEmpty_true in Hne. congruence.
  - split; [done|]. lia.
Qed.


(** X2: a comment is refused with 400 exactly when its content is missing,
    empty, or longer than 1000 characters, as the validation library counts
    them (1000 itself is accepted), and this is decided before the blog is
    looked up; a comment that passes on an id that has no blog is answered
    404.  Whenever the answer is not 201 the database is as it was. *)
Theorem comment_rejections (db : Db) (now : Z) (u id : ObjectId) (c : option string) :
  let r := post_comment db now u id c in
  (status (snd r) = 400%Z ↔
     str_or_empty c = "" ∨ (1000 < characters (str_or_empty c))%nat)
  ∧ (status (snd r) = 404%Z ↔
     Blogs db !! id = None
     ∧ str_or_empty c ≠ "" ∧ (characters (str_or_empty c) ≤ 1000)%nat)
  ∧ (status (snd r) ≠ 201%Z → fst r = db).
Proof.
  intros r. unfold r, post_comment.
  pose proof (comment_validation_empty c) as Hv.
  destruct (comment_validation c) as [|e es]; cbn [isEmpty negb].
  - destruct (proj1 Hv eq_refl) as [Hne Hlen].
    destruct (Blogs db !! id) as [b|]; cbn.
    + destruct (schema_comment (str_or_empty c)); cbn.
      * split; [split; [done|intros [?|?]; [done|lia]]|]. split; [|done].
        split; [done|]. by intros [? _].
      * split; [split; [done|intros [?|?]; [done|lia]]|]. split; [|done].
        split; [done|]. by intros [? _].
    + split; [split; [done|intros [?|?]; [done|lia]]|]. split; [|done].
      split; [done|]. by intros _.
  - cbn. split; [|split; [|done]].
    + split; [|done]. intros _.
      destruct (decide (str_or_empty c = "")) as [|Hne]; [by left|right].
      destruct (Nat.leb_spec (characters (str_or_empty c)) 1000) as [Hl|Hl]; [|lia].
      assert (e :: es = []) by (apply Hv; done). done.
    + split; [done|]. intros (_ & Hne & Hl).
      assert (e :: es = []) by (apply Hv; done). done.
Qed.

End Comments.

Lemma comment_rejections_witness :
  status (snd (post_comment db_draft 150 bob 1%positive (Some (accented 600)))) ≠ 400%Z
  ∧ status (snd (post_comment db_draft 150 bob 7%positive None)) = 400%Z.
Proof.
  destruct (comment_rejections db_draft 150 bob 1%positive (Some (accented 600)))
    as (Haccented & _).
  destruct (comment_rejections db_draft 150 bob 7%positive None) as (Hmissing & _).
  split.
  - intros H400. apply Haccented in H400. vm_compute in H400.
    destruct H400 as [H|H]; [discriminate|lia].
  - apply Hmissing. left. reflexivity.
Defined.


(** ** What a sequence of requests does to a stored blog *)

Section Traces.
Context {engine : RegexEngine} {measure : TextMeasure}.

Lemma handle_blog_step db now r id b :
  Blogs db !! id = Some b →
  (deletes (author b) id r ∧ Blogs (fst (handle db now r)) !! id = None)
  ∨ (∃ b', Blogs (fst (handle db now r)) !! id = Some b'
       ∧ author b' = author b ∧ createdAt b' = createdAt b
       ∧ views b' = (views b + views_hit id r)%Z
       ∧ comments b `prefix_of` comments b').
Proof.
  intros Hb.
  assert (Hsame : ∀ r', views_hit id r' = 0%Z →
            ∃ b', Blogs db !! id = Some b'
              ∧ author b' = author b ∧ createdAt b' = createdAt b
              ∧ views b' = (views b + views_hit id r')%Z
              ∧ comments b `prefix_of` comments b').
  { intros r' ->. exists b. rewrite Z.add_0_r. by repeat split. }
  assert (Hins : ∀ id0 bnew users r',
            (id0 = id → author bnew = author b ∧ createdAt bnew = createdAt b
                        ∧ views bnew = (views b + views_hit id r')%Z
                        ∧ comments b `prefix_of` comments bnew) →
            (id0 ≠ id → views_hit id r' = 0%Z) →
            ∃ b', Blogs (mkDb (<[id0 := bnew]> (Blogs db)) users) !! id = Some b'
              ∧ author b' = author b ∧ createdAt b' = createdAt b
              ∧ views b' = (views b + views_hit id r')%Z
              ∧ comments b `prefix_of` comments b').
  { intros id0 bnew users r' Heq Hne. cbn. rewrite lookup_insert.
    case_decide as Hid.
    - exists bnew. split; [done|]. by apply Heq.
    - destruct (Hsame r' (Hne Hid)) as (b' & ? & ?). by exists b'. }
  destruct r as [q|id0|u body|u id0 body|u id0|u id0|u id0 c|id0|u q]; cbn [handle fst];
    try (right; by apply Hsame).
  - right. unfold get_blog. destruct (Blogs db !! id0) as [b0|] eqn:Hb0.
    + cbn [fst]. unfold save. apply Hins.
      * intros ->. rewrite Hb in Hb0. injection Hb0 as <-. cbn.
        rewrite Pos.eqb_refl. by repeat split.
      * intros Hne. cbn. by apply Pos.eqb_neq in Hne as ->.
    + cbn [fst]. exists b. split; [done|]. cbn.
      destruct (Pos.eqb_spec id0 id) as [->|_]; [congruence|].
      rewrite Z.add_0_r. by repeat split.
  - right. destruct (post_blog_db db now u body) as [->|(b0 & _ & _ & -> & _)];
      [by apply (Hsame (POST_blog u body))|].
    apply (Hins _ _ _ (POST_blog u body)); [|done].
    intros Hid. rewrite <- Hid, fresh_id_free in Hb. done.
  - right. destruct (put_blog_db db now u id0 body) as [->|(b0 & Hb0 & _ & _ & -> & _)];
      [by apply (Hsame (PUT_blog u id0 body))|].
    unfold save. apply (Hins _ _ _ (PUT_blog u id0 body)); [|done].
    intros ->. rewrite Hb in Hb0. injection Hb0 as <-. cbn.
    rewrite Z.add_0_r. by repeat split.
  - unfold delete_blog. destruct (Blogs db !! id0) as [b0|] eqn:Hb0; [|right; by apply Hsame].
    destruct (Pos.eqb_spec (author b0) u) as [Hau|_]; [|right; by apply Hsame].
    cbn. rewrite lookup_delete. case_decide as Hid.
    + left. subst id0. rewrite Hb in Hb0. injection Hb0 as <-. done.
    + right. by apply (Hsame (DELETE_blog u id0)).
  - right. unfold post_like. destruct (Blogs db !! id0) as [b0|] eqn:Hb0; [|by apply Hsame].
    cbn [fst]. unfold save. apply Hins; [|done].
    intros ->. rewrite Hb in Hb0. injection Hb0 as <-. cbn.
    rewrite Z.add_0_r. by repeat split.
  - right. destruct (post_comment_db db now u id0 c) as [->|(b0 & Hb0 & _ & -> & _)];
      [by apply (Hsame (POST_comment u id0 c))|].
    unfold save. apply (Hins _ _ _ (POST_comment u id0 c)); [|done].
    intros ->. rewrite Hb in Hb0. injection Hb0 as <-. cbn.
    rewrite Z.add_0_r. split; [done|]. split; [done|]. split; [done|].
    by apply prefix_app_r.
Qed.

Lemma run_blog trace : ∀ db id b,
  Blogs db !! id = Some b →
  Forall (fun nr => ¬ deletes (author b) id (snd nr)) trace →
  ∃ b', Blogs (run db trace) !! id = Some b'
    ∧ author b' = author b ∧ createdAt b' = createdAt b
    ∧ views b' = (views b + retrievals id trace)%Z
    ∧ comments b `prefix_of` comments b'.
Proof.
  induction trace as [|[now r] trace IH]; intros db id b Hb Hnd.
  - exists b. cbn. rewrite Z.add_0_r. by repeat split.
  - apply Forall_cons in Hnd as [Hr Hnd]. cbn in Hr.
    destruct (handle_blog_step db now r id b Hb) as [[Hdel _]|(b1 & Hb1 & Ha & Hc & Hv & Hp)];
      [done|].
    rewrite <- Ha in Hnd.
    destruct (IH _ id b1 Hb1 Hnd) as (b' & Hb' & Ha' & Hc' & Hv' & Hp').
    exists b'. cbn [run retrievals foldr snd].
    split; [done|]. split; [congruence|]. split; [congruence|].
    split; [fold (retrievals id trace); lia|]. by etrans.
Qed.

Lemma views_hit_nonneg id r : (0 ≤ views_hit id r)%Z.
Proof. destruct r; cbn; try lia. destruct (Pos.eqb _ _); lia. Qed.

Lemma retrievals_nonneg id trace : (0 ≤ retrievals id trace)%Z.
Proof.
  induction trace as [|[now r] trace IH]; cbn; [lia|].
  pose proof (views_hit_nonneg id r). fold (retrievals id trace). lia.
Qed.

(** X3: the view counter counts the single-post retrievals: over any
    sequence of requests in which the author does not delete the blog, its
    views grow by
    exactly the number of [GET /:id] requests for it; no other request
    changes the counter. *)
Theorem views_count_retrievals (db : Db) (trace : list (Z * Request))
    (id : ObjectId) (b : Blog) :
  Blogs db !! id = Some b →
  Forall (fun nr => ¬ deletes (author b) id (snd nr)) trace →
  ∃ b', Blogs (run db trace) !! id = Some b'
    ∧ views b' = (views b + retrievals id trace)%Z
    ∧ (views b ≤ views b')%Z.
Proof.
  intros Hb Hnd. destruct (run_blog trace db id b Hb Hnd) as (b' & Hb' & _ & _ & Hv & _).
  exists b'. split; [done|]. split; [done|].
  pose proof (retrievals_nonneg id trace). lia.
Qed.

(** X4: a stored blog stays until its author deletes it, and its history
    is kept: over any sequence of requests without a delete of the blog by
    its author (deletes by others included), the blog is still there, with
    the same author and creation time, and its earlier comments are the
    first of its comments, unchanged and in the same order. *)
Theorem blog_history_is_kept (db : Db) (trace : list (Z * Request))
    (id : ObjectId) (b : Blog) :
  Blogs db !! id = Some b →
  Forall (fun nr => ¬ deletes (author b) id (snd nr)) trace →
  ∃ b', Blogs (run db trace) !! id = Some b'
    ∧ author b' = author b ∧ createdAt b' = createdAt b
    ∧ comments b `prefix_of` comments b'.
Proof.
  intros Hb Hnd.
  destruct (run_blog trace db id b Hb Hnd) as (b' & Hb' & Ha & Hc & _ & Hp).
  by exists b'.
Qed.

End Traces.

Lemma sample_trace_keeps_draft :
  Forall (fun nr => ¬ deletes (author hello_draft) 1%positive (snd nr)) sample_trace.
Proof.
  unfold sample_trace.
  apply Forall_cons; split; [cbn; tauto|].
  apply Forall_cons; split; [cbn; tauto|].
  apply Forall_cons; split; [cbn; intros [_ Hu]; discriminate|].
  apply Forall_cons; split; [cbn; tauto|].
  apply Forall_cons; split; [cbn; tauto|].
  constructor.
Qed.

Lemma views_count_retrievals_witness :
  ∃ b', Blogs (run (engine := literal_engine) db_draft sample_trace) !! 1%positive = Some b'
        ∧ views b' = 2%Z.
Proof.
  destruct (views_count_retrievals (engine := literal_engine) db_draft sample_trace
              1%positive hello_draft) as (b' & Hb' & Hv & _).
  - vm_compute. reflexivity.
  - exact sample_trace_keeps_draft.
  - exists b'. split; [exact Hb'|exact Hv].
Defined.

Lemma blog_history_is_kept_witness :
  ∃ b', Blogs (run (engine := literal_engine) db_draft sample_trace) !! 1%positive = Some b'
        ∧ author b' = alice ∧ createdAt b' = 100%Z.
Proof.
  destruct (blog_history_is_kept (engine := literal_engine) db_draft sample_trace
              1%positive hello_draft) as (b' & Hb' & Ha & Hc & _).
  - vm_compute. reflexivity.
  - exact sample_trace_keeps_draft.
  - exists b'. split; [exact Hb'|]. split; [exact Ha|exact Hc].
Defined.

(** ** Deleting, reading and liking a single blog *)

Section SingleBlog.
Context {engine : RegexEngine} {measure : TextMeasure}.

(** Whatever a list response shows is stored. *)
Lemma listed_stored db id :
  (∀ q, listed (get_blogs db q) id → is_Some (Blogs db !! id))
  ∧ (∀ u q, listed (get_my_blogs db u q) id → is_Some (Blogs db !! id))
  ∧ (∀ u, listed (get_profile db u) id → is_Some (Blogs db !! id)).
Proof.
  split; [|split].
  - intros q (ds & d & Hds & Hd & Hid).
    destruct (get_blogs_item _ _ _ _ Hds Hd) as (id' & b' & -> & Hb' & _).
    injection Hid as ->. by exists b'.
  - intros u q (ds & d & Hds & Hd & Hid).
    apply get_my_blogs_blogs in Hds as (w & Hw & ->).
    apply list_elem_of_fmap in Hd as ([id' b'] & -> & Hin).
    destruct (page_window_elem _ _ _ _ _ _ _ Hw Hin) as [Hb' _].
    injection Hid as ->. by exists b'.
  - intros u (ds & d & Hds & Hd & Hid). unfold get_profile in Hds.
    destruct (Users db !! u); [|done]. cbn in Hds. injection Hds as <-.
    apply list_elem_of_fmap in Hd as ([id' b'] & -> & Hin).
    apply subseteq_take, elem_of_sort_createdAt_desc, elem_of_find in Hin as [Hb' _].
    injection Hid as ->. by exists b'.
Qed.

(** Only a create gives a blog to an id that has none. *)
Lemma handle_keeps_unknown db now r id :
  Blogs db !! id = None → (∀ u body, r ≠ POST_blog u body) →
  Blogs (fst (handle db now r)) !! id = None.
Proof.
  intros Hnone Hr.
  assert (Hsave : ∀ id0 b0 bnew, Blogs db !! id0 = Some b0 →
            Blogs (save db now id0 bnew) !! id = None).
  { intros id0 b0 bnew Hb0. cbn. rewrite lookup_insert_ne; [done|]. congruence. }
  destruct r as [q|id0|u body|u id0 body|u id0|u id0|u id0 c|id0|u q]; cbn [handle fst];
    try done.
  - unfold get_blog. destruct (Blogs db !! id0) as [b0|] eqn:Hb0; [|done].
    by apply (Hsave id0 b0).
  - by destruct (Hr u body).
  - destruct (put_blog_db db now u id0 body) as [->|(b0 & Hb0 & _ & _ & -> & _)]; [done|].
    by apply (Hsave id0 b0).
  - unfold delete_blog. destruct (Blogs db !! id0) as [b0|] eqn:Hb0; [|done].
    destruct (Pos.eqb (author b0) u); [|done].
    cbn. rewrite lookup_delete_ne; [done|]. congruence.
  - unfold post_like. destruct (Blogs db !! id0) as [b0|] eqn:Hb0; [|done].
    by apply (Hsave id0 b0).
  - destruct (post_comment_db db now u id0 c) as [->|(b0 & Hb0 & _ & -> & _)]; [done|].
    by apply (Hsave id0 b0).
Qed.

Lemma run_keeps_unknown trace : ∀ db id,
  Blogs db !! id = None →
  Forall (fun nr => ∀ u body, snd nr ≠ POST_blog u body) trace →
  Blogs (run db trace) !! id = None.
Proof.
  induction trace as [|[now r] trace IH]; intros db id Hnone Hno; [done|].
  apply Forall_cons in Hno as [Hr Hno]. cbn [run]. apply IH; [|done].
  by apply handle_keeps_unknown.
Qed.

(** X5: a delete by the author removes that blog and nothing else: the
    other blogs and the users are as before.  Afterwards the id is unknown
    to every route: reading, liking and deleting it again answer 404;
    updating and commenting answer 404 too, unless the body fails
    validation, which is answered 400 first; none of these requests changes
    the database, and no listing shows the id.  The id stays without a blog
    over any further requests among which there is no create. *)
Theorem delete_is_final (db : Db) (u id : ObjectId) (b : Blog) :
  Blogs db !! id = Some b → author b = u →
  let db' := fst (delete_blog db u id) in
  status (snd (delete_blog db u id)) = 200%Z
  ∧ Blogs db' = delete id (Blogs db)
  ∧ Users db' = Users db
  ∧ (∀ id', id' ≠ id → Blogs db' !! id' = Blogs db !! id')
  ∧ (∀ now, get_blog db' now id = (db', blog_not_found))
  ∧ (∀ now v, post_like db' now v id = (db', blog_not_found))
  ∧ (∀ now v body,
       fst (put_blog db' now v id body) = db'
       ∧ (update_validation body = [] →
          put_blog db' now v id body = (db', blog_not_found))
       ∧ (update_validation body ≠ [] →
          status (snd (put_blog db' now v id body)) = 400%Z))
  ∧ (∀ now v c,
       fst (post_comment db' now v id c) = db'
       ∧ (comment_validation c = [] →
          post_comment db' now v id c = (db', blog_not_found))
       ∧ (comment_validation c ≠ [] →
          status (snd (post_comment db' now v id c)) = 400%Z))
  ∧ (∀ v, delete_blog db' v id = (db', blog_not_found))
  ∧ (∀ q, ¬ listed (get_blogs db' q) id)
  ∧ (∀ v q, ¬ listed (get_my_blogs db' v q) id)
  ∧ (∀ v, ¬ listed (get_profile db' v) id)
  ∧ (∀ trace, Forall (fun nr => ∀ v body, snd nr ≠ POST_blog v body) trace →
       Blogs (run db' trace) !! id = None).
Proof.
  intros Hb Ha db'.
  assert (Hdb : delete_blog db u id
                = (findByIdAndDelete db id, mkRes 200 (message "Blog deleted successfully"))).
  { unfold delete_blog. rewrite Hb. apply Pos.eqb_eq in Ha. by rewrite Ha. }
  assert (Hnone : Blogs db' !! id = None).
  { unfold db'. rewrite Hdb. cbn. apply lookup_delete_eq. }
  destruct (listed_stored db' id) as (Hl1 & Hl2 & Hl3).
  split; [by rewrite Hdb|]. split; [unfold db'; by rewrite Hdb|].
  split; [unfold db'; by rewrite Hdb|]. split.
  { intros id' Hne. unfold db'. rewrite Hdb. cbn. by apply lookup_delete_ne. }
  split; [intros now; unfold get_blog; by rewrite Hnone|].
  split; [intros now v; unfold post_like; by rewrite Hnone|].
  split.
  { intros now v body. unfold put_blog.
    destruct (update_validation body) as [|e es]; cbn [isEmpty negb];
      [by rewrite Hnone|done]. }
  split.
  { intros now v c. unfold post_comment.
    destruct (comment_validation c) as [|e es]; cbn [isEmpty negb];
      [by rewrite Hnone|done]. }
  split; [intros v; unfold delete_blog; by rewrite Hnone|].
  split; [|split; [|split]].
  - intros q Hq. apply Hl1 in Hq as [? Hq]. congruence.
  - intros v q Hq. apply Hl2 in Hq as [? Hq]. congruence.
  - intros v Hq. apply Hl3 in Hq as [? Hq]. congruence.
  - intros trace Hno. by apply run_keeps_unknown.
Qed.

(** X6: a single-post retrieval serves every stored blog in full, draft or
    published, to whoever asks: the answer is 200 with the stored title,
    content and published flag, and the retrieval leaves the title,
    content, tags, image, published flag, author, likes, comments and
    creation time of the blog as they were. *)
Theorem retrieval_serves_any_blog (db : Db) (now : Z) (id : ObjectId) (b : Blog) :
  Blogs db !! id = Some b →
  let r := get_blog db now id in
  status (snd r) = 200%Z
  ∧ json_field "title" (json (snd r)) = Some (VStr (title b))
  ∧ json_field "content" (json (snd r)) = Some (VStr (content b))
  ∧ json_field "published" (json (snd r)) = Some (VBool (published b))
  ∧ Users (fst r) = Users db
  ∧ ∃ b', Blogs (fst r) !! id = Some b'
      ∧ title b' = title b ∧ content b' = content b ∧ tags b' = tags b
      ∧ featuredImage b' = featuredImage b ∧ published b' = published b
      ∧ author b' = author b ∧ likes b' = likes b ∧ comments b' = comments b
      ∧ createdAt b' = createdAt b.
Proof.
  intros Hb r. unfold r, get_blog. rewrite Hb. cbn [fst snd status json].
  split; [done|]. split; [done|]. split; [done|]. split; [done|]. split; [done|].
  eexists. split; [cbn; apply lookup_insert_eq|]. by repeat split.
Qed.

(** X7: a like toggle needs no ownership and no published flag; it leaves
    the title, content, tags, image, published flag, author, views,
    comments and creation time of the blog, every other blog and the users
    as they were, and on an id that has no blog it answers 404 with the
    database unchanged. *)
Theorem like_changes_only_likes (db : Db) (now : Z) (u id : ObjectId) :
  (∀ b, Blogs db !! id = Some b →
     let r := post_like db now u id in
     status (snd r) = 200%Z
     ∧ Users (fst r) = Users db
     ∧ (∀ id', id' ≠ id → Blogs (fst r) !! id' = Blogs db !! id')
     ∧ ∃ b', Blogs (fst r) !! id = Some b'
         ∧ title b' = title b ∧ content b' = content b ∧ tags b' = tags b
         ∧ featuredImage b' = featuredImage b ∧ published b' = published b
         ∧ author b' = author b ∧ views b' = views b ∧ comments b' = comments b
         ∧ createdAt b' = createdAt b)
  ∧ (Blogs db !! id = None →
     post_like db now u id = (db, blog_not_found) ∧ status blog_not_found = 404%Z).
Proof.
  split.
  - intros b Hb r. unfold r, post_like. rewrite Hb. cbn [fst snd status].
    split; [done|]. split; [done|]. split.
    + intros id' Hne. cbn. by apply lookup_insert_ne.
    + eexists. split; [cbn; apply lookup_insert_eq|]. by repeat split.
  - intros Hb. unfold post_like. by rewrite Hb.
Qed.

End SingleBlog.

Lemma delete_is_final_witness :
  get_blog (fst (delete_blog db_three bob 2%positive)) 800 2%positive
  = (fst (delete_blog db_three bob 2%positive), blog_not_found)
  ∧ Blogs (fst (delete_blog db_three bob 2%positive)) !! 1%positive = Some hello_liked.
Proof.
  destruct (delete_is_final (engine := literal_engine) db_three bob 2%positive second_post)
    as (_ & _ & _ & Hothers & Hget & _).
  - vm_compute. reflexivity.
  - reflexivity.
  - split; [apply Hget|]. rewrite Hothers by discriminate. vm_compute. reflexivity.
Defined.

Lemma retrieval_serves_any_blog_witness :
  json_field "content" (json (snd (get_blog db_draft 150 1%positive))) = Some (VStr "World")
  ∧ json_field "published" (json (snd (get_blog db_draft 150 1%positive)))
    = Some (VBool false).
Proof.
  destruct (retrieval_serves_any_blog db_draft 150 1%positive hello_draft)
    as (_ & _ & Hc & Hp & _).
  - vm_compute. reflexivity.
  - split; [exact Hc|exact Hp].
Defined.

Lemma like_changes_only_likes_witness :
  (∃ b', Blogs (fst (post_like db_draft 150 alice 1%positive)) !! 1%positive = Some b'
         ∧ published b' = false ∧ views b' = 0%Z)
  ∧ post_like db_empty 150 alice 1%positive = (db_empty, blog_not_found).
Proof.
  destruct (like_changes_only_likes db_draft 150 alice 1%positive) as [Hsome _].
  destruct (like_changes_only_likes db_empty 150 alice 1%positive) as [_ Hnone].
  split.
  - destruct (Hsome hello_draft) as (_ & _ & _ & b' & Hb' & _ & _ & _ & _ & Hp & _ & Hv & _).
    + vm_compute. reflexivity.
    + exists b'. split; [exact Hb'|]. split; [exact Hp|exact Hv].
  - apply Hnone. vm_compute. reflexivity.
Defined.

(** ** Pages *)

Lemma NoDup_fst_filter {A B} (f : A * B → bool) (l : list (A * B)) :
  NoDup (fst <$> l) → NoDup (fst <$> List.filter f l).
Proof.
  induction l as [|x l IH]; [done|]. cbn. rewrite NoDup_cons. intros [Hx Hl].
  destruct (f x); cbn; [|by apply IH].
  apply NoDup_cons. split; [|by apply IH].
  intros Hin. apply Hx. apply list_elem_of_fmap in Hin as (y & Hy & Hin).
  apply list_elem_of_fmap. exists y. split; [done|].
  apply list_elem_of_In. apply list_elem_of_In, filter_In in Hin. tauto.
Qed.

Lemma windows_disjoint {A} (l : list A) (s1 s2 n : nat) (x : A) :
  NoDup l → s1 + n ≤ s2 → x ∈ take n (drop s1 l) → x ∉ take n (drop s2 l).
Proof.
  intros Hnd Hs H1 H2.
  apply elem_of_take in H1 as (i & Hi & Hin).
  apply elem_of_take in H2 as (j & Hj & Hjn).
  rewrite lookup_drop in Hi. rewrite lookup_drop in Hj.
  pose proof (NoDup_lookup _ _ _ _ Hnd Hi Hj). lia.
Qed.

Lemma is_ceil_lt (total limit page c : Z) :
  (0 < limit)%Z → is_ceil total limit c → (page < c ↔ page * limit < total)%Z.
Proof. unfold is_ceil. intros Hl [H1 H2]. split; intros; nia. Qed.

Lemma StronglySorted_drop {A} (R : relation A) n (l : list A) :
  StronglySorted R l → StronglySorted R (drop n l).
Proof.
  intros Hl. rewrite <- (take_drop n l) in Hl. by apply StronglySorted_app_1_r in Hl.
Qed.

Section Pages.
Context {engine : RegexEngine} {measure : TextMeasure}.

Lemma NoDup_ids_sorted db query :
  NoDup (fst <$> sort_createdAt_desc (find db query)).
Proof.
  unfold sort_createdAt_desc. rewrite merge_sort_Permutation.
  unfold find. apply NoDup_fst_filter, NoDup_fst_map_to_list.
Qed.

Lemma length_sorted db query :
  length (sort_createdAt_desc (find db query)) = length (find db query).
Proof. unfold sort_createdAt_desc. by rewrite merge_sort_Permutation. Qed.

Lemma page_window_sorted db query skip limit w :
  page_window db query skip limit = Some w → StronglySorted newer_first w.
Proof.
  unfold page_window, cursor_skip, cursor_limit.
  destruct (skip <? 0)%Z; [done|]. cbn. intros [= <-].
  destruct (limit =? 0)%Z; [|apply StronglySorted_take];
    apply StronglySorted_drop, sort_createdAt_desc_sorted.
Qed.

Lemma page_window_disjoint db query limit p1 p2 w1 w2 id b1 b2 :
  (1 ≤ p1)%Z → (p1 < p2)%Z → (1 ≤ limit)%Z →
  page_window db query ((p1 - 1) * limit) limit = Some w1 →
  page_window db query ((p2 - 1) * limit) limit = Some w2 →
  (id, b1) ∈ w1 → (id, b2) ∈ w2 → False.
Proof.
  intros Hp1 Hp2 Hl Hw1 Hw2 H1 H2.
  rewrite page_window_pos in Hw1 by nia. rewrite page_window_pos in Hw2 by nia.
  injection Hw1 as <-. injection Hw2 as <-.
  apply (list_elem_of_fmap_2 fst) in H1, H2. cbn in H1, H2.
  rewrite fmap_take, fmap_drop in H1. rewrite fmap_take, fmap_drop in H2.
  eapply windows_disjoint; [apply NoDup_ids_sorted| |exact H1|exact H2]. nia.
Qed.

(** When no two stored blogs were created at the same time, the order of
    a sorted query is determined: whatever order the store answers in, if
    it holds the matches newest first it is the order of [sort]. *)
Lemma sort_createdAt_desc_unique db query order :
  created_apart db → order ≡ₚ find db query → StronglySorted newer_first order →
  order = sort_createdAt_desc (find db query).
Proof.
  intros Hapart Hperm Hsorted.
  apply (StronglySorted_unique_strong newer_first);
    [|exact Hsorted|apply sort_createdAt_desc_sorted|].
  - intros [i bi] [j bj] Hi Hj H1 H2. unfold newer_first in H1, H2. cbn in H1, H2.
    rewrite Hperm in Hi. rewrite elem_of_sort_createdAt_desc in Hj.
    apply elem_of_find in Hi as [Hi _]. apply elem_of_find in Hj as [Hj _].
    assert (i = j) as -> by (apply (Hapart i j bi bj Hi Hj); lia).
    congruence.
  - unfold sort_createdAt_desc. by rewrite merge_sort_Permutation.
Qed.

(** X8: when no two stored blogs were created at the same time, the pages
    of a listing do not overlap: for the same filter and limit, a blog
    shown on one page is shown on no later page, in the public listing as
    in the requester's own.  The order of the documents that a query
    matches is then determined, so this holds in whatever order the store
    answers.  (Among blogs created at the same time the store is free to
    order each answer as it likes.) *)
Theorem pages_do_not_overlap (db : Db) (u : ObjectId) (q : ReqQuery) (p1 p2 : Z)
    (id : ObjectId) :
  (1 ≤ p1)%Z → (p1 < p2)%Z → (1 ≤ num_or (query_limit q) 10)%Z →
  created_apart db →
  (listed (get_blogs db (with_page p1 q)) id → ¬ listed (get_blogs db (with_page p2 q)) id)
  ∧ (listed (get_my_blogs db u (with_page p1 q)) id →
     ¬ listed (get_my_blogs db u (with_page p2 q)) id)
  ∧ (∀ query order,
       order ≡ₚ find db query → StronglySorted newer_first order →
       order = sort_createdAt_desc (find db query)).
Proof.
  intros Hp1 Hp2 Hl Hapart.
  assert (Hn1 : num_or (Some p1) 1 = p1) by (cbn; destruct (Z.eqb_spec p1 0); lia).
  assert (Hn2 : num_or (Some p2) 1 = p2) by (cbn; destruct (Z.eqb_spec p2 0); lia).
  split; [|split].
  - intros (ds1 & d1 & Hds1 & Hd1 & Hid1) (ds2 & d2 & Hds2 & Hd2 & Hid2).
    apply get_blogs_blogs in Hds1 as (query1 & w1 & Hq1 & Hw1 & ->).
    apply get_blogs_blogs in Hds2 as (query2 & w2 & Hq2 & Hw2 & ->).
    cbn [with_page query_page query_limit query_search query_tag query_author] in *.
    rewrite Hq1 in Hq2. injection Hq2 as <-. rewrite Hn1 in Hw1. rewrite Hn2 in Hw2.
    apply list_elem_of_fmap in Hd1 as ([i1 b1] & -> & Hin1).
    apply list_elem_of_fmap in Hd2 as ([i2 b2] & -> & Hin2).
    injection Hid1 as ->. injection Hid2 as ->.
    eapply (page_window_disjoint db query1 _ p1 p2); eauto.
  - intros (ds1 & d1 & Hds1 & Hd1 & Hid1) (ds2 & d2 & Hds2 & Hd2 & Hid2).
    apply get_my_blogs_blogs in Hds1 as (w1 & Hw1 & ->).
    apply get_my_blogs_blogs in Hds2 as (w2 & Hw2 & ->).
    cbn [with_page query_page query_limit query_published] in *.
    rewrite Hn1 in Hw1. rewrite Hn2 in Hw2.
    apply list_elem_of_fmap in Hd1 as ([i1 b1] & -> & Hin1).
    apply list_elem_of_fmap in Hd2 as ([i2 b2] & -> & Hin2).
    injection Hid1 as ->. injection Hid2 as ->.
    eapply (page_window_disjoint db _ _ p1 p2); eauto.
  - intros query order. by apply sort_createdAt_desc_unique.
Qed.

(** X9: every page of a listing is in order, newest first: in the public
    listing and in the requester's own, each document was created no
    earlier than the documents after it. *)
Theorem pages_are_newest_first (db : Db) (u : ObjectId) (q : ReqQuery) (ds : list Value) :
  blogs_of (get_blogs db q) = Some ds ∨ blogs_of (get_my_blogs db u q) = Some ds →
  StronglySorted (fun d1 d2 => (created_of d2 ≤ created_of d1)%Z) ds.
Proof.
  intros [Hds|Hds].
  - apply get_blogs_blogs in Hds as (query & w & _ & Hw & ->).
    apply (StronglySorted_fmap _ newer_first); [|by eapply page_window_sorted].
    by intros [i1 b1] [i2 b2].
  - apply get_my_blogs_blogs in Hds as (w & Hw & ->).
    apply (StronglySorted_fmap _ newer_first); [|by eapply page_window_sorted].
    by intros [i1 b1] [i2 b2].
Qed.

Lemma window_size db query (page limit : Z) w :
  (1 ≤ page)%Z → (1 ≤ limit)%Z →
  w = take (Z.to_nat limit)
        (drop (Z.to_nat ((page - 1) * limit)) (sort_createdAt_desc (find db query))) →
  Z.of_nat (length w)
  = Z.min limit (Z.max 0 (countDocuments db query - (page - 1) * limit)).
Proof.
  intros Hp Hl ->. rewrite length_take, length_drop, length_sorted.
  unfold countDocuments. nia.
Qed.

Lemma pagination_hasNext page limit total :
  (1 ≤ limit)%Z →
  json_field "hasNext" (pagination page limit total)
  = Some (VBool (bool_decide (page * limit < total)%Z)).
Proof.
  intros Hl. unfold pagination. cbn. do 2 f_equal.
  pose proof (ceil_div_is_ceil total limit ltac:(lia)) as Hc.
  pose proof (is_ceil_lt total limit page _ ltac:(lia) Hc) as Hiff.
  destruct (Z.ltb_spec page (ceil_div total limit)).
  - rewrite bool_decide_eq_true_2; [done|]. tauto.
  - rewrite bool_decide_eq_false_2; [done|]. intros Hlt. apply Hiff in Hlt. lia.
Qed.

(** X10: a page holds the documents that are left after the skipped ones,
    up to the limit: min(limit, total - skip) of them, none when the page
    lies past the last match, and hasNext tells exactly whether matches
    remain after this page (page * limit < total); in the requester's own
    listing, and in the public listing whenever its filter builds. *)
Theorem page_size_and_next (db : Db) (u : ObjectId) (q : ReqQuery) :
  let page := num_or (query_page q) 1 in
  let limit := num_or (query_limit q) 10 in
  (1 ≤ page)%Z → (1 ≤ limit)%Z →
  let sized r total :=
    ∃ ds, blogs_of r = Some ds
      ∧ Z.of_nat (length ds) = Z.min limit (Z.max 0 (total - (page - 1) * limit))
      ∧ ((total ≤ (page - 1) * limit)%Z → ds = [])
      ∧ report_field "totalBlogs" r = Some (VNum total)
      ∧ report_field "hasNext" r = Some (VBool (bool_decide (page * limit < total)%Z)) in
  sized (get_my_blogs db u q) (countDocuments db (my_blogs_query u (query_published q)))
  ∧ (∀ query,
       public_query (str_or_empty (query_search q)) (str_or_empty (query_tag q))
         (query_author q) = Some query →
       sized (get_blogs db q) (countDocuments db query)).
Proof.
  intros page limit Hp Hl sized.
  assert (Hsized : ∀ (item : ObjectId * Blog → Value) query,
            ∃ ds, Some (item <$> take (Z.to_nat limit)
                           (drop (Z.to_nat ((page - 1) * limit))
                              (sort_createdAt_desc (find db query)))) = Some ds
              ∧ Z.of_nat (length ds)
                = Z.min limit (Z.max 0 (countDocuments db query - (page - 1) * limit))
              ∧ ((countDocuments db query ≤ (page - 1) * limit)%Z → ds = [])).
  { intros item query. eexists. split; [reflexivity|]. rewrite length_fmap.
    pose proof (window_size db query page limit _ Hp Hl eq_refl) as Hlen.
    split; [exact Hlen|]. intros Hpast. apply nil_length_inv. rewrite length_fmap. lia. }
  split.
  - destruct (Hsized (my_item db) (my_blogs_query u (query_published q)))
      as (ds & Hds & Hlen & Hpast).
    exists ds. unfold get_my_blogs. fold page limit. rewrite page_window_pos by nia.
    split; [exact Hds|]. split; [exact Hlen|]. split; [exact Hpast|].
    split; [reflexivity|]. unfold report_field. cbn [json json_field field String.eqb].
    cbn. by apply pagination_hasNext.
  - intros query Hq.
    destruct (Hsized (public_item db) query) as (ds & Hds & Hlen & Hpast).
    exists ds. unfold get_blogs. fold page limit. rewrite Hq.
    rewrite page_window_pos by nia.
    split; [exact Hds|]. split; [exact Hlen|]. split; [exact Hpast|].
    split; [reflexivity|]. unfold report_field. cbn. by apply pagination_hasNext.
Qed.

Lemma public_matches search tag a query b :
  public_query search tag a = Some query →
  matches query b = true ↔
    published b = true
    ∧ (truthy search = true → search_matches search b)
    ∧ (truthy tag = true → ∃ t, t ∈ tags b ∧ regex_test tag t = true)
    ∧ (∀ a', a = Some a' → author b = a').
Proof.
  rewrite public_query_spec. destruct (_ || _); [done|]. intros [= <-].
  unfold matches. cbn [q_published q_or q_tags q_author].
  assert (HA : Bool.eqb (published b) true = true ↔ published b = true)
    by (destruct (published b); cbn; split; congruence).
  assert (HB : match (if truthy search
                      then Some [TitleRegex search; ContentRegex search; TagsInRegex search]
                      else None) with
               | Some cs => existsb (fun c => cond_matches c b) cs
               | None => true
               end = true ↔ (truthy search = true → search_matches search b)).
  { destruct (truthy search); [rewrite search_clause_true; tauto|]. split; [done|auto]. }
  assert (HC : match (if truthy tag then Some tag else None) with
               | Some p => tags_in p b
               | None => true
               end = true ↔ (truthy tag = true → ∃ t, t ∈ tags b ∧ regex_test tag t = true)).
  { destruct (truthy tag); [rewrite tags_in_true; tauto|]. split; [done|auto]. }
  assert (HD : match a with Some a0 => Pos.eqb (author b) a0 | None => true end = true
               ↔ (∀ a', a = Some a' → author b = a')).
  { destruct a as [a0|]; [rewrite Pos.eqb_eq|]; split; try done.
    - by intros ? ? [= <-].
    - auto. }
  rewrite !andb_true_iff, HA, HB, HC, HD. tauto.
Qed.

(** X11: the public listing leaves no match out: when the first page is
    asked for and the limit is at least the number of matches, every stored
    blog that is published and satisfies the search, tag and author
    parameters that were given is shown. *)
Theorem public_listing_complete (db : Db) (q : ReqQuery) (query : Query)
    (id : ObjectId) (b : Blog) :
  let search := str_or_empty (query_search q) in
  let tag := str_or_empty (query_tag q) in
  num_or (query_page q) 1 = 1%Z →
  (1 ≤ num_or (query_limit q) 10)%Z →
  public_query search tag (query_author q) = Some query →
  (countDocuments db query ≤ num_or (query_limit q) 10)%Z →
  Blogs db !! id = Some b →
  published b = true →
  (truthy search = true → search_matches search b) →
  (truthy tag = true → ∃ t, t ∈ tags b ∧ regex_test tag t = true) →
  (∀ a, query_author q = Some a → author b = a) →
  listed (get_blogs db q) id.
Proof.
  intros search tag Hpage Hlimit Hq Htotal Hb Hp Hs Ht Ha.
  exists (public_item db <$> sort_createdAt_desc (find db query)), (public_item db (id, b)).
  split; [|split; [|done]].
  - unfold get_blogs. rewrite Hpage. fold search tag. rewrite Hq.
    rewrite page_window_pos by lia.
    change (Z.to_nat ((1 - 1) * num_or (query_limit q) 10)) with 0%nat.
    rewrite drop_0, take_ge; [done|]. rewrite length_sorted.
    unfold countDocuments in Htotal. lia.
  - apply list_elem_of_fmap_2, elem_of_sort_createdAt_desc, elem_of_find.
    split; [done|]. by apply (public_matches search tag (query_author q)).
Qed.

End Pages.

Lemma db_three_created_apart : created_apart db_three.
Proof.
  intros i j bi bj Hi Hj.
  apply elem_of_map_to_list in Hi, Hj.
  remember (map_to_list (Blogs db_three)) as l eqn:Hl. vm_compute in Hl. subst l.
  repeat (apply elem_of_cons in Hi as [Hi|Hi]); try (by apply elem_of_nil in Hi);
    repeat (apply elem_of_cons in Hj as [Hj|Hj]); try (by apply elem_of_nil in Hj);
    injection Hi as -> ->; injection Hj as -> ->; cbn; congruence.
Qed.

Lemma pages_do_not_overlap_witness :
  ¬ listed (get_blogs (engine := literal_engine) db_three (with_page 2 page2_limit1))
      2%positive.
Proof.
  destruct (pages_do_not_overlap (engine := literal_engine) db_three alice page2_limit1
              1 2 2%positive) as [Hpublic _]; [lia|lia|cbn; lia|exact db_three_created_apart|].
  apply Hpublic.
  exists [public_item db_three (2%positive, second_post)],
    (public_item db_three (2%positive, second_post)).
  split; [vm_compute; reflexivity|]. split; [constructor|reflexivity].
Defined.

Lemma pages_are_newest_first_witness :
  StronglySorted (fun d1 d2 => (created_of d2 ≤ created_of d1)%Z)
    [public_item db_three (2%positive, second_post);
     public_item db_three (1%positive, hello_liked)].
Proof.
  apply (pages_are_newest_first (engine := literal_engine) db_three alice no_query).
  left. vm_compute. reflexivity.
Defined.

Lemma page_size_and_next_witness :
  report_field "hasNext"
    (get_my_blogs (engine := literal_engine) db_three alice
       (mkReqQuery (Some 1%Z) (Some 1%Z) None None None None))
  = Some (VBool true).
Proof.
  destruct (page_size_and_next (engine := literal_engine) db_three alice
              (mkReqQuery (Some 1%Z) (Some 1%Z) None None None None))
    as [(ds & _ & _ & _ & _ & Hnext) _]; [cbn; lia|cbn; lia|].
  rewrite Hnext. vm_compute. reflexivity.
Defined.

Lemma public_listing_complete_witness :
  listed (get_blogs (engine := literal_engine) db_three
            (mkReqQuery None None (Some "news") None (Some bob) None)) 2%positive.
Proof.
  apply (public_listing_complete (engine := literal_engine) db_three
           (mkReqQuery None None (Some "news") None (Some bob) None)
           (mkQuery (Some true)
              (Some [TitleRegex "news"; ContentRegex "news"; TagsInRegex "news"])
              None (Some bob))
           2%positive second_post).
  - reflexivity.
  - cbn. lia.
  - vm_compute. reflexivity.
  - vm_compute. discriminate.
  - vm_compute. reflexivity.
  - reflexivity.
  - intros _. right. left. vm_compute. reflexivity.
  - discriminate.
  - intros a [= <-]. reflexivity.
Defined.

(** ** What the responses never show *)

Section Exposure.
Context {engine : RegexEngine} {measure : TextMeasure}.

Lemma existsb_fmap_false {A} (f : A → Value) k (l : list A) :
  (∀ x, has_key k (f x) = false) → existsb (has_key k) (f <$> l) = false.
Proof.
  intros Hf. induction l as [|x l IH]; [done|]. cbn. by rewrite Hf, IH.
Qed.

Lemma validate_no_key k ok path msg :
  k = "password" ∨ k = "email" → existsb (has_key k) (validate ok path msg) = false.
Proof. intros [-> | ->]; by destruct ok. Qed.

Lemma validation_no_key k :
  k = "password" ∨ k = "email" →
  (∀ body, existsb (has_key k) (create_validation body) = false)
  ∧ (∀ body, existsb (has_key k) (update_validation body) = false)
  ∧ (∀ c, existsb (has_key k) (comment_validation c) = false).
Proof.
  intros Hk. split; [|split].
  - intros body. unfold create_validation, tags_chain, optional.
    rewrite !existsb_app, !validate_no_key by done.
    destruct (body_tags body); [by apply validate_no_key|done].
  - intros body. unfold update_validation, tags_chain, optional.
    rewrite !existsb_app.
    destruct (body_title body), (body_content body), (body_tags body);
      rewrite ?validate_no_key by done; done.
  - intros c. unfold comment_validation.
    by rewrite !existsb_app, !validate_no_key.
Qed.

Lemma validation_failed_no_key k errors :
  k = "password" ∨ k = "email" → existsb (has_key k) errors = false →
  has_key k (json (validation_failed errors)) = false.
Proof. intros [-> | ->] He; cbn; by rewrite He. Qed.

Ltac no_key_arrays :=
  rewrite <- ?list_fmap_compose;
  repeat (rewrite existsb_fmap_false by (intros ?; cbn; repeat case_match; reflexivity)).

Ltac no_key Hk :=
  destruct Hk as [-> | ->]; cbn; no_key_arrays; repeat case_match; reflexivity.

Lemma listing_items_no_key db k :
  k = "password" ∨ k = "email" →
  (∀ ib, has_key k (public_item db ib) = false)
  ∧ (∀ ib, has_key k (my_item db ib) = false)
  ∧ (∀ ib, has_key k (profile_item ib) = false).
Proof.
  intros Hk. split; [|split]; intros [id b].
  - unfold public_item, populate, populate_ref. no_key Hk.
  - unfold my_item, populate, populate_ref. no_key Hk.
  - unfold profile_item. no_key Hk.
Qed.

Lemma list_response_no_key k (item : ObjectId * Blog → Value) found page limit total :
  k = "password" ∨ k = "email" → (∀ ib, has_key k (item ib) = false) →
  has_key k (VObj [("blogs", VArr (item <$> found));
                   ("pagination", pagination page limit total)]) = false.
Proof.
  intros Hk Hitem. destruct Hk as [-> | ->]; cbn; by rewrite existsb_fmap_false.
Qed.

Lemma blog_handlers_no_key db now k :
  k = "password" ∨ k = "email" →
  (∀ q, has_key k (json (get_blogs db q)) = false)
  ∧ (∀ id, has_key k (json (snd (get_blog db now id))) = false)
  ∧ (∀ u body, has_key k (json (snd (post_blog db now u body))) = false)
  ∧ (∀ u id body, has_key k (json (snd (put_blog db now u id body))) = false)
  ∧ (∀ u id, has_key k (json (snd (delete_blog db u id))) = false)
  ∧ (∀ u id, has_key k (json (snd (post_like db now u id))) = false)
  ∧ (∀ u id c, has_key k (json (snd (post_comment db now u id c))) = false)
  ∧ (∀ u q, has_key k (json (get_my_blogs db u q)) = false).
Proof.
  intros Hk.
  destruct (validation_no_key k Hk) as (Hcreate & Hupdate & Hcomment).
  destruct (listing_items_no_key db k Hk) as (Hpublic & Hmine & _).
  split; [|split; [|split; [|split; [|split; [|split; [|split]]]]]].
  - intros q. unfold get_blogs.
    destruct (public_query _ _ _); [|by destruct Hk as [-> | ->]].
    destruct (page_window _ _ _ _); [|by destruct Hk as [-> | ->]].
    by apply list_response_no_key.
  - intros id. unfold get_blog. destruct (Blogs db !! id) as [b|].
    + cbn [snd json]. unfold populate_comments_user, populate, populate_ref. no_key Hk.
    + by destruct Hk as [-> | ->].
  - intros u body. unfold post_blog.
    destruct (isEmpty (create_validation body)); cbn [negb snd];
      [|by apply validation_failed_no_key].
    destruct (save_validates _ _); cbn [negb snd]; [|by destruct Hk as [-> | ->]].
    unfold populate, populate_ref. no_key Hk.
  - intros u id body. unfold put_blog.
    destruct (isEmpty (update_validation body)); cbn [negb snd];
      [|by apply validation_failed_no_key].
    destruct (Blogs db !! id) as [b|]; [|by destruct Hk as [-> | ->]].
    destruct (Pos.eqb (author b) u); cbn [negb snd]; [|by destruct Hk as [-> | ->]].
    destruct (isEmpty_paths _); cbn [snd];
      [unfold populate, populate_ref; no_key Hk|].
    destruct (save_validates _ _); cbn [negb snd]; [|by destruct Hk as [-> | ->]].
    unfold populate, populate_ref. no_key Hk.
  - intros u id. unfold delete_blog.
    destruct (Blogs db !! id) as [b|]; [|by destruct Hk as [-> | ->]].
    destruct (Pos.eqb (author b) u); by destruct Hk as [-> | ->].
  - intros u id. unfold post_like.
    destruct (Blogs db !! id) as [b|]; [|by destruct Hk as [-> | ->]].
    no_key Hk.
  - intros u id c. unfold post_comment.
    destruct (isEmpty (comment_validation c)); cbn [negb snd];
      [|by apply validation_failed_no_key].
    destruct (Blogs db !! id) as [b|]; [|by destruct Hk as [-> | ->]].
    destruct (schema_comment _); cbn [negb snd]; [|by destruct Hk as [-> | ->]].
    cbn [snd json]. unfold comment_json, populate, populate_ref. no_key Hk.
  - intros u q. unfold get_my_blogs.
    destruct (page_window _ _ _ _); [|by destruct Hk as [-> | ->]].
    by apply list_response_no_key.
Qed.

(** X12: no response of the blog and profile routes other than a 400
    carries a password, at any depth of its JSON; outside the public
    profile none of them carries an email address either, while the public
    profile shows the email address of the user to whoever asks.  (A 400 of
    the validation repeats the offending value of the request, which can
    hold anything.) *)
Theorem credentials_in_responses (db : Db) (now : Z) (r : Request) :
  (status (snd (handle db now r)) ≠ 400%Z →
     has_key "password" (json (snd (handle db now r))) = false)
  ∧ (status (snd (handle db now r)) ≠ 400%Z → (∀ id, r ≠ GET_profile id) →
     has_key "email" (json (snd (handle db now r))) = false)
  ∧ (∀ id u, r = GET_profile id → Users db !! id = Some u →
     json_field "email" (default VNull (json_field "user" (json (snd (handle db now r)))))
     = Some (VStr (email u))).
Proof.
  assert (Hall : ∀ k, k = "password" ∨ k = "email" →
            (∀ id, r ≠ GET_profile id) →
            has_key k (json (snd (handle db now r))) = false).
  { intros k Hk Hr.
    destruct (blog_handlers_no_key db now k Hk)
      as (H1 & H2 & H3 & H4 & H5 & H6 & H7 & H8).
    destruct r; cbn [handle snd]; auto. by destruct (Hr id). }
  split; [|split].
  - intros _. destruct r as [| | | | | | |id|]; try (apply Hall; [by left|done]).
    cbn [handle snd]. unfold get_profile.
    destruct (Users db !! id) as [u|]; [|done].
    cbn. rewrite existsb_fmap_false; [done|].
    intros ib. by apply (listing_items_no_key db "password"); left.
  - intros _ Hr. apply Hall; [by right|done].
  - intros id u -> Hu. cbn [handle snd]. unfold get_profile. by rewrite Hu.
Qed.

End Exposure.

Lemma credentials_in_responses_witness :
  json_field "email"
    (default VNull
       (json_field "user"
          (json (snd (handle (engine := literal_engine) db_three 900 (GET_profile bob))))))
  = Some (VStr "bob@example.com")
  ∧ has_key "email"
      (json (snd (handle (engine := literal_engine) db_three 900 (GET_blog 2%positive))))
    = false
  ∧ has_key "password"
      (json (snd (handle (engine := literal_engine) db_three 900 (GET_profile bob))))
    = false.
Proof.
  destruct (credentials_in_responses (engine := literal_engine) db_three 900
              (GET_profile bob)) as (Hpassword & _ & Hprofile).
  destruct (credentials_in_responses (engine := literal_engine) db_three 900
              (GET_blog 2%positive)) as (_ & Hblog & _).
  split; [|split].
  - apply (Hprofile bob (mkUser "bob" "bob@example.com" "secret-b" "" "")).
    + reflexivity.
    + vm_compute. reflexivity.
  - apply Hblog; [vm_compute|]; discriminate.
  - apply Hpassword. vm_compute. discriminate.
Defined.

(** ** What the validation chains accept *)

Section Chains.
Context {measure : TextMeasure}.

Lemma validate_empty ok path msg : validate ok path msg = [] ↔ ok = true.
Proof. by destruct ok. Qed.

Lemma tags_chain_empty body : tags_chain body = [] ↔ body_tags body ≠ Some TagsOther.
Proof. unfold tags_chain. by destruct (body_tags body) as [[ts|]|]. Qed.

Lemma create_validation_empty body :
  create_validation body = [] ↔
    str_or_empty (body_title body) ≠ ""
    ∧ (characters (str_or_empty (body_title body)) ≤ 200)%nat
    ∧ str_or_empty (body_content body) ≠ ""
    ∧ body_tags body ≠ Some TagsOther.
Proof.
  unfold create_validation.
  rewrite !app_nil, !validate_empty, !notEmpty_true, isLength_max_true, tags_chain_empty.
  tauto.
Qed.

Lemma update_validation_empty body :
  update_validation body = [] ↔
    (∀ t, body_title body = Some t → (characters t ≤ 200)%nat)
    ∧ body_content body ≠ Some ""
    ∧ body_tags body ≠ Some TagsOther.
Proof.
  unfold update_validation. rewrite !app_nil, tags_chain_empty.
  assert (Ht : optional (body_title body)
                 (fun t => validate (isLength_max 200 t) "title"
                             "Title must be less than 200 characters") = []
               ↔ ∀ t, body_title body = Some t → (characters t ≤ 200)%nat).
  { destruct (body_title body) as [t|]; cbn; [|done].
    rewrite validate_empty, isLength_max_true.
    split; [by intros H ? [= <-]|]. intros H. by apply H. }
  assert (Hc : optional (body_content body)
                 (fun c => validate (notEmpty c) "content" "Content cannot be empty") = []
               ↔ body_content body ≠ Some "").
  { destruct (body_content body) as [c|]; cbn; [|done].
    rewrite validate_empty, notEmpty_true. split; congruence. }
  tauto.
Qed.

Lemma post_blog_400 db now u body :
  status (snd (post_blog db now u body)) = 400%Z ↔ create_validation body ≠ [].
Proof.
  unfold post_blog. destruct (create_validation body) as [|e es]; cbn [isEmpty negb].
  - by destruct (save_validates _ _).
  - done.
Qed.

Lemma put_blog_400 db now u id body :
  status (snd (put_blog db now u id body)) = 400%Z ↔ update_validation body ≠ [].
Proof.
  split.
  - intros Hst Hv. rewrite put_blog_valid in Hst by done.
    destruct (Blogs db !! id) as [b|] eqn:Hb; [|done].
    destruct (Pos.eqb_spec (author b) u) as [Ha|]; [|done].
    destruct (put_blog_author db now u id body b Hv Hb Ha)
      as [(_ & _ & Hok)|[Herr|[_ Hok]]]; [congruence| |congruence].
    rewrite Herr in Hst. done.
  - intros Hv. by rewrite put_blog_invalid.
Qed.

(** X13: a create request is answered 400 exactly when the title is
    missing or empty or has more than 200 characters, as the validation
    library counts them (200 itself passes), or the content is missing or
    empty, or the tags are given and are not an array; this is decided
    without the database, which stays as it was.  Every other create
    request is answered 201, or 500 with the database as it was. *)
Theorem create_rejects_iff (db : Db) (now : Z) (u : ObjectId) (body : ReqBody) :
  let r := post_blog db now u body in
  (status (snd r) = 400%Z ↔
     str_or_empty (body_title body) = ""
     ∨ (200 < characters (str_or_empty (body_title body)))%nat
     ∨ str_or_empty (body_content body) = ""
     ∨ body_tags body = Some TagsOther)
  ∧ (status (snd r) = 400%Z → fst r = db)
  ∧ (status (snd r) ≠ 400%Z →
     status (snd r) = 201%Z ∨ (status (snd r) = 500%Z ∧ fst r = db)).
Proof.
  intros r. unfold r. split; [|split].
  - rewrite post_blog_400, create_validation_empty.
    destruct (decide (str_or_empty (body_title body) = "")) as [|Ht]; [tauto|].
    destruct (decide (str_or_empty (body_content body) = "")) as [|Hc]; [tauto|].
    assert (Htags : body_tags body = Some TagsOther ∨ body_tags body ≠ Some TagsOther)
      by (destruct (body_tags body) as [[ts|]|]; (by left) || (by right)).
    destruct Htags as [|Htags]; [tauto|].
    destruct (Nat.leb_spec (characters (str_or_empty (body_title body))) 200) as [Hl|Hl].
    + split; [tauto|]. intros [?|[?|[?|?]]]; [done|lia|done|done].
    + split; [tauto|]. intros _ (_ & ? & _). lia.
  - unfold post_blog. destruct (create_validation body) as [|e es]; cbn [isEmpty negb].
    + by destruct (save_validates _ _).
    + done.
  - unfold post_blog. destruct (create_validation body) as [|e es]; cbn [isEmpty negb].
    + destruct (save_validates _ _); cbn; [by left|by right].
    + done.
Qed.

(** X14: an update is answered 400 exactly when its title has more than
    200 characters, as the validation library counts them, or its content
    is the empty string, or its tags are not an array, whether or not the
    blog exists and whoever asks; the database is then as it was.  (So the
    chains of an update let an empty title through, which those of a create
    do not.) *)
Theorem update_rejects_iff (db : Db) (now : Z) (u id : ObjectId) (body : ReqBody) :
  let r := put_blog db now u id body in
  (status (snd r) = 400%Z ↔
     (∃ t, body_title body = Some t ∧ (200 < characters t)%nat)
     ∨ body_content body = Some ""
     ∨ body_tags body = Some TagsOther)
  ∧ (status (snd r) = 400%Z → fst r = db).
Proof.
  intros r. unfold r. split.
  - rewrite put_blog_400, update_validation_empty.
    destruct (decide (body_content body = Some "")) as [|Hc]; [tauto|].
    assert (Htags : body_tags body = Some TagsOther ∨ body_tags body ≠ Some TagsOther)
      by (destruct (body_tags body) as [[ts|]|]; (by left) || (by right)).
    destruct Htags as [|Htags]; [tauto|].
    destruct (body_title body) as [t|].
    + destruct (Nat.leb_spec (characters t) 200) as [Hl|Hl].
      * split.
        -- intros Hv. exfalso. apply Hv. split; [by intros ? [= <-]|done].
        -- intros [(t' & [= <-] & ?)|[?|?]]; [lia|done|done].
      * split.
        -- intros _. left. by exists t.
        -- intros _ (Ht & _). specialize (Ht t eq_refl). lia.
    + split.
      * intros Hv. exfalso. apply Hv. done.
      * intros [(t' & ? & _)|[?|?]]; done.
  - rewrite put_blog_400. intros Hv. by rewrite put_blog_invalid.
Qed.

End Chains.

Lemma create_rejects_iff_witness :
  String.length (accented 101) = 202%nat
  ∧ status (snd (post_blog db_empty 100 alice accented_body)) ≠ 400%Z
  ∧ status (snd (post_blog db_empty 100 alice empty_content_body)) = 400%Z.
Proof.
  destruct (create_rejects_iff db_empty 100 alice accented_body) as (Haccented & _).
  destruct (create_rejects_iff db_empty 100 alice empty_content_body) as (Hempty & _).
  split; [vm_compute; reflexivity|]. split.
  - intros H400. apply Haccented in H400. vm_compute in H400.
    destruct H400 as [H|[H|[H|H]]]; [discriminate|lia|discriminate|discriminate].
  - apply Hempty. left. reflexivity.
Defined.

Lemma update_rejects_iff_witness :
  status (snd (put_blog db_published 400 alice 1%positive accented_body)) ≠ 400%Z
  ∧ status (snd (put_blog db_published 400 alice 1%positive empty_content_body)) = 400%Z.
Proof.
  destruct (update_rejects_iff db_published 400 alice 1%positive accented_body)
    as (Haccented & _).
  destruct (update_rejects_iff db_published 400 alice 1%positive empty_content_body)
    as (Hempty & _).
  split.
  - intros H400. apply Haccented in H400. vm_compute in H400.
    destruct H400 as [(t & Ht & Hlen)|[H|H]]; [|discriminate|discriminate].
    injection Ht as <-. vm_compute in Hlen. lia.
  - apply Hempty. right. left. reflexivity.
Defined.

(** ** Statistics *)

Lemma sumZ_foldr {A} (g : A → Z) l :
  foldr (fun x acc => (g x + acc)%Z) 0%Z l = sumZ g l.
Proof. induction l as [|x l IH]; cbn; [done|]. by rewrite IH. Qed.

Lemma sumZ_ext {A} (f g : A → Z) l : (∀ x, f x = g x) → sumZ f l = sumZ g l.
Proof. intros Hfg. induction l as [|x l IH]; cbn; [done|]. by rewrite Hfg, IH. Qed.

Lemma sumZ_filter {A} (P : A → bool) (f : A → Z) l :
  sumZ f (List.filter P l) = sumZ (fun x => if P x then f x else 0%Z) l.
Proof.
  induction l as [|x l IH]; cbn; [done|].
  destruct (P x); cbn; rewrite IH; done.
Qed.

Lemma length_sumZ {A} (l : list A) : Z.of_nat (length l) = sumZ (fun _ => 1%Z) l.
Proof. induction l as [|x l IH]; cbn [length sumZ]; [done|]. lia. Qed.

Lemma sumZ_sub {A} (f g : A → Z) l :
  (sumZ f l - sumZ g l)%Z = sumZ (fun x => (f x - g x)%Z) l.
Proof. induction l as [|x l IH]; cbn [sumZ]; [done|]. lia. Qed.

Lemma sumZ_zero {A} (l : list A) : sumZ (fun _ => 0%Z) l = 0%Z.
Proof. induction l as [|x l IH]; cbn [sumZ]; [done|]. lia. Qed.

Lemma sumZ_perm {A} (f : A → Z) l l' : l ≡ₚ l' → sumZ f l = sumZ f l'.
Proof.
  induction 1 as [|x l l' _ IH|x y l|l l' l'' _ IH1 _ IH2]; cbn [sumZ].
  - done.
  - by rewrite IH.
  - lia.
  - congruence.
Qed.

Lemma total_of_insert g db users i b b' :
  Blogs db !! i = Some b →
  total_of g (mkDb (<[i := b']> (Blogs db)) users) = (total_of g db - g b + g b')%Z.
Proof.
  intros Hb. unfold total_of. cbn [Blogs].
  rewrite <- (insert_delete_eq (Blogs db)).
  rewrite (sumZ_perm _ _ _ (map_to_list_insert _ i b' (lookup_delete_eq _ _))).
  rewrite <- (insert_delete_id (Blogs db) i b Hb) at 2.
  rewrite (sumZ_perm _ _ _ (map_to_list_insert _ i b (lookup_delete_eq _ _))).
  cbn [sumZ snd]. lia.
Qed.

Section Statistics.
Context {engine : RegexEngine} {measure : TextMeasure}.

Lemma count_own db p u :
  countDocuments db (mkQuery p None None (Some u))
  = total_of (own u (fun b => match p with
                              | Some want => if Bool.eqb (published b) want then 1 else 0
                              | None => 1
                              end)%Z) db.
Proof.
  unfold countDocuments, find, total_of. rewrite length_sumZ, sumZ_filter.
  apply sumZ_ext. intros [i b]. unfold matches, own. cbn.
  destruct p as [want|]; cbn; rewrite ?andb_true_r;
    destruct (Pos.eqb (author b) u); try destruct (Bool.eqb _ _); done.
Qed.

Lemma aggregate_own db u f :
  num_or (head (aggregate_sum db (mkQuery None None None (Some u)) f)) 0
  = total_of (own u f) db.
Proof.
  unfold aggregate_sum.
  assert (Hsum : sumZ (fun ib => f (snd ib)) (find db (mkQuery None None None (Some u)))
                 = total_of (own u f) db).
  { unfold find, total_of. rewrite sumZ_filter. apply sumZ_ext.
    intros [i b]. unfold matches, own. cbn. by destruct (Pos.eqb (author b) u). }
  destruct (find db _) as [|ib found] eqn:Hfound.
  - by rewrite <- Hsum.
  - rewrite sumZ_foldr, Hsum. cbn [head num_or].
    by destruct (Z.eqb_spec (total_of (own u f) db) 0) as [->|].
Qed.

Lemma get_stats_sums db u :
  get_stats db u =
    mkRes 200
      (VObj [("totalBlogs", VNum (total_of (own u (fun _ => 1%Z)) db));
             ("publishedBlogs",
              VNum (total_of (own u (fun b => if published b then 1 else 0)%Z) db));
             ("draftBlogs",
              VNum (total_of (own u (fun b => if published b then 0 else 1)%Z) db));
             ("totalViews", VNum (total_of (own u views) db));
             ("totalLikes",
              VNum (total_of (own u (fun b => Z.of_nat (length (likes b)))) db))]).
Proof.
  unfold get_stats. rewrite !aggregate_own, !count_own.
  assert (Hpub : total_of (own u (fun b => if Bool.eqb (published b) true then 1 else 0)%Z) db
                 = total_of (own u (fun b => if published b then 1 else 0)%Z) db).
  { apply sumZ_ext. intros [i b]. unfold own. cbn. by destruct (published b). }
  rewrite Hpub. do 5 f_equal. do 2 f_equal.
  unfold total_of. rewrite sumZ_sub. apply sumZ_ext.
  intros [i b]. unfold own. cbn. destruct (Pos.eqb (author b) u), (published b); done.
Qed.

(** X15: the statistics of a user count that user's blogs and no one
    else's: totalBlogs is their number, publishedBlogs and draftBlogs the
    numbers of those with published true and false, which add up to
    totalBlogs; totalViews and totalLikes are the sums of their views and of
    the sizes of their likes; all are 0 for a user without blogs. *)
Theorem stats_count_own_blogs (db : Db) (u : ObjectId) :
  let r := get_stats db u in
  status r = 200%Z
  ∧ stat "totalBlogs" r = total_of (own u (fun _ => 1%Z)) db
  ∧ stat "publishedBlogs" r = total_of (own u (fun b => if published b then 1 else 0)%Z) db
  ∧ stat "draftBlogs" r = total_of (own u (fun b => if published b then 0 else 1)%Z) db
  ∧ stat "totalBlogs" r = (stat "publishedBlogs" r + stat "draftBlogs" r)%Z
  ∧ stat "totalViews" r = total_of (own u views) db
  ∧ stat "totalLikes" r = total_of (own u (fun b => Z.of_nat (length (likes b)))) db
  ∧ ((∀ id b, Blogs db !! id = Some b → author b ≠ u) →
     stat "totalBlogs" r = 0%Z ∧ stat "totalViews" r = 0%Z ∧ stat "totalLikes" r = 0%Z)
  ∧ (∀ q, query_published q = None →
     (1 ≤ num_or (query_page q) 1)%Z → (1 ≤ num_or (query_limit q) 10)%Z →
     report_field "totalBlogs" (get_my_blogs db u q) = Some (VNum (stat "totalBlogs" r))).
Proof.
  intros r.
  assert (Hmine : ∀ q, query_published q = None →
            (1 ≤ num_or (query_page q) 1)%Z → (1 ≤ num_or (query_limit q) 10)%Z →
            report_field "totalBlogs" (get_my_blogs db u q)
            = Some (VNum (stat "totalBlogs" r))).
  { intros q Hq Hp Hl. unfold get_my_blogs. rewrite page_window_pos by nia.
    rewrite Hq. reflexivity. }
  unfold r in *. rewrite get_stats_sums in *. unfold stat in *. cbn in *.
  split; [done|]. split; [done|]. split; [done|]. split; [done|].
  split.
  - unfold total_of. apply Z.sub_move_r. rewrite sumZ_sub. apply sumZ_ext.
    intros [i b]. unfold own. cbn.
    destruct (Pos.eqb (author b) u), (published b); done.
  - split; [done|]. split; [done|]. split; [|exact Hmine]. intros Hnone.
    assert (Hzero : ∀ g, total_of (own u g) db = 0%Z).
    { intros g. unfold total_of.
      assert (Hl : ∀ ib, ib ∈ map_to_list (Blogs db) → own u g (snd ib) = 0%Z).
      { intros [i b] Hin. apply elem_of_map_to_list in Hin. unfold own. cbn.
        destruct (Pos.eqb_spec (author b) u) as [Ha|]; [|done]. by destruct (Hnone i b). }
      induction (map_to_list (Blogs db)) as [|ib l IH]; cbn [sumZ]; [done|].
      rewrite Hl by constructor. rewrite IH; [done|].
      intros ib' Hin. apply Hl. by constructor. }
    by rewrite !Hzero.
Qed.

Lemma total_of_replace g db users i b b' :
  Blogs db !! i = Some b → g b' = g b →
  total_of g (mkDb (<[i := b']> (Blogs db)) users) = total_of g db.
Proof. intros Hb Hg. rewrite (total_of_insert g db users i b b' Hb). lia. Qed.

Lemma length_toggle_like w (l : list ObjectId) :
  NoDup l →
  Z.of_nat (length (toggle_like w l))
  = (Z.of_nat (length l) + (if bool_decide (w ∈ l) then -1 else 1))%Z.
Proof.
  intros Hnd. unfold toggle_like. destruct (bool_decide_reflect (w ∈ l)) as [Hin|Hin].
  - pose proof (Permutation_length (filter_ne_snoc w l Hnd Hin)) as Hlen.
    rewrite length_app in Hlen. cbn in Hlen. lia.
  - rewrite length_app. cbn. lia.
Qed.

(** X16: the statistics follow the retrievals: a single-post retrieval adds
    exactly 1 to the totalViews of the blog's author and changes no other
    figure of the author, and the statistics of every other user are as
    before. *)
Theorem stats_follow_retrievals (db : Db) (now : Z) (id : ObjectId) (b : Blog) :
  Blogs db !! id = Some b →
  let db' := fst (get_blog db now id) in
  stat "totalViews" (get_stats db' (author b))
  = (stat "totalViews" (get_stats db (author b)) + 1)%Z
  ∧ (∀ k, k ≠ "totalViews" →
       stat k (get_stats db' (author b)) = stat k (get_stats db (author b)))
  ∧ (∀ u, u ≠ author b → get_stats db' u = get_stats db u).
Proof.
  intros Hb db'.
  assert (Hdb : db' = mkDb (<[id := set_updatedAt now (set_views (views b + 1) b)]> (Blogs db))
                        (Users db)).
  { unfold db', get_blog. by rewrite Hb. }
  assert (Hsame : ∀ u g, (∀ x y, author x = author y → likes x = likes y →
                                 published x = published y → g x = g y) →
            total_of (own u g) db' = total_of (own u g) db).
  { intros u g Hg. rewrite Hdb. apply (total_of_replace _ _ _ _ b _ Hb).
    unfold own. cbn. destruct (Pos.eqb (author b) u); [|done]. by apply Hg. }
  assert (Hviews : ∀ u, total_of (own u views) db'
                        = (total_of (own u views) db
                           + (if Pos.eqb (author b) u then 1 else 0))%Z).
  { intros u. rewrite Hdb, (total_of_insert _ _ _ _ b _ Hb). unfold own. cbn.
    destruct (Pos.eqb (author b) u); lia. }
  rewrite !get_stats_sums. unfold stat. split; [|split].
  - cbn. rewrite Hviews, Pos.eqb_refl. done.
  - intros k Hk. cbn.
    rewrite (Hsame _ (fun _ => 1%Z)) by done.
    rewrite (Hsame _ (fun b0 => if published b0 then 1 else 0)%Z)
      by (by intros ? ? ? ? ->).
    rewrite (Hsame _ (fun b0 => if published b0 then 0 else 1)%Z)
      by (by intros ? ? ? ? ->).
    rewrite (Hsame _ (fun b0 => Z.of_nat (length (likes b0)))) by (by intros ? ? ? -> ?).
    destruct (String.eqb_spec k "totalViews") as [->|_]; [done|].
    reflexivity.
  - intros u Hu. rewrite !get_stats_sums. rewrite Hviews.
    apply Pos.eqb_neq in Hu. rewrite Pos.eqb_sym, Hu, Z.add_0_r.
    rewrite (Hsame _ (fun _ => 1%Z)) by done.
    rewrite (Hsame _ (fun b0 => if published b0 then 1 else 0)%Z)
      by (by intros ? ? ? ? ->).
    rewrite (Hsame _ (fun b0 => if published b0 then 0 else 1)%Z)
      by (by intros ? ? ? ? ->).
    rewrite (Hsame _ (fun b0 => Z.of_nat (length (likes b0)))) by (by intros ? ? ? -> ?).
    reflexivity.
Qed.

(** X17: the statistics follow the likes: in a database the server can
    reach, a like toggle adds 1 to the totalLikes of the blog's author when
    the requester did not like the blog and takes 1 away when the requester
    did; the other figures, and the statistics of every other user, are as
    before. *)
Theorem stats_follow_likes (db : Db) (now : Z) (w id : ObjectId) (b : Blog) :
  reachable db → Blogs db !! id = Some b →
  let db' := fst (post_like db now w id) in
  stat "totalLikes" (get_stats db' (author b))
  = (stat "totalLikes" (get_stats db (author b))
     + (if bool_decide (w ∈ likes b) then -1 else 1))%Z
  ∧ stat "totalViews" (get_stats db' (author b)) = stat "totalViews" (get_stats db (author b))
  ∧ stat "totalBlogs" (get_stats db' (author b)) = stat "totalBlogs" (get_stats db (author b))
  ∧ (∀ u, u ≠ author b → get_stats db' u = get_stats db u).
Proof.
  intros Hreach Hb db'.
  pose proof (reachable_likes_NoDup db Hreach id b Hb) as Hnd.
  assert (Hdb : db' = mkDb (<[id := set_updatedAt now
                                      (set_likes (toggle_like w (likes b)) b)]> (Blogs db))
                        (Users db)).
  { unfold db', post_like. by rewrite Hb. }
  assert (Hsame : ∀ u g, (∀ x y, author x = author y → views x = views y →
                                 published x = published y → g x = g y) →
            total_of (own u g) db' = total_of (own u g) db).
  { intros u g Hg. rewrite Hdb. apply (total_of_replace _ _ _ _ b _ Hb).
    unfold own. cbn. destruct (Pos.eqb (author b) u); [|done]. by apply Hg. }
  assert (Hlikes : ∀ u, total_of (own u (fun b => Z.of_nat (length (likes b)))) db'
                        = (total_of (own u (fun b => Z.of_nat (length (likes b)))) db
                           + (if Pos.eqb (author b) u
                              then (if bool_decide (w ∈ likes b) then -1 else 1)
                              else 0))%Z).
  { intros u. rewrite Hdb, (total_of_insert _ _ _ _ b _ Hb). unfold own. cbn.
    destruct (Pos.eqb (author b) u); [|lia]. rewrite length_toggle_like by done. lia. }
  rewrite !get_stats_sums. unfold stat. cbn. split; [|split; [|split]].
  - by rewrite Hlikes, Pos.eqb_refl.
  - rewrite Hsame; [done|]. by intros ? ? ? ? ?.
  - rewrite Hsame; [done|]. by intros ? ? ? ? ?.
  - intros u Hu. rewrite !get_stats_sums. rewrite Hlikes.
    apply Pos.eqb_neq in Hu. rewrite Pos.eqb_sym, Hu, Z.add_0_r.
    rewrite (Hsame _ (fun _ => 1%Z)) by done.
    rewrite (Hsame _ (fun b0 => if published b0 then 1 else 0)%Z)
      by (by intros ? ? ? ? ->).
    rewrite (Hsame _ (fun b0 => if published b0 then 0 else 1)%Z)
      by (by intros ? ? ? ? ->).
    rewrite (Hsame _ views) by (by intros ? ? ? ? ?).
    reflexivity.
Qed.

End Statistics.

Lemma stats_follow_retrievals_witness :
  stat "totalViews" (get_stats (engine := literal_engine)
                       (fst (get_blog db_three 900 2%positive)) bob) = 1%Z
  ∧ get_stats (engine := literal_engine) (fst (get_blog db_three 900 2%positive)) alice
    = get_stats (engine := literal_engine) db_three alice.
Proof.
  destruct (stats_follow_retrievals (engine := literal_engine) db_three 900 2%positive
              second_post) as (Hviews & _ & Hothers).
  { vm_compute. reflexivity. }
  split.
  - cbn [author second_post] in Hviews. rewrite Hviews. vm_compute. reflexivity.
  - apply Hothers. discriminate.
Defined.

Lemma stats_follow_likes_witness :
  stat "totalLikes" (get_stats (engine := literal_engine)
                       (fst (post_like db_published 300 bob 1%positive)) alice) = 1%Z.
Proof.
  destruct (stats_follow_likes (engine := literal_engine) db_published 300 bob 1%positive
              hello_published db_published_reachable) as (Hlikes & _).
  { vm_compute. reflexivity. }
  cbn [author hello_published] in Hlikes. rewrite Hlikes. vm_compute. reflexivity.
Defined.

(** ** Profile updates *)

Lemma username_pattern_true s :
  username_pattern s = true ↔
  s ≠ "" ∧ ∀ c, c ∈ list_ascii_of_string s → word_char c = true.
Proof.
  unfold username_pattern. destruct s as [|a s]; [by split; [|intros [? _]]|].
  rewrite forallb_forall. split.
  - intros Hall. split; [done|]. intros c Hc. by apply Hall, list_elem_of_In.
  - intros [_ Hall] c Hc. by apply Hall, list_elem_of_In.
Qed.

Section ProfileProps.
Context {urls : UrlValidator} {measure : TextMeasure}.

Lemma validate_nil ok path msg : validate ok path msg = [] ↔ ok = true.
Proof. by destruct ok. Qed.

Lemma isLength_min_max_true lo hi s :
  isLength_min_max lo hi s = true ↔ (lo ≤ characters s ≤ hi)%nat.
Proof. unfold isLength_min_max. rewrite andb_true_iff, !Nat.leb_le. tauto. Qed.

Lemma profile_validation_empty body :
  profile_validation body = [] ↔
    (∀ name, body_username body = Some name →
       (3 ≤ characters name ≤ 20)%nat ∧ username_pattern name = true)
    ∧ (∀ b, body_bio body = Some b → (characters b ≤ 500)%nat)
    ∧ (∀ a, body_avatar body = Some a → isURL a = true).
Proof.
  unfold profile_validation, optional.
  assert (HA : match body_username body with
               | Some name =>
                   (validate (isLength_min_max 3 20 name) "username"
                      "Username must be between 3 and 20 characters"
                    ++ validate (username_pattern name) "username"
                         "Username can only contain letters, numbers, and underscores")%list
               | None => []
               end = [] ↔
               ∀ name, body_username body = Some name →
                 (3 ≤ characters name ≤ 20)%nat ∧ username_pattern name = true).
  { destruct (body_username body) as [name|]; [|by split].
    rewrite app_nil, !validate_nil, isLength_min_max_true. split.
    - intros [? ?] ? [= <-]. by split.
    - intros Hn. destruct (Hn name eq_refl). by split. }
  assert (HB : match body_bio body with
               | Some b => validate (isLength_max 500 b) "bio"
                             "Bio must be less than 500 characters"
               | None => []
               end = [] ↔ ∀ b, body_bio body = Some b → (characters b ≤ 500)%nat).
  { destruct (body_bio body) as [b|]; [|by split].
    rewrite validate_nil, isLength_max_true. split.
    - by intros ? ? [= <-].
    - intros Hb. by apply Hb. }
  assert (HC : match body_avatar body with
               | Some a => validate (isURL a) "avatar" "Avatar must be a valid URL"
               | None => []
               end = [] ↔ ∀ a, body_avatar body = Some a → isURL a = true).
  { destruct (body_avatar body) as [a|]; [|by split].
    rewrite validate_nil. split.
    - by intros ? ? [= <-].
    - intros Ha. by apply Ha. }
  rewrite !app_nil, HA, HB, HC. tauto.
Qed.

(** The chains of a profile update fail exactly on these bodies. *)
Lemma profile_validation_fails body :
  profile_validation body ≠ [] ↔
    (∃ name, body_username body = Some name
       ∧ ((characters name < 3)%nat ∨ (20 < characters name)%nat
          ∨ username_pattern name = false))
    ∨ (∃ b, body_bio body = Some b ∧ (500 < characters b)%nat)
    ∨ (∃ a, body_avatar body = Some a ∧ isURL a = false).
Proof.
  rewrite profile_validation_empty. split.
  - intros Hv.
    destruct (body_username body) as [name|] eqn:Hn.
    + destruct (Nat.ltb_spec (characters name) 3); [left; exists name; tauto|].
      destruct (Nat.ltb_spec 20 (characters name)); [left; exists name; tauto|].
      destruct (username_pattern name) eqn:Hp; [|left; exists name; tauto].
      destruct (body_bio body) as [b|] eqn:Hb.
      * destruct (Nat.ltb_spec 500 (characters b)); [right; left; by exists b|].
        destruct (body_avatar body) as [a|] eqn:Ha.
        -- destruct (isURL a) eqn:Hurl; [|right; right; by exists a].
           exfalso. apply Hv. split; [intros ? [= <-]; split; [lia|done]|].
           split; [intros ? [= <-]; lia|]. by intros ? [= <-].
        -- exfalso. apply Hv. split; [intros ? [= <-]; split; [lia|done]|].
           split; [intros ? [= <-]; lia|]. done.
      * destruct (body_avatar body) as [a|] eqn:Ha.
        -- destruct (isURL a) eqn:Hurl; [|right; right; by exists a].
           exfalso. apply Hv. split; [intros ? [= <-]; split; [lia|done]|].
           split; [done|]. by intros ? [= <-].
        -- exfalso. apply Hv. split; [intros ? [= <-]; split; [lia|done]|]. done.
    + destruct (body_bio body) as [b|] eqn:Hb.
      * destruct (Nat.ltb_spec 500 (characters b)); [right; left; by exists b|].
        destruct (body_avatar body) as [a|] eqn:Ha.
        -- destruct (isURL a) eqn:Hurl; [|right; right; by exists a].
           exfalso. apply Hv. split; [done|].
           split; [intros ? [= <-]; lia|]. by intros ? [= <-].
        -- exfalso. apply Hv. split; [done|]. split; [intros ? [= <-]; lia|]. done.
      * destruct (body_avatar body) as [a|] eqn:Ha.
        -- destruct (isURL a) eqn:Hurl; [|right; right; by exists a].
           exfalso. apply Hv. split; [done|]. split; [done|]. by intros ? [= <-].
        -- exfalso. apply Hv. done.
  - intros [(name & Hn & Hbad)|[(b & Hb & Hlen)|(a & Ha & Hurl)]] (Hname & Hbio & Havatar).
    + destruct (Hname name Hn) as [Hlen Hp]. destruct Hbad as [?|[?|?]]; [lia|lia|congruence].
    + specialize (Hbio b Hb). lia.
    + specialize (Havatar a Ha). congruence.
Qed.

Lemma findOne_username_none db name :
  findOne_username db name = None ↔
  ∀ i v, Users db !! i = Some v → username v ≠ name.
Proof.
  unfold findOne_username. split.
  - intros Hnone i v Hv Hname.
    pose proof (find_none _ _ Hnone (i, v)) as Hf. cbn in Hf.
    rewrite Hname, String.eqb_refl in Hf.
    assert (true = false); [|done]. apply Hf. by apply list_elem_of_In, elem_of_map_to_list.
  - intros Hall. destruct (List.find _ _) as [[i v]|] eqn:Hfind; [|done].
    apply find_some in Hfind as [Hin Hname]. cbn in Hname.
    apply list_elem_of_In, elem_of_map_to_list in Hin.
    apply String.eqb_eq in Hname. by destruct (Hall i v Hin).
Qed.

(** What [PUT /profile] does, case by case. *)
Lemma put_profile_cases db u body :
  (profile_validation body ≠ [] ∧
   put_profile db u body = (db, validation_failed (profile_validation body)))
  ∨ (profile_validation body = [] ∧ Users db !! u = None ∧
     put_profile db u body = (db, mkRes 404 (message "User not found")))
  ∨ (∃ me name other v,
       profile_validation body = [] ∧ Users db !! u = Some me
       ∧ body_username body = Some name ∧ name ≠ username me
       ∧ Users db !! other = Some v ∧ username v = name
       ∧ put_profile db u body = (db, mkRes 400 (message "Username already taken")))
  ∨ (∃ me,
       profile_validation body = [] ∧ Users db !! u = Some me
       ∧ put_profile db u body = (db, server_error))
  ∨ (∃ me,
       profile_validation body = [] ∧ Users db !! u = Some me
       ∧ (∀ name, body_username body = Some name → name ≠ username me →
            ∀ i v, Users db !! i = Some v → username v ≠ name)
       ∧ fst (put_profile db u body)
         = mkDb (Blogs db)
             (<[u := mkUser (default (username me) (body_username body)) (email me)
                      (password me) (default (bio me) (body_bio body))
                      (default (avatar me) (body_avatar body))]> (Users db))
       ∧ status (snd (put_profile db u body)) = 200%Z
       ∧ json_field "user" (json (snd (put_profile db u body)))
         = Some (VObj [("id", VId u);
                       ("username", VStr (default (username me) (body_username body)));
                       ("email", VStr (email me));
                       ("bio", VStr (default (bio me) (body_bio body)));
                       ("avatar", VStr (default (avatar me) (body_avatar body)))])
       ∧ has_key "password" (json (snd (put_profile db u body))) = false).
Proof.
  pose proof (profile_validation_empty body) as Hv.
  unfold put_profile.
  destruct (profile_validation body) as [|e es] eqn:Hval; [|by left].
  right. cbn [isEmpty negb].
  destruct (Users db !! u) as [me|] eqn:Hme; [|by left].
  right.
  assert (Hsaved : ∀ taken : bool,
    taken = false →
    let r := (if taken then (db, mkRes 400 (message "Username already taken"))
              else
                let stored := me in
                let user :=
                  mkUser
                    (match body_username body with Some name => name | None => username me end)
                    (email me) (password me)
                    (match body_bio body with Some b => b | None => bio me end)
                    (match body_avatar body with Some a => a | None => avatar me end) in
                if negb (user_save_validates stored user) then (db, server_error)
                else
                  (mkDb (Blogs db) (<[u := user]> (Users db)),
                   mkRes 200
                     (VObj [("message", VStr "Profile updated successfully");
                            ("user", VObj [("id", VId u);
                                           ("username", VStr (username user));
                                           ("email", VStr (email user));
                                           ("bio", VStr (bio user));
                                           ("avatar", VStr (avatar user))])]))) in
    r = (db, server_error)
    ∨ (fst r
       = mkDb (Blogs db)
           (<[u := mkUser (default (username me) (body_username body)) (email me)
                    (password me) (default (bio me) (body_bio body))
                    (default (avatar me) (body_avatar body))]> (Users db))
       ∧ status (snd r) = 200%Z
       ∧ json_field "user" (json (snd r))
         = Some (VObj [("id", VId u);
                       ("username", VStr (default (username me) (body_username body)));
                       ("email", VStr (email me));
                       ("bio", VStr (default (bio me) (body_bio body)));
                       ("avatar", VStr (default (avatar me) (body_avatar body)))])
       ∧ has_key "password" (json (snd r)) = false)).
  { intros taken ->. cbv zeta.
    destruct (user_save_validates _ _); cbn [negb]; [right|by left].
    split; [by destruct (body_username body), (body_bio body), (body_avatar body)|].
    split; [done|].
    split; [by destruct (body_username body), (body_bio body), (body_avatar body)|].
    reflexivity. }
  assert (Hfinish : ∀ taken : bool,
    taken = false →
    (∀ name, body_username body = Some name → name ≠ username me →
       ∀ i v, Users db !! i = Some v → username v ≠ name) →
    ∀ r, (r = (db, server_error)
          ∨ (fst r
             = mkDb (Blogs db)
                 (<[u := mkUser (default (username me) (body_username body)) (email me)
                          (password me) (default (bio me) (body_bio body))
                          (default (avatar me) (body_avatar body))]> (Users db))
             ∧ status (snd r) = 200%Z
             ∧ json_field "user" (json (snd r))
               = Some (VObj [("id", VId u);
                             ("username", VStr (default (username me) (body_username body)));
                             ("email", VStr (email me));
                             ("bio", VStr (default (bio me) (body_bio body)));
                             ("avatar", VStr (default (avatar me) (body_avatar body)))])
             ∧ has_key "password" (json (snd r)) = false)) →
    (∃ me0, @nil Value = [] ∧ Some me = Some me0 ∧ r = (db, server_error))
    ∨ (∃ me0, @nil Value = [] ∧ Some me = Some me0
         ∧ (∀ name, body_username body = Some name → name ≠ username me0 →
              ∀ i v, Users db !! i = Some v → username v ≠ name)
         ∧ fst r
           = mkDb (Blogs db)
               (<[u := mkUser (default (username me0) (body_username body)) (email me0)
                        (password me0) (default (bio me0) (body_bio body))
                        (default (avatar me0) (body_avatar body))]> (Users db))
         ∧ status (snd r) = 200%Z
         ∧ json_field "user" (json (snd r))
           = Some (VObj [("id", VId u);
                         ("username", VStr (default (username me0) (body_username body)));
                         ("email", VStr (email me0));
                         ("bio", VStr (default (bio me0) (body_bio body)));
                         ("avatar", VStr (default (avatar me0) (body_avatar body)))])
         ∧ has_key "password" (json (snd r)) = false)).
  { intros taken _ Hfree r [Herr|(Hdb & Hst & Hjson & Hkey)]; [left|right]; exists me.
    - split; [done|]. by split.
    - split; [done|]. split; [done|]. split; [exact Hfree|]. by repeat split. }
  destruct (body_username body) as [name|] eqn:Hname.
  - destruct (proj1 Hv eq_refl) as (Hn & _ & _). destruct (Hn name eq_refl) as [Hlen _].
    assert (Htruthy : truthy name = true).
    { unfold truthy. destruct (String.eqb_spec name "") as [->|]; [|done].
      rewrite characters_empty in Hlen. lia. }
    rewrite Htruthy. cbn [andb].
    destruct (String.eqb_spec name (username me)) as [Heq|Hne]; cbn [negb].
    + right. apply (Hfinish false eq_refl); [|exact (Hsaved false eq_refl)].
      intros ? [= <-] Hdiff. done.
    + destruct (findOne_username db name) as [[other v]|] eqn:Hfind.
      * left. exists me, name, other, v.
        apply find_some in Hfind as [Hin Hv']. cbn in Hv'. apply String.eqb_eq in Hv'.
        apply list_elem_of_In, elem_of_map_to_list in Hin. by repeat split.
      * right. apply (Hfinish false eq_refl); [|exact (Hsaved false eq_refl)].
        intros ? [= <-] _. by apply findOne_username_none.
  - right. apply (Hfinish false eq_refl); [done|exact (Hsaved false eq_refl)].
Qed.

(** X18: a profile update is refused without any change to the database.
    It is answered 400 when a field fails its chain, whether or not the
    user exists: a username of fewer than 3 or more than 20 characters, as
    the validation library counts them, or with a character that is not a
    letter, a digit or an underscore; a bio of more than 500 characters; an
    avatar that is not a URL.  It is answered 404 when the chains pass and
    the user does not exist, and 400 when the new username differs from the
    requester's own and belongs to some user.  Whenever the answer is not
    200 the database is as it was, and no answer changes a blog. *)
Theorem profile_update_refusals (db : Db) (u : ObjectId) (body : ProfileBody) :
  let r := put_profile db u body in
  (profile_validation body ≠ [] ↔
     (∃ name, body_username body = Some name
        ∧ ((characters name < 3)%nat ∨ (20 < characters name)%nat
           ∨ username_pattern name = false))
     ∨ (∃ b, body_bio body = Some b ∧ (500 < characters b)%nat)
     ∨ (∃ a, body_avatar body = Some a ∧ isURL a = false))
  ∧ (profile_validation body ≠ [] → status (snd r) = 400%Z)
  ∧ (profile_validation body = [] → Users db !! u = None → status (snd r) = 404%Z)
  ∧ (∀ me name other v,
       profile_validation body = [] → Users db !! u = Some me →
       body_username body = Some name → name ≠ username me →
       Users db !! other = Some v → username v = name →
       snd r = mkRes 400 (message "Username already taken"))
  ∧ (status (snd r) ≠ 200%Z → fst r = db)
  ∧ Blogs (fst r) = Blogs db.
Proof.
  intros r. unfold r. split; [apply profile_validation_fails|].
  destruct (put_profile_cases db u body)
    as [[Hv ->]|[(Hv & Hu & ->)|[(me & name & other & v & Hv & Hu & Hn & Hne & Ho & Hov & ->)
                                |[(me & Hv & Hu & Herr)
                                 |(me & Hv & Hu & Hfree & Hdb & Hst & _)]]]].
  - cbn. split; [done|]. split; [done|]. split; [done|]. done.
  - cbn. split; [done|]. split; [done|]. split; [|done]. intros; congruence.
  - cbn. split; [done|]. split; [intros; congruence|]. split; [done|]. done.
  - rewrite Herr. cbn. split; [done|]. split; [intros; congruence|]. split; [|done].
    intros me' name other v _ Hme' Hn Hne Ho Hov. exfalso.
    revert Herr. unfold put_profile. rewrite Hv, Hme', Hn. cbn [isEmpty negb].
    assert (Htruthy : truthy name = true).
    { apply profile_validation_empty in Hv as (Hname & _).
      destruct (Hname name Hn) as [Hlen _].
      unfold truthy. destruct (String.eqb_spec name "") as [->|]; [|done].
      rewrite characters_empty in Hlen. lia. }
    rewrite Htruthy. apply String.eqb_neq in Hne. rewrite Hne. cbn [andb negb].
    destruct (findOne_username db name) eqn:Hfind; [done|].
    exfalso. by eapply (proj1 (findOne_username_none db name) Hfind other v).
  - rewrite Hst, Hdb. cbn. split; [done|]. split; [intros; congruence|].
    split; [|done]. intros me' name other v _ Hme' Hn Hne Ho Hov.
    rewrite Hu in Hme'. injection Hme' as <-.
    by destruct (Hfree name Hn Hne other v Ho).
Qed.

(** X19: a successful profile update writes the username, bio and avatar
    that the body has and keeps the others; the email and the password of
    the user, every other user and every blog are as before; the answer
    shows the id, username, email, bio and avatar of the user and no
    password. *)
Theorem profile_update_writes_own_fields (db : Db) (u : ObjectId) (body : ProfileBody) :
  let r := put_profile db u body in
  status (snd r) = 200%Z →
  ∃ me me',
    Users db !! u = Some me ∧ Users (fst r) !! u = Some me'
    ∧ username me' = default (username me) (body_username body)
    ∧ bio me' = default (bio me) (body_bio body)
    ∧ avatar me' = default (avatar me) (body_avatar body)
    ∧ email me' = email me ∧ password me' = password me
    ∧ (∀ i, i ≠ u → Users (fst r) !! i = Users db !! i)
    ∧ Blogs (fst r) = Blogs db
    ∧ json_field "user" (json (snd r))
      = Some (VObj [("id", VId u); ("username", VStr (username me'));
                    ("email", VStr (email me')); ("bio", VStr (bio me'));
                    ("avatar", VStr (avatar me'))])
    ∧ has_key "password" (json (snd r)) = false.
Proof.
  intros r. unfold r.
  destruct (put_profile_cases db u body)
    as [[Hv Hr]|[(Hv & Hu & Hr)|[(me & name & other & v & Hv & Hu & Hn & Hne & Ho & Hov & Hr)
                                |[(me & Hv & Hu & Hr)
                                 |(me & Hv & Hu & Hfree & Hdb & Hst & Hjson & Hkey)]]]];
    try (rewrite Hr; cbn; intros; congruence).
  intros _. eexists me, _. rewrite Hdb. cbn [Users Blogs].
  split; [done|]. split; [apply lookup_insert_eq|]. cbn.
  do 5 (split; [done|]). split; [intros i Hi; by apply lookup_insert_ne|].
  split; [done|]. split; [exact Hjson|exact Hkey].
Qed.

(** X20: profile updates keep usernames unique: when no two users have the
    same username before a profile update, none have after it, whatever
    the update. *)
Theorem profile_update_keeps_usernames_unique (db : Db) (u : ObjectId)
    (body : ProfileBody) :
  usernames_unique db → usernames_unique (fst (put_profile db u body)).
Proof.
  intros Huniq.
  destruct (put_profile_cases db u body)
    as [[Hv ->]|[(Hv & Hu & ->)|[(me & name & other & v & Hv & Hu & Hn & Hne & Ho & Hov & ->)
                                |[(me & Hv & Hu & ->)
                                 |(me & Hv & Hu & Hfree & -> & _)]]]]; try exact Huniq.
  assert (Hclash : ∀ j v, j ≠ u → Users db !! j = Some v →
            username v ≠ default (username me) (body_username body)).
  { intros j v Hj Hjv Heq. destruct (body_username body) as [name|] eqn:Hn; cbn in Heq.
    - destruct (decide (name = username me)) as [Hsame|Hne].
      + apply Hj. apply (Huniq j u v me Hjv Hu). congruence.
      + by destruct (Hfree name eq_refl Hne j v Hjv).
    - apply Hj. by apply (Huniq j u v me Hjv Hu). }
  intros i j x y. cbn [Users]. rewrite !lookup_insert.
  repeat case_decide; subst.
  - done.
  - intros [= <-] Hy Heq. cbn in Heq. by destruct (Hclash j y).
  - intros Hx [= <-] Heq. cbn in Heq. by destruct (Hclash i x).
  - apply Huniq.
Qed.

End ProfileProps.

Lemma sample_usernames_unique : usernames_unique db_three.
Proof.
  intros i j x y. change (Users db_three) with sample_users. unfold sample_users.
  rewrite !lookup_insert_Some, !lookup_singleton_Some.
  intros [[<- <-]|[_ [<- <-]]] [[<- <-]|[_ [<- <-]]]; cbn; congruence.
Qed.

Lemma profile_update_refusals_witness :
  status (snd (put_profile (urls := http_urls) db_three bob
                 (mkProfileBody (Some "ab") None None))) = 400%Z
  ∧ snd (put_profile (urls := http_urls) db_three bob
           (mkProfileBody (Some "alice") None None))
    = mkRes 400 (message "Username already taken").
Proof.
  destruct (profile_update_refusals (urls := http_urls) db_three bob
              (mkProfileBody (Some "ab") None None)) as (Hfails & Hinvalid & _).
  destruct (profile_update_refusals (urls := http_urls) db_three bob
              (mkProfileBody (Some "alice") None None)) as (_ & _ & _ & Htaken & _).
  split.
  - apply Hinvalid, Hfails. left. exists "ab". split; [reflexivity|].
    left. vm_compute. lia.
  - apply (Htaken (mkUser "bob" "bob@example.com" "secret-b" "" "") "alice" alice
             (mkUser "alice" "alice@example.com" "secret-a" "" ""));
      try (vm_compute; reflexivity); discriminate.
Defined.

Lemma profile_update_writes_own_fields_witness :
  ∃ me', Users (fst (put_profile (urls := http_urls) db_three bob rename_body)) !! bob
         = Some me'
         ∧ username me' = "bobby_2" ∧ email me' = "bob@example.com"
         ∧ password me' = "secret-b".
Proof.
  destruct (profile_update_writes_own_fields (urls := http_urls) db_three bob rename_body)
    as (me & me' & Hme & Hme' & Hname & _ & _ & Hemail & Hpw & _).
  { vm_compute. reflexivity. }
  assert (me = mkUser "bob" "bob@example.com" "secret-b" "" "") as ->.
  { vm_compute in Hme. by injection Hme as <-. }
  exists me'. split; [exact Hme'|]. split; [exact Hname|]. split; [exact Hemail|exact Hpw].
Defined.

Lemma profile_update_keeps_usernames_unique_witness :
  usernames_unique (fst (put_profile (urls := http_urls) db_three bob rename_body)).
Proof.
  apply (profile_update_keeps_usernames_unique (urls := http_urls) db_three bob rename_body).
  exact sample_usernames_unique.
Defined.

(** ** Listings are bounded *)

Section Bounded.
Context {engine : RegexEngine} {measure : TextMeasure}.

Lemma page_window_length db query skip limit w :
  limit ≠ 0%Z → page_window db query skip limit = Some w →
  (length w ≤ Z.to_nat (Z.abs limit))%nat.
Proof.
  unfold page_window, cursor_skip, cursor_limit. intros Hl.
  destruct (skip <? 0)%Z; [done|]. cbn. intros [= <-].
  destruct (Z.eqb_spec limit 0); [done|]. rewrite length_take. lia.
Qed.

Lemma num_or_nonzero x d : d ≠ 0%Z → num_or x d ≠ 0%Z.
Proof.
  intros Hd. unfold num_or. destruct x as [n|]; [|done].
  by destruct (Z.eqb_spec n 0).
Qed.

(** X21: a listing is never unbounded: whatever the parameters, a list
    response holds at most |limit| documents, where a limit that is absent,
    not a number or 0 counts as 10; so no request makes the public listing
    or the requester's own return the whole collection at once unless it
    names a limit that large. *)
Theorem listings_are_bounded (db : Db) (u : ObjectId) (q : ReqQuery) (ds : list Value) :
  blogs_of (get_blogs db q) = Some ds ∨ blogs_of (get_my_blogs db u q) = Some ds →
  (length ds ≤ Z.to_nat (Z.abs (num_or (query_limit q) 10)))%nat
  ∧ (query_limit q = None ∨ query_limit q = Some 0%Z → (length ds ≤ 10)%nat).
Proof.
  intros Hds.
  assert (Hlen : (length ds ≤ Z.to_nat (Z.abs (num_or (query_limit q) 10)))%nat).
  { destruct Hds as [Hds|Hds].
    - apply get_blogs_blogs in Hds as (query & w & _ & Hw & ->). rewrite length_fmap.
      eapply page_window_length; [|exact Hw]. by apply num_or_nonzero.
    - apply get_my_blogs_blogs in Hds as (w & Hw & ->). rewrite length_fmap.
      eapply page_window_length; [|exact Hw]. by apply num_or_nonzero. }
  split; [exact Hlen|]. intros [Hq|Hq]; rewrite Hq in Hlen; cbn in Hlen; lia.
Qed.

End Bounded.

Lemma listings_are_bounded_witness :
  (length [public_item db_three (2%positive, second_post);
           public_item db_three (1%positive, hello_liked)] ≤ 10)%nat.
Proof.
  apply (listings_are_bounded (engine := literal_engine) db_three alice
           (mkReqQuery None (Some 0%Z) None None None None)).
  - left. vm_compute. reflexivity.
  - right. reflexivity.
Defined.
